(** * PollyXT to SCC conversion: a shallow embedding and its properties

    The development follows the two source modules
    [pollyxt_pipelines/polly_to_scc/scc_netcdf.py] and
    [pollyxt_pipelines/scc_access/types.py].  Python values are modelled
    by Rocq data, exceptions by the [result] type, the netCDF dataset under
    construction by a state-and-exception monad. *)

From stdpp Require Import gmap strings list fin_maps.
From Stdlib Require Import Ascii ZArith QArith Lia.
Close Scope Q_scope.


(** ** Exceptions and fallible computations *)

Inductive exn : Type :=
| ValueError (msg : string)
| IndexError
| KeyError (key : string)
| TypeError
| AttributeError
| OverflowError
| OtherError (msg : string).

Inductive result (A : Type) : Type :=
| Ok (a : A)
| Raise (e : exn).
Arguments Ok {A} a.
Arguments Raise {A} e.

#[global] Instance result_ret : MRet result := fun A a => Ok a.
#[global] Instance result_bind : MBind result := fun A B f m =>
  match m with
  | Ok a => f a
  | Raise e => Raise e
  end.

Definition is_Ok {A} (r : result A) : Prop :=
  match r with Ok _ => True | Raise _ => False end.

(** ** Python's [datetime] and [timedelta]

    A naive [datetime] is modelled by the proleptic Gregorian ordinal of
    its date ([datetime.toordinal], day 1 is 0001-01-01) and its four
    time-of-day fields.  Year, month and day are recovered from the ordinal
    with CPython's [_ord2ymd]; [mk_datetime] builds a value from calendar
    fields with [_ymd2ord].  A [timedelta] is its total number of
    microseconds. *)

Module datetime.
Local Open Scope Z_scope.

Record t : Type := mk {
  ordinal : Z;
  hour : Z;
  minute : Z;
  second : Z;
  microsecond : Z
}.

Definition timedelta : Type := Z.

(** [timedelta(hours=h, minutes=m)] *)
Definition timedelta_hm (hours minutes : Z) : timedelta :=
  (hours * 3600 + minutes * 60) * 1000000.

Definition MAXORDINAL : Z := 3652059.

Definition valid (d : t) : Prop :=
  1 <= ordinal d <= MAXORDINAL /\
  0 <= hour d < 24 /\ 0 <= minute d < 60 /\
  0 <= second d < 60 /\ 0 <= microsecond d < 1000000.

(** *** Calendar arithmetic ([_ymd2ord], [_ord2ymd]) *)

Definition is_leap (year : Z) : bool :=
  (year mod 4 =? 0) && (negb (year mod 100 =? 0) || (year mod 400 =? 0)).

Definition DAYS_IN_MONTH : list Z :=
  [-1; 31; 28; 31; 30; 31; 30; 31; 31; 30; 31; 30; 31].

Definition DAYS_BEFORE_MONTH : list Z :=
  [-1; 0; 31; 59; 90; 120; 151; 181; 212; 243; 273; 304; 334].

Definition days_before_year (year : Z) : Z :=
  let y := year - 1 in
  y * 365 + y / 4 - y / 100 + y / 400.

Definition days_before_month (year month : Z) : Z :=
  nth (Z.to_nat month) DAYS_BEFORE_MONTH 0
  + (if (2 <? month) && is_leap year then 1 else 0).

Definition ymd2ord (year month day : Z) : Z :=
  days_before_year year + days_before_month year month + day.

Definition DI400Y : Z := 146097.
Definition DI100Y : Z := 36524.
Definition DI4Y : Z := 1461.

Definition ord2ymd (n0 : Z) : Z * Z * Z :=
  let n := n0 - 1 in
  let n400 := n / DI400Y in
  let n := n mod DI400Y in
  let year := n400 * 400 + 1 in
  let n100 := n / DI100Y in
  let n := n mod DI100Y in
  let n4 := n / DI4Y in
  let n := n mod DI4Y in
  let n1 := n / 365 in
  let n := n mod 365 in
  let year := year + n100 * 100 + n4 * 4 + n1 in
  if (n1 =? 4) || (n100 =? 4) then (year - 1, 12, 31)
  else
    let leapyear := (n1 =? 3) && (negb (n4 =? 24) || (n100 =? 3)) in
    let month := Z.shiftr (n + 50) 5 in
    let preceding :=
      nth (Z.to_nat month) DAYS_BEFORE_MONTH 0
      + (if (2 <? month) && leapyear then 1 else 0) in
    if n <? preceding then
      let month := month - 1 in
      let preceding :=
        preceding
        - (nth (Z.to_nat month) DAYS_IN_MONTH 0
           + (if (month =? 2) && leapyear then 1 else 0)) in
      (year, month, n - preceding + 1)
    else (year, month, n - preceding + 1).

Definition year (d : t) : Z := (ord2ymd (ordinal d)).1.1.
Definition month (d : t) : Z := (ord2ymd (ordinal d)).1.2.
Definition day (d : t) : Z := (ord2ymd (ordinal d)).2.

(** [datetime(year, month, day, hour, minute, second, microsecond)] *)
Definition mk_datetime (y m d hh mm ss us : Z) : t :=
  mk (ymd2ord y m d) hh mm ss us.

(** *** Comparison: lexicographic on the fields, as [datetime._cmp] *)

Definition fields (d : t) : list Z :=
  [ordinal d; hour d; minute d; second d; microsecond d].

Fixpoint lex_ltb (a b : list Z) : bool :=
  match a, b with
  | x :: a', y :: b' => (x <? y) || ((x =? y) && lex_ltb a' b')
  | [], _ :: _ => true
  | _, [] => false
  end.

Definition ltb (a b : t) : bool := lex_ltb (fields a) (fields b).
Definition gtb (a b : t) : bool := ltb b a.

(** *** [replace]: keyword arguments left out keep the field *)

Definition replace (d : t) (hour' minute' second' microsecond' : option Z) : t :=
  mk (ordinal d)
     (default (hour d) hour')
     (default (minute d) minute')
     (default (second d) second')
     (default (microsecond d) microsecond').

(** *** Addition of a [timedelta], as [datetime.__add__] *)

Definition US_PER_SECOND : Z := 1000000.
Definition US_PER_DAY : Z := 86400 * US_PER_SECOND.

Definition to_us (d : t) : Z :=
  (((ordinal d * 24 + hour d) * 60 + minute d) * 60 + second d) * US_PER_SECOND
  + microsecond d.

Definition add (d : t) (delta : timedelta) : result t :=
  let total := to_us d + delta in
  let days := total / US_PER_DAY in
  let rem_us := total mod US_PER_DAY in
  let seconds := rem_us / US_PER_SECOND in
  let microseconds := rem_us mod US_PER_SECOND in
  let hour := seconds / 3600 in
  let rem := seconds mod 3600 in
  let minute := rem / 60 in
  let second := rem mod 60 in
  if (0 <? days) && (days <=? MAXORDINAL)
  then Ok (mk days hour minute second microseconds)
  else Raise OverflowError.

(** *** [strftime]

    The conversions the program uses are interpreted: [%Y] (four digits),
    [%m], [%d], [%H], [%M], [%S] (two digits each) and [%%].  Any other
    character after [%] is outside the program's formats and is copied
    through together with the [%]. *)

Definition digit (n : Z) : ascii := ascii_of_nat (48 + Z.to_nat (n mod 10)).

Definition pad2 (n : Z) : string :=
  String (digit (n / 10)) (String (digit n) EmptyString).

Definition pad4 (n : Z) : string :=
  String (digit (n / 1000)) (String (digit (n / 100)) (pad2 n)).

Definition directive (d : t) (c : ascii) : string :=
  if Ascii.eqb c "Y" then pad4 (year d)
  else if Ascii.eqb c "m" then pad2 (month d)
  else if Ascii.eqb c "d" then pad2 (day d)
  else if Ascii.eqb c "H" then pad2 (hour d)
  else if Ascii.eqb c "M" then pad2 (minute d)
  else if Ascii.eqb c "S" then pad2 (second d)
  else if Ascii.eqb c "%" then "%"
  else String "%" (String c EmptyString).

Fixpoint strftime (d : t) (format : string) : string :=
  match format with
  | EmptyString => EmptyString
  | String c rest =>
      if Ascii.eqb c "%" then
        match rest with
        | EmptyString => "%"
        | String c' rest' => directive d c' +:+ strftime d rest'
        end
      else String c (strftime d rest)
  end.

(** *** [isoformat]: [YYYY-MM-DDTHH:MM:SS], then [.ffffff] when the
    microsecond is not zero *)

Definition pad6 (n : Z) : string :=
  String (digit (n / 100000)) (String (digit (n / 10000)) (pad4 n)).

Definition isoformat (d : t) : string :=
  pad4 (year d) +:+ "-" +:+ pad2 (month d) +:+ "-" +:+ pad2 (day d) +:+ "T"
  +:+ pad2 (hour d) +:+ ":" +:+ pad2 (minute d) +:+ ":" +:+ pad2 (second d)
  +:+ (if microsecond d =? 0 then EmptyString else "." +:+ pad6 (microsecond d)).

End datetime.

(** ** numpy arrays

    An array is its shape and its items by index; [getitem] interprets a
    basic indexing expression made of integers and full slices. *)

Module np.

Record ndarray (A : Type) : Type := mk {
  shape : list nat;
  item : list nat -> A
}.
Arguments mk {A} shape item.
Arguments shape {A} _.
Arguments item {A} _ _.

Definition prod (l : list nat) : nat := foldr Nat.mul 1%nat l.

(** [a.size] *)
Definition nelem {A} (a : ndarray A) : nat := prod (shape a).

(** [np.size(a, axis=k)] *)
Definition size {A} (a : ndarray A) (axis : nat) : result nat :=
  match shape a !! axis with
  | Some n => Ok n
  | None => Raise IndexError
  end.

Definition scalar {A} (x : A) : ndarray A := mk [] (fun _ => x).

(** [np.array([x0, x1, ...])] *)
Definition array (l : list Z) : ndarray Z :=
  mk [length l] (fun idx => match idx with [i] => nth i l 0%Z | _ => 0%Z end).

Definition zeros (n : nat) : ndarray Z := mk [n] (fun _ => 0%Z).

(** [np.repeat(x, n)] for a scalar [x] *)
Definition repeat (x : Z) (n : nat) : ndarray Z := mk [n] (fun _ => x).

Definition swap_list {A} (i j : nat) (l : list A) : option (list A) :=
  match l !! i, l !! j with
  | Some x, Some y => Some (<[i:=y]> (<[j:=x]> l))
  | _, _ => None
  end.

(** [np.swapaxes(a, i, j)] *)
Definition swapaxes {A} (a : ndarray A) (i j : nat) : result (ndarray A) :=
  match swap_list i j (shape a) with
  | Some s => Ok (mk s (fun idx => item a (default idx (swap_list i j idx))))
  | None => Raise (ValueError "axis out of bounds")
  end.

(** Row-major position of an index and back. *)
Fixpoint ravel (sh idx : list nat) : nat :=
  match sh, idx with
  | _ :: sh', i :: idx' => (i * prod sh' + ravel sh' idx')%nat
  | _, _ => 0%nat
  end.

Fixpoint unravel (sh : list nat) (n : nat) : list nat :=
  match sh with
  | [] => []
  | _ :: sh' => (n / prod sh')%nat :: unravel sh' (n mod prod sh')%nat
  end.

Inductive selector : Type :=
| Idx (i : nat)
| All.

Fixpoint sel_shape (sel : list selector) (sh : list nat) : result (list nat) :=
  match sel, sh with
  | [], _ => Ok sh
  | _ :: _, [] => Raise IndexError
  | Idx i :: sel', n :: sh' =>
      if (i <? n)%nat then sel_shape sel' sh' else Raise IndexError
  | All :: sel', n :: sh' => s ← sel_shape sel' sh'; Ok (n :: s)
  end.

Fixpoint sel_index (sel : list selector) (idx : list nat) : list nat :=
  match sel with
  | [] => idx
  | Idx i :: sel' => i :: sel_index sel' idx
  | All :: sel' =>
      match idx with
      | j :: idx' => j :: sel_index sel' idx'
      | [] => []
      end
  end.

(** [a[sel]] *)
Definition getitem {A} (a : ndarray A) (sel : list selector) : result (ndarray A) :=
  sh ← sel_shape sel (shape a);
  Ok (mk sh (fun idx => item a (sel_index sel idx))).

(** [a - s] and [a + s] for a zero-dimensional [s] *)
Definition sub_scalar (a s : ndarray Z) : ndarray Z :=
  mk (shape a) (fun idx => (item a idx - item s [])%Z).

Definition add_const (a : ndarray Z) (c : Z) : ndarray Z :=
  mk (shape a) (fun idx => (item a idx + c)%Z).

(** [a.item(0)] *)
Definition item0 {A} (a : ndarray A) : result A :=
  if (0 <? nelem a)%nat then Ok (item a (unravel (shape a) 0)) else Raise IndexError.

(** [int(x)] on a float: truncation towards zero *)
Definition int_of_float (x : Q) : Z := Z.quot (Qnum x) (Zpos (Qden x)).

End np.

(** ** netCDF4 datasets

    Dimensions, attributes and variables are kept in definition order.  A
    variable's contents map an index to the value written there, if any.
    The dataset being written is the state of the [NC] monad; an exception
    leaves the state as it was when raised. *)

Module netCDF4.
Import np.

Record Dimension : Type := mkDim {
  dim_size : nat;
  dim_unlimited : bool
}.

Inductive attr : Type :=
| AttrStr (s : string)
| AttrInt (z : Z).

Record NCVariable : Type := mkVar {
  var_dtype : string;
  var_dims : list string;
  var_data : list nat -> option Z
}.

Record Dataset : Type := mkDataset {
  dimensions : list (string * Dimension);
  ncattrs : list (string * attr);
  variables : list (string * NCVariable);
  isopen : bool
}.

(** [Dataset(filename, 'w')] *)
Definition empty : Dataset := mkDataset [] [] [] true.

Fixpoint assoc {V} (k : string) (l : list (string * V)) : option V :=
  match l with
  | [] => None
  | (k', v) :: l' => if String.eqb k k' then Some v else assoc k l'
  end.

Fixpoint assoc_set {V} (k : string) (v : V) (l : list (string * V)) : list (string * V) :=
  match l with
  | [] => [(k, v)]
  | (k', v') :: l' =>
      if String.eqb k k' then (k, v) :: l' else (k', v') :: assoc_set k v l'
  end.

Definition NC (A : Type) : Type := Dataset -> result A * Dataset.

#[global] Instance NC_ret : MRet NC := fun A a ds => (Ok a, ds).
#[global] Instance NC_bind : MBind NC := fun A B f m ds =>
  match m ds with
  | (Ok a, ds') => f a ds'
  | (Raise e, ds') => (Raise e, ds')
  end.

Definition lift {A} (r : result A) : NC A := fun ds => (r, ds).

Definition raise {A} (e : exn) : NC A := fun ds => (Raise e, ds).

(** [nc.createDimension(name, size)]; [None] makes it unlimited *)
Definition createDimension (name : string) (size : option nat) : NC unit := fun ds =>
  let d := match size with
           | Some n => mkDim n false
           | None => mkDim 0 true
           end in
  (Ok tt, mkDataset (assoc_set name d (dimensions ds)) (ncattrs ds)
                    (variables ds) (isopen ds)).

(** [nc.name = value] and [nc.name] *)
Definition setncattr (name : string) (value : attr) : NC unit := fun ds =>
  (Ok tt, mkDataset (dimensions ds) (assoc_set name value (ncattrs ds))
                    (variables ds) (isopen ds)).

Definition getncattr (name : string) : NC attr := fun ds =>
  match assoc name (ncattrs ds) with
  | Some v => (Ok v, ds)
  | None => (Raise AttributeError, ds)
  end.

Fixpoint resolve (dims : list (string * Dimension)) (names : list string)
  : option (list Dimension) :=
  match names with
  | [] => Some []
  | n :: names' =>
      match assoc n dims, resolve dims names' with
      | Some d, Some ds => Some (d :: ds)
      | _, _ => None
      end
  end.

(** [nc.createVariable(name, dtype, dimensions=dims, zlib=True)]; the
    handle returned is the variable's name. *)
Definition createVariable (name dtype : string) (dims : list string) : NC string := fun ds =>
  match resolve (dimensions ds) dims with
  | Some _ =>
      (Ok name, mkDataset (dimensions ds) (ncattrs ds)
                  (assoc_set name (mkVar dtype dims (fun _ => None)) (variables ds))
                  (isopen ds))
  | None => (Raise (ValueError "cannot find dimension"), ds)
  end.

(** What an indexing expression covers along one dimension. *)
Inductive extent : Type :=
| At (i : nat)
| Span (n : nat).

Fixpoint extents (dims : list Dimension) (sel : list selector)
    (dshape : list nat) (pos : nat) : result (list extent) :=
  match dims with
  | [] =>
      match sel with
      | [] => Ok []
      | _ :: _ => Raise (ValueError "slicing expression exceeds the number of dimensions")
      end
  | d :: dims' =>
      let s := match sel with [] => All | s :: _ => s end in
      e ← match s with
          | Idx i =>
              if dim_unlimited d || (i <? dim_size d)%nat then Ok (At i)
              else Raise IndexError
          | All =>
              if dim_unlimited d && negb (bool_decide (dshape = [])) then
                match dshape !! pos with
                | Some n => Ok (Span n)
                | None => Raise IndexError
                end
              else Ok (Span (dim_size d))
          end;
      es ← extents dims' (tail sel) dshape (S pos);
      Ok (e :: es)
  end.

(** A variable without dimensions is handled as one of shape [(1,)]. *)
Definition var_extents (dims : list Dimension) (sel : list selector)
    (dshape : list nat) : result (list extent) :=
  match dims with
  | [] =>
      match sel with
      | [] | [All] | [Idx 0] => Ok []
      | _ => Raise IndexError
      end
  | _ :: _ => extents dims sel dshape 0
  end.

Definition free_shape (es : list extent) : list nat :=
  omap (fun e => match e with Span n => Some n | At _ => None end) es.

Fixpoint in_extent (es : list extent) (idx : list nat) : bool :=
  match es, idx with
  | [], [] => true
  | At i :: es', j :: idx' => (i =? j)%nat && in_extent es' idx'
  | Span n :: es', j :: idx' => (j <? n)%nat && in_extent es' idx'
  | _, _ => false
  end.

Fixpoint free_index (es : list extent) (idx : list nat) : list nat :=
  match es, idx with
  | At _ :: es', _ :: idx' => free_index es' idx'
  | Span _ :: es', j :: idx' => j :: free_index es' idx'
  | _, _ => []
  end.

Definition upper (e : extent) : nat :=
  match e with At i => S i | Span n => n end.

(** Unlimited dimensions grow to hold what was written. *)
Fixpoint grow (dims : list (string * Dimension)) (names : list string)
    (es : list extent) : list (string * Dimension) :=
  match names, es with
  | n :: names', e :: es' =>
      let dims' :=
        match assoc n dims with
        | Some d =>
            if dim_unlimited d
            then assoc_set n (mkDim (Nat.max (dim_size d) (upper e)) true) dims
            else dims
        | None => dims
        end in
      grow dims' names' es'
  | _, _ => dims
  end.

Definition written (es : list extent) (data : ndarray Z)
    (old : list nat -> option Z) : list nat -> option Z := fun idx =>
  if in_extent es idx then
    Some (if bool_decide (shape data = []) then item data []
          else item data (unravel (shape data)
                                  (ravel (free_shape es) (free_index es idx))))
  else old idx.

(** [var[sel] = data]: the data must have as many items as the selection
    (a zero-dimensional value fills it); netCDF4 raises otherwise. *)
Definition setitem (var : string) (sel : list selector) (data : ndarray Z) : NC unit := fun ds =>
  match assoc var (variables ds) with
  | None => (Raise (KeyError var), ds)
  | Some v =>
      match resolve (dimensions ds) (var_dims v) with
      | None => (Raise (ValueError "cannot find dimension"), ds)
      | Some dl =>
          match var_extents dl sel (shape data) with
          | Raise e => (Raise e, ds)
          | Ok es =>
              if bool_decide (shape data = [] \/ nelem data = prod (free_shape es))
              then (Ok tt,
                    mkDataset (grow (dimensions ds) (var_dims v) es) (ncattrs ds)
                      (assoc_set var
                         (mkVar (var_dtype v) (var_dims v) (written es data (var_data v)))
                         (variables ds))
                      (isopen ds))
              else (Raise (ValueError "shape mismatch"), ds)
          end
      end
  end.

(** [nc.close()] *)
Definition close : NC unit := fun ds =>
  (Ok tt, mkDataset (dimensions ds) (ncattrs ds) (variables ds) false).

(** Reading back: [var[:]] flattened in row-major order. *)
Definition read (ds : Dataset) (var : string) : option (list (option Z)) :=
  v ← assoc var (variables ds);
  dl ← resolve (dimensions ds) (var_dims v);
  let sh := dim_size <$> dl in
  Some ((fun n => var_data v (unravel sh n)) <$> seq 0 (prod sh)).

Definition dimension_size (ds : Dataset) (name : string) : option nat :=
  dim_size <$> assoc name (dimensions ds).

End netCDF4.

(** ** Strings and paths *)

(** [s.split(sep)] for a one-character separator *)
Fixpoint split (sep : ascii) (s : string) : list string :=
  match s with
  | EmptyString => [EmptyString]
  | String c s' =>
      if Ascii.eqb c sep then EmptyString :: split sep s'
      else match split sep s' with
           | h :: t => String c h :: t
           | [] => [String c EmptyString]
           end
  end.

Definition digit_value (c : ascii) : option Z :=
  let n := nat_of_ascii c in
  if (48 <=? n)%nat && (n <=? 57)%nat then Some (Z.of_nat (n - 48)) else None.

Fixpoint int_digits (acc : Z) (s : string) : option Z :=
  match s with
  | EmptyString => Some acc
  | String c s' => d ← digit_value c; int_digits (acc * 10 + d)%Z s'
  end.

(** [int(s)] on a string of decimal digits, as the period strings have;
    anything else raises [ValueError] here. *)
Definition int (s : string) : result Z :=
  match s with
  | EmptyString => Raise (ValueError "invalid literal for int()")
  | _ =>
      match int_digits 0 s with
      | Some n => Ok n
      | None => Raise (ValueError "invalid literal for int()")
      end
  end.

Fixpoint mapM {A B} (f : A -> result B) (l : list A) : result (list B) :=
  match l with
  | [] => Ok []
  | x :: l' => y ← f x; ys ← mapM f l'; Ok (y :: ys)
  end.

(** [l[i]] *)
Definition index {A} (l : list A) (i : nat) : result A :=
  match l !! i with
  | Some x => Ok x
  | None => Raise IndexError
  end.

(** [a, b = l] *)
Definition unpack2 {A} (l : list A) : result (A * A) :=
  match l with
  | [a; b] => Ok (a, b)
  | _ => Raise (ValueError "wrong number of values to unpack")
  end.

(** [s[:-2]] *)
Definition drop_last2 (s : string) : string :=
  String.substring 0 (String.length s - 2) s.

(** [directory / name] *)
Definition path_join (directory name : string) : string :=
  directory +:+ "/" +:+ name.

(** The files on disk, by path. *)
Abbreviation filesystem := (gmap string netCDF4.Dataset).

(** ** [pollyxt_pipelines.locations]: the attributes of [Location] in use *)

Module locations.

Record Location : Type := mkLocation {
  scc_code : string;
  system_id_day : Z;
  system_id_night : Z
}.

End locations.

(** ** [pollyxt_pipelines.polly_to_scc.scc_netcdf] *)

Module scc_netcdf.
Import np netCDF4 locations.

(** The attributes of [pollyxt.PollyXTFile] that this module reads. *)
Record PollyXTFile_t : Type := mkPollyXTFile {
  start_date : datetime.t;
  end_date : datetime.t;
  raw_signal : ndarray Z;
  raw_signal_swap : ndarray Z;
  measurement_time : ndarray Z;
  measurement_shots : ndarray Z;
  zenith_angle : ndarray Q
}.

Inductive Wavelength : Type :=
| NM_355
| NM_532.

(** A value passed as [wavelength]: a member of the enumeration, or any
    other object (which compares unequal to both members). *)
Inductive wavelength_arg : Type :=
| Member (w : Wavelength)
| Other (repr : string).

Definition CALIBRATION_PERIODS : list string :=
  ["02:31-02:41"; "17:31-17:41"; "21:31-21:41"].

Definition calibration_to_datetime (base : datetime.t) (period : string)
  : result (datetime.t * datetime.t) :=
  let base := datetime.replace base (Some 0%Z) (Some 0%Z) (Some 0%Z) None in
  '(start, end_) ← unpack2 (split "-" period);
  start ← mapM int (split ":" start);
  end_ ← mapM int (split ":" end_);
  h ← index start 0; m ← index start 1;
  start ← datetime.add base (datetime.timedelta_hm h m);
  h ← index end_ 0; m ← index end_ 1;
  end_ ← datetime.add base (datetime.timedelta_hm h m);
  Ok (start, end_).

(** Opening [nc = Dataset(filename, 'w')] creates the file; the file holds
    whatever was written when the function is left. *)
Definition with_dataset {A} (filename : string) (body : NC A)
  : filesystem -> result A * filesystem := fun fs =>
  let '(r, nc) := body netCDF4.empty in
  (r, <[filename := nc]> fs).

Definition is_daytime (start_date : datetime.t) : bool :=
  datetime.ltb (datetime.replace start_date (Some 4%Z) (Some 0%Z) None None) start_date
  && datetime.ltb start_date (datetime.replace start_date (Some 16%Z) (Some 0%Z) None None).

Definition measurement_id_of (pf : PollyXTFile_t) (location : Location) : string :=
  datetime.strftime (start_date pf)
    ("%Y%m%d" +:+ scc_code location +:+ "%H"
     +:+ datetime.strftime (end_date pf) "%H").

Definition CHANNEL_IDS : list Z :=
  [493; 500; 497; 499; 494; 496; 498; 495; 501; 941; 940; 502]%Z.

Definition create_scc_netcdf (pf : PollyXTFile_t) (output_path : string)
    (location : Location) : filesystem -> result (string * string) * filesystem :=
  (* Calculate measurement ID *)
  let measurement_id := measurement_id_of pf location in
  (* Create SCC file *)
  let output_filename := path_join output_path (measurement_id +:+ ".nc") in
  with_dataset output_filename (
    (* Create dimensions *)
    n ← lift (np.size (raw_signal pf) 1);
    createDimension "points" (Some n);;
    n ← lift (np.size (raw_signal pf) 2);
    createDimension "channels" (Some n);;
    createDimension "time" None;;
    createDimension "nb_of_time_scales" (Some 1%nat);;
    createDimension "scan_angles" (Some 1%nat);;
    (* Create Global Attributes (mandatory) *)
    setncattr "Measurement_ID" (AttrStr measurement_id);;
    setncattr "RawData_Start_Date" (AttrStr (datetime.strftime (start_date pf) "%Y%m%d"));;
    setncattr "RawData_Start_Time_UT" (AttrStr (datetime.strftime (start_date pf) "%H%M%S"));;
    setncattr "RawData_Stop_Time_UT" (AttrStr (datetime.strftime (end_date pf) "%H%M%S"));;
    (* Create Global Attributes (optional) *)
    a ← getncattr "RawData_Start_Date"; setncattr "RawBck_Start_Date" a;;
    a ← getncattr "RawData_Start_Time_UT"; setncattr "RawBck_Start_Time_UT" a;;
    a ← getncattr "RawData_Stop_Time_UT"; setncattr "RawBck_Stop_Time_UT" a;;
    setncattr "Sounding_File_Name" (AttrStr ("rs_" +:+ drop_last2 measurement_id +:+ ".nc"));;
    (* Custom attribute for configuration ID *)
    (if is_daytime (start_date pf)
     then setncattr "NOAReACT_Configuration_ID" (AttrInt (system_id_day location))
     else setncattr "NOAReACT_Configuration_ID" (AttrInt (system_id_night location)));;
    (* Create Variables *)
    raw_data_start_time ← createVariable "Raw_Data_Start_Time" "i4" ["time"; "nb_of_time_scales"];
    raw_data_stop_time ← createVariable "Raw_Data_Stop_Time" "i4" ["time"; "nb_of_time_scales"];
    raw_lidar_data ← createVariable "Raw_Lidar_Data" "f8" ["time"; "channels"; "points"];
    channel_id ← createVariable "channel_ID" "i4" ["channels"];
    id_timescale ← createVariable "id_timescale" "i4" ["channels"];
    laser_pointing_angle ← createVariable "Laser_Pointing_Angle" "f8" ["scan_angles"];
    laser_pointing_angle_of_profiles ←
      createVariable "Laser_Pointing_Angle_of_Profiles" "i4" ["time"; "nb_of_time_scales"];
    laser_shots ← createVariable "Laser_Shots" "i4" ["time"; "channels"];
    background_low ← createVariable "Background_Low" "f8" ["channels"];
    background_high ← createVariable "Background_High" "f8" ["channels"];
    molecular_calc ← createVariable "Molecular_Calc" "i4" [];
    createVariable "Pol_Calib_Range_Min" "f8" ["channels"];;
    createVariable "Pol_Calib_Range_Max" "f8" ["channels"];;
    pressure_at_lidar_station ← createVariable "Pressure_at_Lidar_Station" "f8" [];
    temperature_at_lidar_station ← createVariable "Temperature_at_Lidar_Station" "f8" [];
    lr_input ← createVariable "LR_Input" "i4" ["channels"];
    (* Fill Variables with Data *)
    col ← lift (getitem (measurement_time pf) [All; Idx 1]);
    first ← lift (getitem (measurement_time pf) [Idx 0; Idx 1]);
    setitem raw_data_start_time [All] (sub_scalar col first);;
    col ← lift (getitem (measurement_time pf) [All; Idx 1]);
    first ← lift (getitem (measurement_time pf) [Idx 0; Idx 1]);
    setitem raw_data_stop_time [All] (add_const (sub_scalar col first) 30);;
    swapped ← lift (swapaxes (raw_signal pf) 1 2);
    setitem raw_lidar_data [All] swapped;;
    setitem channel_id [All] (array CHANNEL_IDS);;
    n ← lift (np.size (raw_signal pf) 2);
    setitem id_timescale [All] (zeros n);;
    z ← lift (item0 (zenith_angle pf));
    setitem laser_pointing_angle [All] (scalar (int_of_float z));;
    n ← lift (np.size (raw_signal pf) 0);
    setitem laser_pointing_angle_of_profiles [All] (zeros n);;
    shots ← lift (getitem (measurement_shots pf) [All]);
    setitem laser_shots [All] shots;;
    setitem background_low [All] (array [0; 0; 0; 0; 0; 0; 0; 0; 0; 0; 0; 0]%Z);;
    setitem background_high [All]
      (array [249; 249; 249; 249; 249; 249; 249; 249; 249; 249; 249; 249]%Z);;
    setitem molecular_calc [All] (scalar 1%Z);;
    setitem pressure_at_lidar_station [All] (scalar 1008%Z);;
    setitem temperature_at_lidar_station [All] (scalar 20%Z);;
    setitem lr_input [All] (array [1; 1; 1; 1; 1; 1; 1; 1; 1; 1; 1; 1]%Z);;
    (* Close the netCDF file *)
    close;;
    mret (measurement_id, output_filename)).

Definition calibration_id_of (pf : PollyXTFile_t) (location : Location) : string :=
  datetime.strftime (start_date pf) ("%Y%m%d" +:+ scc_code location +:+ "%H").

Definition create_scc_calibration_netcdf (pf : PollyXTFile_t) (output_path : string)
    (location : Location) (wavelength : wavelength_arg)
    (pol_calib_range_min pol_calib_range_max : Z)
  : filesystem -> result (string * string) * filesystem :=
  (* Calculate measurement ID *)
  let measurement_id := calibration_id_of pf location in
  (* Create SCC file *)
  let output_filename :=
    path_join output_path ("calibration_" +:+ measurement_id +:+ ".nc") in
  with_dataset output_filename (
    (* Create Dimensions *)
    n ← lift (np.size (raw_signal pf) 1);
    createDimension "points" (Some n);;
    createDimension "channels" (Some 4%nat);;
    createDimension "time" (Some 3%nat);;
    createDimension "nb_of_time_scales" (Some 1%nat);;
    createDimension "scan_angles" (Some 1%nat);;
    (* Create Global Attributes (mandatory) *)
    setncattr "RawData_Start_Date" (AttrStr (datetime.strftime (start_date pf) "%Y%m%d"));;
    setncattr "RawData_Start_Time_UT" (AttrStr (datetime.strftime (start_date pf) "%H%M%S"));;
    setncattr "RawData_Stop_Time_UT" (AttrStr (datetime.strftime (end_date pf) "%H%M%S"));;
    (* Create Global Attributes (optional) *)
    a ← getncattr "RawData_Start_Date"; setncattr "RawBck_Start_Date" a;;
    a ← getncattr "RawData_Start_Time_UT"; setncattr "RawBck_Start_Time_UT" a;;
    a ← getncattr "RawData_Stop_Time_UT"; setncattr "RawBck_Stop_Time_UT" a;;
    (* Create Variables *)
    raw_data_start_time ← createVariable "Raw_Data_Start_Time" "i4" ["time"; "nb_of_time_scales"];
    raw_data_stop_time ← createVariable "Raw_Data_Stop_Time" "i4" ["time"; "nb_of_time_scales"];
    raw_lidar_data ← createVariable "Raw_Lidar_Data" "f8" ["time"; "channels"; "points"];
    channel_id ← createVariable "channel_ID" "i4" ["channels"];
    id_timescale ← createVariable "id_timescale" "i4" ["channels"];
    laser_pointing_angle ← createVariable "Laser_Pointing_Angle" "f8" ["scan_angles"];
    laser_pointing_angle_of_profiles ←
      createVariable "Laser_Pointing_Angle_of_Profiles" "i4" ["time"; "nb_of_time_scales"];
    laser_shots ← createVariable "Laser_Shots" "i4" ["time"; "channels"];
    background_low ← createVariable "Background_Low" "f8" ["channels"];
    background_high ← createVariable "Background_High" "f8" ["channels"];
    molecular_calc ← createVariable "Molecular_Calc" "i4" [];
    pol_calib_range_min_var ← createVariable "Pol_Calib_Range_Min" "f8" ["channels"];
    pol_calib_range_max_var ← createVariable "Pol_Calib_Range_Max" "f8" ["channels"];
    pressure_at_lidar_station ← createVariable "Pressure_at_Lidar_Station" "f8" [];
    temperature_at_lidar_station ← createVariable "Temperature_at_Lidar_Station" "f8" [];
    (* define measurement_cycles *)
    let start_first_measurement := 0%nat in
    let stop_first_measurement := 12%nat in
    (* Fill Variables with Data *)
    setitem id_timescale [All] (array [0; 0; 0; 0]%Z);;
    setitem laser_pointing_angle [All] (scalar 5%Z);;
    setitem laser_pointing_angle_of_profiles [All; All] (scalar 0%Z);;
    setitem laser_shots [Idx 0; All] (array [600; 600; 600; 600]%Z);;
    setitem laser_shots [Idx 1; All] (array [600; 600; 600; 600]%Z);;
    setitem laser_shots [Idx 2; All] (array [600; 600; 600; 600]%Z);;
    setitem background_low [All] (array [0; 0; 0; 0]%Z);;
    setitem background_high [All] (array [249; 249; 249; 249]%Z);;
    setitem molecular_calc [All] (scalar 0%Z);;
    setitem pol_calib_range_min_var [All] (np.repeat pol_calib_range_min 4);;
    setitem pol_calib_range_max_var [All] (np.repeat pol_calib_range_max 4);;
    setitem pressure_at_lidar_station [All] (scalar 1008%Z);;
    setitem temperature_at_lidar_station [All] (scalar 20%Z);;
    (* Define total and cross channels IDs from Polly *)
    '(total_channel, cross_channel) ←
      match wavelength with
      | Member NM_355 =>
          setitem channel_id [All] (array [1236; 1266; 1267; 1268]%Z);;
          setncattr "Measurement_ID" (AttrStr (measurement_id +:+ "35"));;
          mret (0%nat, 1%nat)
      | Member NM_532 =>
          setitem channel_id [All] (array [1269; 1270; 1271; 1272]%Z);;
          setncattr "Measurement_ID" (AttrStr (measurement_id +:+ "53"));;
          mret (4%nat, 5%nat)
      | Other repr => raise (ValueError ("Unknown wavelength " +:+ repr))
      end;
    (* Copy calibration cycles *)
    setitem raw_data_start_time [Idx 0; Idx 0] (scalar (Z.of_nat start_first_measurement));;
    setitem raw_data_start_time [Idx 1; Idx 0] (scalar (Z.of_nat (start_first_measurement + 1)));;
    setitem raw_data_start_time [Idx 2; Idx 0] (scalar (Z.of_nat (start_first_measurement + 2)));;
    setitem raw_data_stop_time [Idx 0; Idx 0] (scalar (Z.of_nat stop_first_measurement));;
    setitem raw_data_stop_time [Idx 1; Idx 0] (scalar (Z.of_nat (stop_first_measurement + 1)));;
    setitem raw_data_stop_time [Idx 2; Idx 0] (scalar (Z.of_nat (stop_first_measurement + 2)));;

    row ← lift (getitem (raw_signal_swap pf) [Idx start_first_measurement; Idx cross_channel; All]);
    setitem raw_lidar_data [Idx 0; Idx 0; All] row;;
    row ← lift (getitem (raw_signal_swap pf) [Idx start_first_measurement; Idx total_channel; All]);
    setitem raw_lidar_data [Idx 0; Idx 1; All] row;;
    row ← lift (getitem (raw_signal_swap pf) [Idx stop_first_measurement; Idx cross_channel; All]);
    setitem raw_lidar_data [Idx 0; Idx 2; All] row;;
    row ← lift (getitem (raw_signal_swap pf) [Idx stop_first_measurement; Idx total_channel; All]);
    setitem raw_lidar_data [Idx 0; Idx 3; All] row;;

    row ← lift (getitem (raw_signal_swap pf) [Idx (start_first_measurement + 1); Idx cross_channel; All]);
    setitem raw_lidar_data [Idx 1; Idx 0; All] row;;
    row ← lift (getitem (raw_signal_swap pf) [Idx (start_first_measurement + 1); Idx total_channel; All]);
    setitem raw_lidar_data [Idx 1; Idx 1; All] row;;
    row ← lift (getitem (raw_signal_swap pf) [Idx (stop_first_measurement + 1); Idx cross_channel; All]);
    setitem raw_lidar_data [Idx 1; Idx 2; All] row;;
    row ← lift (getitem (raw_signal_swap pf) [Idx (stop_first_measurement + 1); Idx total_channel; All]);
    setitem raw_lidar_data [Idx 1; Idx 3; All] row;;

    row ← lift (getitem (raw_signal_swap pf) [Idx (start_first_measurement + 2); Idx cross_channel; All]);
    setitem raw_lidar_data [Idx 2; Idx 0; All] row;;
    row ← lift (getitem (raw_signal_swap pf) [Idx (start_first_measurement + 2); Idx total_channel; All]);
    setitem raw_lidar_data [Idx 2; Idx 1; All] row;;
    row ← lift (getitem (raw_signal_swap pf) [Idx (stop_first_measurement + 2); Idx cross_channel; All]);
    setitem raw_lidar_data [Idx 2; Idx 2; All] row;;
    row ← lift (getitem (raw_signal_swap pf) [Idx (stop_first_measurement + 2); Idx total_channel; All]);
    setitem raw_lidar_data [Idx 2; Idx 3; All] row;;
    (* Close the netCDF file *)
    close;;
    mret (measurement_id, output_filename)).

(** *** The generator [convert_pollyxt_file]

    A run of the generator is the list of elements it yields, how it
    stops, and the files it leaves.  The [while] loop runs on fuel. *)

Inductive builder_call : Type :=
| StandardRecord (pf : PollyXTFile_t)
| CalibrationRecord (pf : PollyXTFile_t) (wavelength : wavelength_arg).

(** One yielded [(id, path, start)]; [y_by] records the call that built it. *)
Record yielded : Type := mkYield {
  y_id : string;
  y_path : string;
  y_start : datetime.t;
  y_by : builder_call
}.

Inductive status : Type :=
| Exhausted
| Raised (e : exn)
| Running.

Section convert.

(** [pollyxt.get_measurement_period] and the constructor
    [pollyxt.PollyXTFile(input_path, start, end)] *)
Variable get_measurement_period : string -> result (datetime.t * datetime.t).
Variable PollyXTFile : string -> datetime.t -> datetime.t -> result PollyXTFile_t.

Variables (input_path output_path : string) (location : Location).
Variables (interval : datetime.timedelta) (should_round calibration : bool).

Section loop.

(** What is done with one interval. *)
Context {X : Type}.
Variable body : datetime.t -> datetime.t -> filesystem -> result X * filesystem.

Fixpoint interval_loop (fuel : nat) (measurement_end interval_start : datetime.t)
    (fs : filesystem) : list X * status * filesystem :=
  match fuel with
  | O => ([], Running, fs)
  | S fuel' =>
      if datetime.ltb interval_start measurement_end then
        (* If the option is set, round down hours *)
        let interval_start :=
          if should_round
          then datetime.replace interval_start None (Some 0%Z) (Some 0%Z) (Some 0%Z)
          else interval_start in
        (* Interval end *)
        match datetime.add interval_start interval with
        | Raise e => ([], Raised e, fs)
        | Ok interval_end =>
            match body interval_start interval_end fs with
            | (Raise e, fs') => ([], Raised e, fs')
            | (Ok x, fs') =>
                (* Set start of next interval to the end of this one *)
                let '(xs, st, fs'') := interval_loop fuel' measurement_end interval_end fs' in
                (x :: xs, st, fs'')
            end
        end
      else ([], Exhausted, fs)
  end.

End loop.

(** The windows the loop visits, without reading or writing anything. *)
Definition interval_windows (fuel : nat) (measurement_start measurement_end : datetime.t)
  : list (datetime.t * datetime.t) * status :=
  (interval_loop (fun s e fs => (Ok (s, e), fs)) fuel measurement_end measurement_start ∅).1.

Definition convert_interval (interval_start interval_end : datetime.t)
    (fs : filesystem) : result yielded * filesystem :=
  match PollyXTFile input_path interval_start interval_end with
  | Raise e => (Raise e, fs)
  | Ok pf =>
      match create_scc_netcdf pf output_path location fs with
      | (Ok (id, path), fs') => (Ok (mkYield id path interval_start (StandardRecord pf)), fs')
      | (Raise e, fs') => (Raise e, fs')
      end
  end.

Fixpoint calibration_loop (measurement_start measurement_end : datetime.t)
    (periods : list string) (fs : filesystem) : list yielded * status * filesystem :=
  match periods with
  | [] => ([], Exhausted, fs)
  | period :: periods' =>
      match calibration_to_datetime measurement_start period with
      | Raise e => ([], Raised e, fs)
      | Ok (start, end_) =>
          if datetime.gtb start measurement_start && datetime.ltb end_ measurement_end then
            match PollyXTFile input_path start end_ with
            | Raise e => ([], Raised e, fs)
            | Ok pf =>
                match create_scc_calibration_netcdf pf output_path location
                        (Member NM_532) 1200 2500 fs with
                | (Raise e, fs') => ([], Raised e, fs')
                | (Ok (id, path), fs') =>
                    let '(ys, st, fs'') :=
                      calibration_loop measurement_start measurement_end periods' fs' in
                    (mkYield id path start (CalibrationRecord pf (Member NM_532)) :: ys,
                     st, fs'')
                end
            end
          else calibration_loop measurement_start measurement_end periods' fs
      end
  end.

Definition convert_pollyxt_file (fuel : nat) (fs : filesystem)
  : list yielded * status * filesystem :=
  (* Open input netCDF *)
  match get_measurement_period input_path with
  | Raise e => ([], Raised e, fs)
  | Ok (measurement_start, measurement_end) =>
      (* Create output files *)
      let '(ys, st, fs') :=
        interval_loop convert_interval fuel measurement_end measurement_start fs in
      match st with
      | Exhausted =>
          (* Generate calibration files *)
          if calibration then
            let '(cs, st', fs'') :=
              calibration_loop measurement_start measurement_end CALIBRATION_PERIODS fs' in
            (ys ++ cs, st', fs'')
          else (ys, Exhausted, fs')
      | _ => (ys, st, fs')
      end
  end.

End convert.

End scc_netcdf.

(** ** [pollyxt_pipelines.scc_access.types] *)

Module scc_access.
Import locations.

(** A parsed HTML tree, as BeautifulSoup presents it. *)
Inductive node : Type :=
| Text (s : string)
| Element (name : string) (classes : list string)
    (attrs : list (string * string)) (children : list node).

Definition matches (name : string) (class_ : option string) (n : node) : bool :=
  match n with
  | Text _ => false
  | Element name' classes _ _ =>
      String.eqb name name'
      && match class_ with
         | None => true
         | Some c => existsb (String.eqb c) classes
         end
  end.

(** [tag.find(name, class_=c)]: the first matching descendant in document
    order, or [None]. *)
Fixpoint find (name : string) (class_ : option string) (tag : node) : option node :=
  match tag with
  | Text _ => None
  | Element _ _ _ children =>
      (fix go (l : list node) : option node :=
         match l with
         | [] => None
         | c :: l' =>
             if matches name class_ c then Some c
             else match find name class_ c with
                  | Some r => Some r
                  | None => go l'
                  end
         end) children
  end.

(** [tag.text] *)
Fixpoint text (tag : node) : string :=
  match tag with
  | Text s => s
  | Element _ _ _ children =>
      (fix go (l : list node) : string :=
         match l with
         | [] => EmptyString
         | c :: l' => text c +:+ go l'
         end) children
  end.

(** Attribute access on what [find] returned; on [None] Python raises
    [AttributeError]. *)
Definition dot_text (tag : option node) : result string :=
  match tag with
  | Some t => Ok (text t)
  | None => Raise AttributeError
  end.

Definition dot_child (name : string) (tag : option node) : result (option node) :=
  match tag with
  | Some t => Ok (find name None t)
  | None => Raise AttributeError
  end.

(** [tag[key]] *)
Definition subscript (tag : option node) (key : string) : result string :=
  match tag with
  | Some (Element _ _ attrs _) =>
      match netCDF4.assoc key attrs with
      | Some v => Ok v
      | None => Raise (KeyError key)
      end
  | _ => Raise TypeError
  end.

Record Measurement : Type := mkMeasurement {
  id : string;
  station_code : string;
  location : Location;
  date_start : datetime.t;
  date_end : datetime.t;
  date_creation : datetime.t;
  date_updated : datetime.t;
  is_uploaded : bool;
  has_hirelpp : bool;
  has_cloudmask : bool;
  has_elpp : bool;
  has_elda : bool;
  has_eldec : bool;
  has_elic : bool;
  has_elquick : bool;
  is_processing : bool
}.

(** [str(b)] of a [bool], as an f-string renders it *)
Definition str_bool (b : bool) : string := if b then "True" else "False".

Section csv.

(** [Location.name], an attribute of [Location] besides those of
    [locations.Location] *)
Variable name : Location -> string.

Definition to_csv (self : Measurement) : string :=
  id self +:+ "," +:+ name (location self) +:+ "," +:+ station_code self
  +:+ "," +:+ datetime.isoformat (date_start self)
  +:+ "," +:+ datetime.isoformat (date_end self)
  +:+ "," +:+ datetime.isoformat (date_creation self)
  +:+ "," +:+ datetime.isoformat (date_updated self)
  +:+ "," +:+ str_bool (is_uploaded self)
  +:+ "," +:+ str_bool (has_hirelpp self)
  +:+ "," +:+ str_bool (has_cloudmask self)
  +:+ "," +:+ str_bool (has_elpp self)
  +:+ "," +:+ str_bool (has_elda self)
  +:+ "," +:+ str_bool (has_eldec self)
  +:+ "," +:+ str_bool (has_elic self)
  +:+ "," +:+ str_bool (has_elquick self).

End csv.

Section parsing.

(** [datetime.strptime] and [locations.get_location_by_scc_code] *)
Variable strptime : string -> string -> result datetime.t.
Variable get_location_by_scc_code : string -> result Location.

(** Convert a table cell to a date *)
Definition scc_date (tag : option node) : result datetime.t :=
  s ← dot_text tag;
  strptime s "%Y-%m-%d %H:%M".

(** Convert a table cell to a bool *)
Definition scc_bool (node : option node) : result bool :=
  img ← dot_child "img" node;
  alt ← subscript img "alt";
  Ok (String.eqb alt "True").

Definition from_table_row (tr : node) : result Measurement :=
  id ← dot_text (find "td" (Some "field-id") tr);
  a ← dot_child "a" (find "th" (Some "field-station_id") tr);
  station_code ← dot_text a;
  date_start ← scc_date (find "td" (Some "field-start") tr);
  date_end ← scc_date (find "td" (Some "field-stop") tr);
  date_creation ← scc_date (find "td" (Some "field-creation_date") tr);
  date_updated ← scc_date (find "td" (Some "field-updated_date") tr);
  is_uploaded ← scc_bool (find "td" (Some "field-upload_ok") tr);
  has_hirelpp ← scc_bool (find "td" (Some "field-hirelpp_ok") tr);
  has_cloudmask ← scc_bool (find "td" (Some "field-cloudmask_ok") tr);
  has_elpp ← scc_bool (find "td" (Some "field-elpp_ok") tr);
  has_elda ← scc_bool (find "td" (Some "field-eldec_ok") tr);
  has_eldec ← scc_bool (find "td" (Some "field-eldec_ok") tr);
  has_elic ← scc_bool (find "td" (Some "field-elic_ok") tr);
  has_elquick ← scc_bool (find "td" (Some "field-elquick_ok") tr);
  is_processing ← scc_bool (find "td" (Some "field-is_being_processed") tr);
  (* __post_init__ *)
  location ← get_location_by_scc_code station_code;
  Ok (mkMeasurement id station_code location date_start date_end date_creation
        date_updated is_uploaded has_hirelpp has_cloudmask has_elpp has_elda
        has_eldec has_elic has_elquick is_processing).

End parsing.

End scc_access.


(** ** Looking into the files written, and sample inputs *)

Definition file_attr (fs : filesystem) (path name : string) : option netCDF4.attr :=
  ds ← fs !! path; netCDF4.assoc name (netCDF4.ncattrs ds).

Definition file_dimension (fs : filesystem) (path name : string) : option nat :=
  ds ← fs !! path; netCDF4.dimension_size ds name.

Definition file_read (fs : filesystem) (path var : string) : option (list (option Z)) :=
  ds ← fs !! path; netCDF4.read ds var.

Definition file_isopen (fs : filesystem) (path : string) : option bool :=
  netCDF4.isopen <$> fs !! path.

(** [var[idx]] for a full index: the value written there, if any *)
Definition read_at (ds : netCDF4.Dataset) (var : string) (idx : list nat) : option Z :=
  v ← netCDF4.assoc var (netCDF4.variables ds); netCDF4.var_data v idx.

Definition file_read_at (fs : filesystem) (path var : string) (idx : list nat)
  : option Z :=
  ds ← fs !! path; read_at ds var idx.

Module examples.
Import np locations scc_netcdf.

Definition site : Location := mkLocation "aky" 437 438.

(** A view with [profiles] profiles, a raw signal of shape
    [[profiles; bins; channels]] holding distinct values, and profiles
    thirty seconds apart. *)
Definition view (start_date end_date : datetime.t) (profiles bins channels : nat)
  : PollyXTFile_t :=
  mkPollyXTFile start_date end_date
    (np.mk [profiles; bins; channels]
       (fun idx => Z.of_nat (ravel [profiles; bins; channels] idx)))
    (np.mk [profiles; channels; bins]
       (fun idx => Z.of_nat (ravel [profiles; bins; channels]
                               (default idx (swap_list 1 2 idx)))))
    (np.mk [profiles; 2%nat]
       (fun idx => match idx with
                   | [i; 1%nat] => (14400 + 30 * Z.of_nat i)%Z
                   | _ => 20210101%Z
                   end))
    (np.mk [profiles; channels] (fun _ => 600%Z))
    (np.mk [] (fun _ => (5 # 2)%Q)).

Definition reader (profiles bins channels : nat)
    (path : string) (start_date end_date : datetime.t) : result PollyXTFile_t :=
  Ok (view start_date end_date profiles bins channels).

(** A row of the measurement table whose ELDA cell shows [elda_alt] and
    whose ELDEC cell shows [eldec_alt]. *)
Definition flag_cell (class_ alt : string) : scc_access.node :=
  scc_access.Element "td" [class_]
    [] [scc_access.Element "img" [] [("src", "icon.svg"); ("alt", alt)] []].

Definition text_cell (class_ content : string) : scc_access.node :=
  scc_access.Element "td" [class_] [] [scc_access.Text content].

Definition table_row (elda_alt eldec_alt : string) : scc_access.node :=
  scc_access.Element "tr" [] []
    [ text_cell "field-id" "20210101aky0006";
      scc_access.Element "th" ["field-station_id"] []
        [scc_access.Element "a" [] [("href", "/station/aky")] [scc_access.Text "aky"]];
      text_cell "field-start" "2021-01-01 00:00";
      text_cell "field-stop" "2021-01-01 06:00";
      text_cell "field-creation_date" "2021-01-02 10:00";
      text_cell "field-updated_date" "2021-01-02 10:05";
      flag_cell "field-upload_ok" "True";
      flag_cell "field-hirelpp_ok" "True";
      flag_cell "field-cloudmask_ok" "True";
      flag_cell "field-elpp_ok" "True";
      flag_cell "field-elda_ok" elda_alt;
      flag_cell "field-eldec_ok" eldec_alt;
      flag_cell "field-elic_ok" "True";
      flag_cell "field-elquick_ok" "False";
      flag_cell "field-is_being_processed" "False" ].

(** Stand-ins for [datetime.strptime] and [get_location_by_scc_code]. *)
Definition strptime_fixed (text format : string) : result datetime.t :=
  Ok (datetime.mk_datetime 2021 1 1 0 0 0 0).

Definition location_of (code : string) : result Location := Ok site.

End examples.

(** * Properties *)

(** ** Dates and times *)

Module datetime_facts.
Import datetime.
Local Open Scope Z_scope.

Definition US_PER_HOUR : Z := 3600 * US_PER_SECOND.

(** On valid values the field-wise comparison is the comparison of the
    positions on the time line. *)
Lemma ltb_to_us (a b : t) :
  valid a -> valid b -> ltb a b = (to_us a <? to_us b).
Proof.
  intros (Ha1 & Ha2 & Ha3 & Ha4 & Ha5) (Hb1 & Hb2 & Hb3 & Hb4 & Hb5).
  destruct a as [ao ah am asec aus], b as [bo bh bm bsec bus]; simpl in *.
  unfold ltb, to_us, fields, US_PER_SECOND; simpl.
  destruct (Z.ltb_spec (((((ao * 24 + ah) * 60 + am) * 60 + asec) * 1000000) + aus)
                       (((((bo * 24 + bh) * 60 + bm) * 60 + bsec) * 1000000) + bus));
    repeat match goal with
           | |- context [(?x <? ?y)] => destruct (Z.ltb_spec x y); simpl
           | |- context [(?x =? ?y)] => destruct (Z.eqb_spec x y); simpl
           end; try reflexivity; lia.
Qed.

Lemma ltb_lt (a b : t) :
  valid a -> valid b -> ltb a b = true <-> to_us a < to_us b.
Proof. intros Ha Hb. rewrite ltb_to_us by done. apply Z.ltb_lt. Qed.

Lemma ltb_ge (a b : t) :
  valid a -> valid b -> ltb a b = false <-> to_us b <= to_us a.
Proof. intros Ha Hb. rewrite ltb_to_us by done. apply Z.ltb_ge. Qed.

Lemma to_us_inj (a b : t) : valid a -> valid b -> to_us a = to_us b -> a = b.
Proof.
  intros (Ha1 & Ha2 & Ha3 & Ha4 & Ha5) (Hb1 & Hb2 & Hb3 & Hb4 & Hb5).
  destruct a as [ao ah am asec aus], b as [bo bh bm bsec bus]; simpl in *.
  unfold to_us, US_PER_SECOND; simpl. intros H.
  assert (ao = bo) by lia. assert (ah = bh) by lia. assert (am = bm) by lia.
  assert (asec = bsec) by lia. assert (aus = bus) by lia. congruence.
Qed.

(** [d + delta]: when it does not overflow, the result is valid and lies
    [delta] microseconds later. *)
Lemma add_Ok (d d' : t) (delta : timedelta) :
  add d delta = Ok d' -> valid d' /\ to_us d' = to_us d + delta.
Proof.
  unfold add. set (total := to_us d + delta). clearbody total.
  destruct (_ && _) eqn:Hrange; [|done].
  apply andb_true_iff in Hrange as [H0 Hmax%Z.leb_le]. apply Z.ltb_lt in H0.
  intros [= <-]. unfold valid, to_us; simpl.
  unfold US_PER_DAY, US_PER_SECOND, MAXORDINAL in *.
  Z.div_mod_to_equations. lia.
Qed.

Lemma add_Raise (d : t) (delta : timedelta) (e : exn) :
  add d delta = Raise e -> e = OverflowError.
Proof. unfold add. destruct (_ && _); [done|]. by intros [= <-]. Qed.

Lemma add_in_range (d : t) (delta : timedelta) :
  US_PER_DAY <= to_us d + delta < (MAXORDINAL + 1) * US_PER_DAY ->
  exists d', add d delta = Ok d'.
Proof.
  intros H. unfold add. set (total := to_us d + delta) in *. clearbody total.
  destruct (_ && _) eqn:Hrange; [eauto|].
  apply andb_false_iff in Hrange. exfalso.
  rewrite Z.ltb_ge, Z.leb_gt in Hrange.
  unfold US_PER_DAY, US_PER_SECOND, MAXORDINAL in *.
  Z.div_mod_to_equations. lia.
Qed.

(** Rounding down to the hour: [replace(microsecond=0, second=0, minute=0)] *)
Definition round_down (d : t) : t := replace d None (Some 0) (Some 0) (Some 0).

Lemma round_down_valid (d : t) : valid d -> valid (round_down d).
Proof. unfold valid, round_down; simpl. lia. Qed.

Lemma round_down_to_us (d : t) :
  valid d -> to_us (round_down d) <= to_us d < to_us (round_down d) + US_PER_HOUR.
Proof.
  unfold valid, round_down, to_us, US_PER_HOUR, US_PER_SECOND; simpl. lia.
Qed.

Lemma round_down_on_hour (d : t) :
  minute d = 0 -> second d = 0 -> microsecond d = 0 -> round_down d = d.
Proof. destruct d; simpl. intros -> -> ->. done. Qed.

(** Adding whole hours to a time on the hour gives a time on the hour. *)
Lemma add_whole_hours (d d' : t) (k : Z) :
  valid d -> minute d = 0 -> second d = 0 -> microsecond d = 0 ->
  add d (k * US_PER_HOUR) = Ok d' ->
  minute d' = 0 /\ second d' = 0 /\ microsecond d' = 0.
Proof.
  intros Hv Hm Hs Hu. unfold add. destruct (_ && _); [|done].
  intros [= <-]; simpl.
  assert (to_us d + k * US_PER_HOUR = (ordinal d * 24 + hour d + k) * 3600000000) as ->.
  { unfold to_us, US_PER_HOUR, US_PER_SECOND. rewrite Hm, Hs, Hu. lia. }
  generalize (ordinal d * 24 + hour d + k). intros x.
  unfold US_PER_DAY, US_PER_SECOND.
  Z.div_mod_to_equations. lia.
Qed.

End datetime_facts.

(** ** The interval loop of [convert_pollyxt_file] *)

Module planner.
Import datetime datetime_facts scc_netcdf.
Local Open Scope Z_scope.

Definition window : Type := t * t.

Definition lt (a b : t) : Prop := ltb a b = true.

(** A relation between each window and the next one. *)
Fixpoint adjacent (R : window -> window -> Prop) (ws : list window) : Prop :=
  match ws with
  | w1 :: ws' =>
      match ws' with
      | w2 :: _ => R w1 w2
      | [] => True
      end /\ adjacent R ws'
  | [] => True
  end.

Definition contiguous : list window -> Prop :=
  adjacent (fun w1 w2 => w2.1 = w1.2).
Definition ordered : list window -> Prop :=
  adjacent (fun w1 w2 => lt w1.1 w2.1).
Definition non_overlapping : list window -> Prop :=
  adjacent (fun w1 w2 => ltb w2.1 w1.2 = false).

(** The cursor of the loop: it starts at [cursor] and is set to the end of
    each window in turn; [advancing] says that it grows each time. *)
Fixpoint advancing (cursor : t) (ws : list window) : Prop :=
  match ws with
  | w :: ws' => lt cursor w.2 /\ advancing w.2 ws'
  | [] => True
  end.

(** Each window starts at the cursor, rounded down if asked for. *)
Fixpoint follows (should_round : bool) (cursor : t) (ws : list window) : Prop :=
  match ws with
  | w :: ws' =>
      w.1 = (if should_round then round_down cursor else cursor)
      /\ follows should_round w.2 ws'
  | [] => True
  end.

(** The property as the Interval Planner is described. *)
Definition planner_claim (interval : timedelta) (should_round : bool)
    (measurement_start measurement_end : t) : Prop :=
  (exists fuel ws st,
     interval_windows interval should_round fuel measurement_start measurement_end = (ws, st)
     /\ st <> Running)
  /\ forall fuel ws st,
     interval_windows interval should_round fuel measurement_start measurement_end = (ws, st) ->
     contiguous ws /\ ordered ws /\ non_overlapping ws
     /\ Forall (fun w => lt w.1 measurement_end) ws
     /\ advancing measurement_start ws.

Lemma round_cases (b : bool) (cursor : t) :
  (b = false /\ (if b then round_down cursor else cursor) = cursor)
  \/ (b = true /\ (if b then round_down cursor else cursor) = round_down cursor).
Proof. destruct b; auto. Qed.

(** What the loop guarantees when it steps forward. *)
Definition planner_amended (interval : timedelta) (should_round : bool)
    (measurement_start measurement_end : t) : Prop :=
  (exists fuel ws st,
     interval_windows interval should_round fuel measurement_start measurement_end = (ws, st)
     /\ st <> Running)
  /\ forall fuel ws st,
     interval_windows interval should_round fuel measurement_start measurement_end = (ws, st) ->
     follows should_round measurement_start ws
     /\ Forall (fun w => add w.1 interval = Ok w.2 /\ lt w.1 measurement_end) ws
     /\ advancing measurement_start ws
     /\ ordered ws
     /\ (fuel <> 0%nat -> ws = [] -> st = Raised OverflowError)
     /\ (should_round = false \/ (exists k, interval = k * US_PER_HOUR) ->
         contiguous ws /\ non_overlapping ws).

Section windows.

Variables (interval : timedelta) (should_round : bool) (measurement_end : t).

Definition windows_from (fuel : nat) (cursor : t) : list window * status :=
  (interval_loop interval should_round (fun s e (fs : filesystem) => (Ok (s, e), fs))
     fuel measurement_end cursor ∅).1.

Lemma windows_from_0 (cursor : t) : windows_from 0 cursor = ([], Running).
Proof. reflexivity. Qed.

Lemma windows_from_S (fuel : nat) (cursor : t) :
  windows_from (S fuel) cursor =
  if ltb cursor measurement_end then
    let start := if should_round then round_down cursor else cursor in
    match add start interval with
    | Raise e => ([], Raised e)
    | Ok end_ => ((start, end_) :: (windows_from fuel end_).1, (windows_from fuel end_).2)
    end
  else ([], Exhausted).
Proof.
  unfold windows_from; simpl.
  destruct (ltb cursor measurement_end); [|done].
  fold (round_down cursor).
  destruct (add _ interval) as [end_|e]; [|done].
  by destruct (interval_loop _ _ _ fuel measurement_end end_ ∅) as [[xs st] fs].
Qed.

Hypothesis interval_pos : 0 < interval.
Hypothesis end_valid : valid measurement_end.
Hypothesis steps_forward : should_round = false \/ US_PER_HOUR <= interval.

Lemma start_valid (cursor : t) :
  valid cursor -> valid (if should_round then round_down cursor else cursor).
Proof. destruct should_round; auto using round_down_valid. Qed.

(** One step moves the cursor forward. *)
Lemma step_forward (cursor end_ : t) :
  valid cursor ->
  add (if should_round then round_down cursor else cursor) interval = Ok end_ ->
  valid end_ /\ to_us cursor < to_us end_.
Proof.
  intros Hc [Hv Hus]%add_Ok. split; [done|].
  destruct should_round.
  - pose proof (round_down_to_us cursor Hc).
    destruct steps_forward as [|]; [done|lia].
  - lia.
Qed.

(** The loop ends: the distance to the end bounds the number of steps. *)
Lemma windows_from_finite (n : nat) (cursor : t) :
  valid cursor ->
  to_us measurement_end - to_us cursor <= Z.of_nat n ->
  (windows_from (S n) cursor).2 <> Running.
Proof using interval_pos end_valid steps_forward.
  revert cursor. induction n as [|n IH]; intros cursor Hc Hn;
    rewrite windows_from_S.
  - rewrite (proj2 (ltb_ge _ _ Hc end_valid)) by lia. done.
  - destruct (ltb cursor measurement_end) eqn:Hlt; [|done]. simpl.
    destruct (add _ interval) as [end_|e] eqn:Hadd; [|done]. simpl.
    destruct (step_forward _ _ Hc Hadd) as [Hv Hus].
    apply IH; [done|lia].
Qed.

(** What holds of the windows, whatever the fuel. *)
Lemma windows_from_spec (fuel : nat) (cursor : t) :
  valid cursor ->
  let ws := (windows_from fuel cursor).1 in
  follows should_round cursor ws
  /\ advancing cursor ws
  /\ Forall (fun w => valid w.1 /\ valid w.2 /\ add w.1 interval = Ok w.2
                      /\ lt w.1 measurement_end) ws.
Proof using interval_pos end_valid steps_forward.
  revert cursor. induction fuel as [|fuel IH]; intros cursor Hc.
  { rewrite windows_from_0. simpl. auto. }
  rewrite windows_from_S.
  destruct (ltb cursor measurement_end) eqn:Hlt; [|simpl; auto]. simpl.
  destruct (add _ interval) as [end_|e] eqn:Hadd; [|simpl; auto]. simpl.
  destruct (step_forward _ _ Hc Hadd) as [Hv Hus].
  destruct (IH end_ Hv) as (Hf & Ha & Hall).
  pose proof (start_valid cursor Hc) as Hs.
  split; [done|]. split.
  - split; [|done]. by apply ltb_lt.
  - constructor; [|done]. simpl. do 3 (split; [done|]).
    apply ltb_lt; [done..|]. apply ltb_lt in Hlt; [|done..].
    destruct should_round; [|done].
    pose proof (round_down_to_us cursor Hc). lia.
Qed.

(** Order and contiguity follow from how each window is made. *)
Lemma follows_ordered (cursor : t) (ws : list window) :
  follows should_round cursor ws ->
  Forall (fun w => valid w.1 /\ valid w.2 /\ add w.1 interval = Ok w.2
                   /\ lt w.1 measurement_end) ws ->
  ordered ws.
Proof using interval_pos end_valid steps_forward.
  revert cursor. induction ws as [|w1 ws' IH]; intros cursor Hf Hall; [done|].
  destruct Hf as [Hw1 Hf]. inversion Hall as [|? ? (Hv1 & Hv2 & Hadd & _) Hall']; subst.
  split; [|by eapply IH].
  destruct ws' as [|w2 rest]; [done|].
  destruct Hf as [Hw2 _]. inversion Hall' as [|? ? (Hv3 & _) _]; subst.
  apply ltb_lt; [done..|]. apply add_Ok in Hadd as [_ Hus].
  destruct (round_cases should_round w1.2) as [[Hb Heq]|[Hb Heq]];
    rewrite Hw2, Heq; [lia|].
  pose proof (round_down_to_us _ Hv2).
  destruct steps_forward as [Hno|]; [congruence|lia].
Qed.

Lemma follows_contiguous (cursor : t) (ws : list window) :
  should_round = false \/ (exists k, interval = k * US_PER_HOUR) ->
  follows should_round cursor ws ->
  Forall (fun w => valid w.1 /\ valid w.2 /\ add w.1 interval = Ok w.2
                   /\ lt w.1 measurement_end) ws ->
  contiguous ws /\ non_overlapping ws.
Proof using interval_pos end_valid steps_forward.
  intros Hcase. revert cursor.
  induction ws as [|w1 ws' IH]; intros cursor Hf Hall; [done|].
  destruct Hf as [Hw1 Hf]. inversion Hall as [|? ? (Hv1 & Hv2 & Hadd & _) Hall']; subst.
  destruct (IH _ Hf Hall') as [IHc IHn].
  assert (match ws' with w2 :: _ => w2.1 = w1.2 | [] => True end) as Hnext.
  { destruct ws' as [|w2 rest]; [done|]. destruct Hf as [-> _].
    destruct (round_cases should_round w1.2) as [[Hb Heq]|[Hb Heq]];
      rewrite Heq; [done|].
    destruct Hcase as [Hno|[k Hk]]; [congruence|].
    rewrite Hk in Hadd.
    destruct (round_cases should_round cursor) as [[Hb' Heq']|[Hb' Heq']];
      [congruence|]. rewrite Heq' in Hw1.
    assert (minute w1.1 = 0 /\ second w1.1 = 0 /\ microsecond w1.1 = 0)
      as (Hm & Hs & Hu) by (by rewrite Hw1).
    destruct (add_whole_hours _ _ _ Hv1 Hm Hs Hu Hadd) as (Hm' & Hs' & Hu').
    by apply round_down_on_hour. }
  split; (split; [|done]).
  - done.
  - destruct ws' as [|w2 rest]; [done|]. rewrite Hnext.
    apply ltb_ge; [done..|lia].
Qed.

End windows.

(** With [should_round] and an interval shorter than an hour the cursor
    falls back to where it was. *)
Lemma half_hour_stuck (fuel : nat) :
  let c := mk_datetime 2021 1 1 1 0 0 0 in
  let e := mk_datetime 2021 1 1 3 0 0 0 in
  forall cursor, cursor = c \/ cursor = mk_datetime 2021 1 1 1 30 0 0 ->
  windows_from (timedelta_hm 0 30) true e fuel cursor
  = (replicate fuel (c, mk_datetime 2021 1 1 1 30 0 0), Running).
Proof.
  intros c e. induction fuel as [|fuel IH]; intros cursor Hcur; [done|].
  rewrite windows_from_S.
  assert (ltb cursor e = true) as -> by (destruct Hcur as [->| ->]; reflexivity).
  cbv beta zeta iota.
  assert (round_down cursor = c) as -> by (destruct Hcur as [->| ->]; reflexivity).
  assert (add c (timedelta_hm 0 30) = Ok (mk_datetime 2021 1 1 1 30 0 0)) as ->
    by (vm_compute; reflexivity).
  rewrite IH by (by right). done.
Qed.

(** C1 (as amended).  For a valid span with [measurement_start <
    measurement_end] and a positive interval, if [should_round] is off or
    the interval is at least one hour, the loop stops after finitely many
    windows; each window starts at the cursor (rounded down to the hour if
    [should_round]), ends one interval later and starts before
    [measurement_end]; the cursor and the window starts strictly increase.
    If [should_round] is off, or the interval is a whole number of hours,
    the windows are moreover contiguous and do not overlap. *)
Theorem interval_windows_amended (interval : timedelta) (should_round : bool)
    (measurement_start measurement_end : t) :
  valid measurement_start -> valid measurement_end ->
  lt measurement_start measurement_end ->
  0 < interval ->
  should_round = false \/ US_PER_HOUR <= interval ->
  planner_amended interval should_round measurement_start measurement_end.
Proof.
  intros Hs He Hlt Hpos Hstep. split.
  - exists (S (Z.to_nat (to_us measurement_end - to_us measurement_start))).
    eexists _, _. split; [apply surjective_pairing|].
    apply (windows_from_finite interval should_round measurement_end Hpos He Hstep);
      try done.
    apply ltb_lt in Hlt; [lia|done..].
  - intros fuel ws st Hrun.
    change (windows_from interval should_round measurement_end fuel measurement_start
            = (ws, st)) in Hrun.
    pose proof (windows_from_spec interval should_round measurement_end
                  Hpos He Hstep fuel measurement_start Hs) as (Hf & Ha & Hall).
    pose proof (follows_ordered interval should_round measurement_end
                  Hpos He Hstep measurement_start _ Hf Hall) as Hord.
    pose proof (fun Hc => follows_contiguous interval should_round measurement_end
                  Hpos He Hstep measurement_start _ Hc Hf Hall) as Hcont.
    rewrite Hrun in Hf, Ha, Hall, Hord, Hcont. simpl in *.
    split; [done|]. split.
    { eapply Forall_impl; [exact Hall|]. by intros w (_ & _ & Hadd & Hw). }
    do 2 (split; [done|]). split; [|done].
    intros Hfuel ->. destruct fuel as [|fuel]; [done|].
    rewrite windows_from_S in Hrun. unfold lt in Hlt. rewrite Hlt in Hrun.
    simpl in Hrun. destruct (add _ interval) as [?|e] eqn:Hadd; [done|].
    apply add_Raise in Hadd as ->. by injection Hrun as <-.
Qed.

Lemma interval_windows_amended_witness :
  let ms := mk_datetime 2021 1 1 0 30 0 0 in
  let me := mk_datetime 2021 1 1 3 0 0 0 in
  valid ms /\ valid me /\ lt ms me /\ 0 < timedelta_hm 1 0
  /\ (true = false \/ US_PER_HOUR <= timedelta_hm 1 0)
  /\ planner_amended (timedelta_hm 1 0) true ms me.
Proof.
  intros ms me.
  assert (valid ms) as Hs by (vm_compute; intuition discriminate).
  assert (valid me) as He by (vm_compute; intuition discriminate).
  assert (lt ms me) as Hlt by reflexivity.
  assert (0 < timedelta_hm 1 0) as Hpos by reflexivity.
  assert (true = false \/ US_PER_HOUR <= timedelta_hm 1 0) as Hstep
    by (right; vm_compute; discriminate).
  repeat (split; [assumption|]).
  exact (interval_windows_amended (timedelta_hm 1 0) true ms me Hs He Hlt Hpos Hstep).
Defined.

(** C1 as stated fails when [should_round] is on: with a half-hour interval
    the loop never ends and repeats one window, and with an interval of an
    hour and a half consecutive windows overlap. *)
Lemma planner_claim_fails :
  ~ planner_claim (timedelta_hm 0 30) true
      (mk_datetime 2021 1 1 1 0 0 0) (mk_datetime 2021 1 1 3 0 0 0)
  /\ (forall fuel,
        interval_windows (timedelta_hm 0 30) true fuel
          (mk_datetime 2021 1 1 1 0 0 0) (mk_datetime 2021 1 1 3 0 0 0)
        = (replicate fuel (mk_datetime 2021 1 1 1 0 0 0, mk_datetime 2021 1 1 1 30 0 0),
           Running))
  /\ ~ planner_claim (timedelta_hm 1 30) true
      (mk_datetime 2021 1 1 1 0 0 0) (mk_datetime 2021 1 1 4 0 0 0)
  /\ interval_windows (timedelta_hm 1 30) true 4
       (mk_datetime 2021 1 1 1 0 0 0) (mk_datetime 2021 1 1 4 0 0 0)
     = ([(mk_datetime 2021 1 1 1 0 0 0, mk_datetime 2021 1 1 2 30 0 0);
         (mk_datetime 2021 1 1 2 0 0 0, mk_datetime 2021 1 1 3 30 0 0);
         (mk_datetime 2021 1 1 3 0 0 0, mk_datetime 2021 1 1 4 30 0 0)],
        Exhausted).
Proof.
  assert (forall fuel,
        interval_windows (timedelta_hm 0 30) true fuel
          (mk_datetime 2021 1 1 1 0 0 0) (mk_datetime 2021 1 1 3 0 0 0)
        = (replicate fuel (mk_datetime 2021 1 1 1 0 0 0, mk_datetime 2021 1 1 1 30 0 0),
           Running)) as Hstuck.
  { intros fuel. apply (half_hour_stuck fuel). by left. }
  assert (interval_windows (timedelta_hm 1 30) true 4
       (mk_datetime 2021 1 1 1 0 0 0) (mk_datetime 2021 1 1 4 0 0 0)
     = ([(mk_datetime 2021 1 1 1 0 0 0, mk_datetime 2021 1 1 2 30 0 0);
         (mk_datetime 2021 1 1 2 0 0 0, mk_datetime 2021 1 1 3 30 0 0);
         (mk_datetime 2021 1 1 3 0 0 0, mk_datetime 2021 1 1 4 30 0 0)],
        Exhausted)) as Hrun90 by (vm_compute; reflexivity).
  split; [|split; [done|split; [|done]]].
  - intros [(fuel & ws & st & Hrun & Hst) _].
    rewrite Hstuck in Hrun. apply (f_equal snd) in Hrun. cbn [snd] in Hrun.
    congruence.
  - intros [_ Hall]. destruct (Hall _ _ _ Hrun90) as ([Hc _] & _).
    vm_compute in Hc. discriminate.
Qed.

End planner.

(** ** Day and night configuration *)

Module config_id.
Import datetime datetime_facts np netCDF4 locations scc_netcdf.
Local Open Scope Z_scope.

(** What the comparison in [create_scc_netcdf] decides: only the hour and
    the minute of the start matter, since [replace(hour=4, minute=0)] keeps
    the start's seconds and microseconds. *)
Lemma is_daytime_iff (d : t) :
  valid d ->
  is_daytime d = true <->
  (4 < hour d \/ (hour d = 4 /\ 0 < minute d)) /\ hour d < 16.
Proof.
  intros (_ & _ & Hm & _ & _).
  unfold is_daytime, ltb, replace, fields.
  cbn [lex_ltb ordinal hour minute second microsecond default]. unfold id.
  rewrite !Z.ltb_irrefl, !Z.eqb_refl. cbn [andb orb].
  repeat match goal with
         | |- context [(?x <? ?y)] => destruct (Z.ltb_spec x y)
         | |- context [(?x =? ?y)] => destruct (Z.eqb_spec x y)
         end; cbn [andb orb]; split; intros; try discriminate; try lia.
Qed.

(** C4.  A start at 04:00:30 lies strictly between 04:00:00 and 16:00:00,
    yet [create_scc_netcdf] writes the night configuration for it; one
    minute later it writes the day configuration. *)
Theorem config_id_at_0400_30 :
  let start := mk_datetime 2021 1 1 4 0 30 0 in
  let end_ := mk_datetime 2021 1 1 5 0 30 0 in
  let pf := examples.view start end_ 3 5 12 in
  to_us (mk_datetime 2021 1 1 4 0 0 0) < to_us start < to_us (mk_datetime 2021 1 1 16 0 0 0)
  /\ is_daytime start = false
  /\ (let '(r, fs) := create_scc_netcdf pf "out" examples.site ∅ in
      r = Ok ("20210101aky0405", "out/20210101aky0405.nc")
      /\ file_attr fs "out/20210101aky0405.nc" "NOAReACT_Configuration_ID"
         = Some (AttrInt (system_id_night examples.site)))
  /\ is_daytime (mk_datetime 2021 1 1 4 1 0 0) = true.
Proof. vm_compute. repeat split; congruence. Qed.

End config_id.

(** ** Calibration periods *)

Module calibration.
Import datetime datetime_facts scc_netcdf.
Local Open Scope Z_scope.

(** Adding hours and minutes of the clock to the start of a day *)
Lemma add_clock (base : t) (h m : Z) :
  valid base -> 0 <= h < 24 -> 0 <= m < 60 ->
  add (replace base (Some 0) (Some 0) (Some 0) None) (timedelta_hm h m)
  = Ok (mk (ordinal base) h m 0 (microsecond base)).
Proof.
  intros (Ho & _ & _ & _ & Hu) Hh Hm. unfold add, replace, to_us; simpl.
  set (total := _ + timedelta_hm h m).
  assert (total = ordinal base * 86400000000 + (h * 3600 + m * 60) * 1000000
                  + microsecond base) as Htotal
    by (unfold total, timedelta_hm, US_PER_SECOND; lia).
  clearbody total. unfold US_PER_DAY, US_PER_SECOND, MAXORDINAL in *.
  assert (total / (86400 * 1000000) = ordinal base) as ->
    by (Z.div_mod_to_equations; lia).
  assert (total mod (86400 * 1000000) mod 1000000 = microsecond base) as ->
    by (Z.div_mod_to_equations; lia).
  assert (total mod (86400 * 1000000) / 1000000 = h * 3600 + m * 60) as ->
    by (Z.div_mod_to_equations; lia).
  assert ((h * 3600 + m * 60) / 3600 = h) as -> by (Z.div_mod_to_equations; lia).
  assert ((h * 3600 + m * 60) mod 3600 = m * 60) as ->
    by (Z.div_mod_to_equations; lia).
  assert (m * 60 / 60 = m) as -> by (Z.div_mod_to_equations; lia).
  assert ((m * 60) mod 60 = 0) as -> by (Z.div_mod_to_equations; lia).
  destruct (_ && _) eqn:Hrange; [done|].
  apply andb_false_iff in Hrange. rewrite Z.ltb_ge, Z.leb_gt in Hrange. lia.
Qed.

(** The three periods of the day of [base]: they keep the microsecond of
    [base]. *)
Lemma calibration_to_datetime_periods (base : t) :
  valid base ->
  let at_ := fun h m => mk (ordinal base) h m 0 (microsecond base) in
  calibration_to_datetime base "02:31-02:41" = Ok (at_ 2 31, at_ 2 41)
  /\ calibration_to_datetime base "17:31-17:41" = Ok (at_ 17 31, at_ 17 41)
  /\ calibration_to_datetime base "21:31-21:41" = Ok (at_ 21 31, at_ 21 41).
Proof.
  intros Hb at_. unfold calibration_to_datetime.
  repeat split.
  - change (split "-" "02:31-02:41") with ["02:31"; "02:41"]. simpl unpack2.
    cbn [mbind result_bind].
    change (mapM int (split ":" "02:31")) with (Ok [2; 31]).
    change (mapM int (split ":" "02:41")) with (Ok [2; 41]).
    cbn [mbind result_bind index lookup list_lookup].
    rewrite !add_clock by (done || lia). done.
  - change (split "-" "17:31-17:41") with ["17:31"; "17:41"]. simpl unpack2.
    cbn [mbind result_bind].
    change (mapM int (split ":" "17:31")) with (Ok [17; 31]).
    change (mapM int (split ":" "17:41")) with (Ok [17; 41]).
    cbn [mbind result_bind index lookup list_lookup].
    rewrite !add_clock by (done || lia). done.
  - change (split "-" "21:31-21:41") with ["21:31"; "21:41"]. simpl unpack2.
    cbn [mbind result_bind].
    change (mapM int (split ":" "21:31")) with (Ok [21; 31]).
    change (mapM int (split ":" "21:41")) with (Ok [21; 41]).
    cbn [mbind result_bind index lookup list_lookup].
    rewrite !add_clock by (done || lia). done.
Qed.

(** C6.  The periods are anchored at 00:00:00 of the day of
    [measurement_start] but keep its microsecond: for a start at
    00:00:00.500000 the first period is 02:31:00.500000 to 02:41:00.500000,
    not 02:31:00.000000 to 02:41:00.000000. *)
Theorem calibration_anchor_keeps_microsecond :
  calibration_to_datetime (mk_datetime 2021 1 1 0 0 0 500000) "02:31-02:41"
  = Ok (mk_datetime 2021 1 1 2 31 0 500000, mk_datetime 2021 1 1 2 41 0 500000)
  /\ mk_datetime 2021 1 1 2 31 0 500000 <> mk_datetime 2021 1 1 2 31 0 0.
Proof. split; [vm_compute; reflexivity|]. vm_compute. congruence. Qed.

End calibration.

(** ** Reasoning about the dataset being written

    [wpx E m Q ds]: run from [ds], [m] either returns a value and a state
    that satisfy [Q] or raises an exception that, with the state left
    behind, satisfies [E]. *)

Module nc_logic.
Import np netCDF4 scc_netcdf.

Definition wpx {A} (E : exn -> Dataset -> Prop) (m : NC A)
    (Q : A -> Dataset -> Prop) (ds : Dataset) : Prop :=
  match m ds with
  | (Ok a, ds') => Q a ds'
  | (Raise e, ds') => E e ds'
  end.

(** No exception allowed, and any exception allowed. *)
Definition never : exn -> Dataset -> Prop := fun _ _ => False.
Definition whatever : exn -> Dataset -> Prop := fun _ _ => True.

Definition all_or_fixed (d : Dimension) (e : extent) : Prop :=
  exists k, e = Span k /\ (dim_unlimited d = false -> k = dim_size d).

Section rules.
Context {A : Type} (E : exn -> Dataset -> Prop).
Implicit Types (Q : A -> Dataset -> Prop).

Lemma wpx_bind {B} (m : NC B) (f : B -> NC A) Q ds :
  wpx E m (fun b ds' => wpx E (f b) Q ds') ds -> wpx E (m ≫= f) Q ds.
Proof. unfold wpx, mbind, NC_bind. by destruct (m ds) as [[b|e] ds']. Qed.

Lemma wpx_ret (a : A) Q ds : Q a ds -> wpx E (mret a) Q ds.
Proof. done. Qed.

Lemma wpx_raise (e : exn) Q ds : E e ds -> wpx E (raise e) Q ds.
Proof. done. Qed.

Lemma wpx_lift (r : result A) (a : A) Q ds :
  r = Ok a -> Q a ds -> wpx E (lift r) Q ds.
Proof. by intros ->. Qed.

End rules.

Lemma wlp_lift {A} (r : result A) (Q : A -> Dataset -> Prop) ds :
  (forall a, r = Ok a -> Q a ds) -> wpx whatever (lift r) Q ds.
Proof. unfold wpx, lift. destruct r; [auto|done]. Qed.

Section unit_rules.
Context (E : exn -> Dataset -> Prop).
Implicit Types (Q : unit -> Dataset -> Prop).

Lemma wpx_createDimension name size Q D At V o :
  Q tt (mkDataset
          (assoc_set name
             (match size with Some n => mkDim n false | None => mkDim 0 true end) D)
          At V o) ->
  wpx E (createDimension name size) Q (mkDataset D At V o).
Proof. done. Qed.

Lemma wpx_setncattr name value Q D At V o :
  Q tt (mkDataset D (assoc_set name value At) V o) ->
  wpx E (setncattr name value) Q (mkDataset D At V o).
Proof. done. Qed.

Lemma wpx_close Q D At V o :
  Q tt (mkDataset D At V false) -> wpx E close Q (mkDataset D At V o).
Proof. done. Qed.

Lemma wpx_setitem var sel data dt dims data0 dl es Q D At V o :
  assoc var V = Some (mkVar dt dims data0) ->
  resolve D dims = Some dl ->
  var_extents dl sel (shape data) = Ok es ->
  shape data = [] \/ nelem data = prod (free_shape es) ->
  Q tt (mkDataset (grow D dims es) At
          (assoc_set var (mkVar dt dims (written es data data0)) V) o) ->
  wpx E (setitem var sel data) Q (mkDataset D At V o).
Proof.
  intros Hv Hd He Hc HQ. unfold wpx, setitem; simpl.
  rewrite Hv; simpl. rewrite Hd, He. by rewrite bool_decide_eq_true_2.
Qed.

End unit_rules.

Lemma wlp_setitem var sel data dt dims data0 dl
    (Q : unit -> Dataset -> Prop) D At V o :
  assoc var V = Some (mkVar dt dims data0) ->
  resolve D dims = Some dl ->
  (forall es, var_extents dl sel (shape data) = Ok es ->
     shape data = [] \/ nelem data = prod (free_shape es) ->
     Q tt (mkDataset (grow D dims es) At
             (assoc_set var (mkVar dt dims (written es data data0)) V) o)) ->
  wpx whatever (setitem var sel data) Q (mkDataset D At V o).
Proof.
  intros Hv Hd HQ. unfold wpx, setitem; simpl.
  rewrite Hv; simpl. rewrite Hd. destruct (var_extents _ _ _) as [es|]; [|done].
  case_bool_decide; [|done]. by apply HQ.
Qed.

Lemma wpx_getncattr E name v (Q : attr -> Dataset -> Prop) D At V o :
  assoc name At = Some v -> Q v (mkDataset D At V o) ->
  wpx E (getncattr name) Q (mkDataset D At V o).
Proof. intros Hv HQ. unfold wpx, getncattr; simpl. by rewrite Hv. Qed.

Lemma wpx_createVariable E name dtype dims dl (Q : string -> Dataset -> Prop) D At V o :
  resolve D dims = Some dl ->
  Q name (mkDataset D At (assoc_set name (mkVar dtype dims (fun _ => None)) V) o) ->
  wpx E (createVariable name dtype dims) Q (mkDataset D At V o).
Proof. intros Hd HQ. unfold wpx, createVariable; simpl. by rewrite Hd. Qed.

(** From the dataset to the file it is written to. *)
Lemma wpx_with_dataset {A} E (body : NC A) Q filename (fs : filesystem) :
  wpx E body Q netCDF4.empty ->
  match with_dataset filename body fs with
  | (Ok a, fs') => exists nc, fs' = <[filename := nc]> fs /\ Q a nc
  | (Raise e, fs') => exists nc, fs' = <[filename := nc]> fs /\ E e nc
  end.
Proof.
  unfold wpx, with_dataset. destruct (body netCDF4.empty) as [[a|e] nc]; eauto.
Qed.

(** A full slice covers each dimension; along a fixed dimension it covers
    the dimension's size. *)
Lemma extents_All (dl : list Dimension) (sel : list selector) (sh : list nat)
    (pos : nat) (es : list extent) :
  sel = [] \/ sel = [All] ->
  extents dl sel sh pos = Ok es -> Forall2 all_or_fixed dl es.
Proof.
  revert sel pos es. induction dl as [|d dl IH]; intros sel pos es Hsel.
  - destruct Hsel as [-> | ->]; simpl; [|done]. intros [= <-]. constructor.
  - simpl.
    assert (match sel with [] => All | s :: _ => s end = All) as ->
      by (by destruct Hsel as [-> | ->]).
    assert (tail sel = [] \/ tail sel = [All]) as Htl
      by (destruct Hsel as [-> | ->]; auto).
    destruct (dim_unlimited d && _) eqn:Hu.
    + destruct (sh !! pos) as [n|]; [|done]. simpl.
      destruct (extents dl (tail sel) sh (S pos)) as [es'|] eqn:Hes; [|done].
      simpl. intros [= <-]. constructor; [|by eapply IH].
      exists n. split; [done|]. intros Hd. by rewrite Hd in Hu.
    + simpl.
      destruct (extents dl (tail sel) sh (S pos)) as [es'|] eqn:Hes; [|done].
      simpl. intros [= <-]. constructor; [|by eapply IH].
      by exists (dim_size d).
Qed.

Lemma var_extents_All (dl : list Dimension) (sh : list nat) (es : list extent) :
  var_extents dl [All] sh = Ok es -> Forall2 all_or_fixed dl es.
Proof.
  destruct dl as [|d dl]; simpl.
  - intros [= <-]. constructor.
  - apply (extents_All (d :: dl) [All]). by right.
Qed.

Lemma getitem_Ok {A} (a : ndarray A) (sel : list selector) (sh : list nat) :
  sel_shape sel (shape a) = Ok sh ->
  getitem a sel = Ok (np.mk sh (fun idx => item a (sel_index sel idx))).
Proof. unfold getitem. by intros ->. Qed.

Ltac nc_side :=
  first [ reflexivity | eassumption | left; reflexivity
        | right; unfold nelem; simpl; lia ].

Ltac nc_op :=
  lazymatch goal with
  | |- wpx _ (createDimension _ _) _ _ => apply wpx_createDimension
  | |- wpx _ (setncattr _ _) _ _ => apply wpx_setncattr
  | |- wpx _ close _ _ => apply wpx_close
  | |- wpx _ (getncattr _) _ _ => eapply wpx_getncattr; [reflexivity|]
  | |- wpx _ (createVariable _ _ _) _ _ => eapply wpx_createVariable; [reflexivity|]
  | |- wpx _ (mret _) _ _ => apply wpx_ret
  | |- wpx _ (raise _) _ _ => apply wpx_raise
  | |- wpx _ (if ?b then _ else _) _ _ =>
      let Hif := fresh "Hif" in destruct b eqn:Hif
  end.

Ltac inv_extents H :=
  repeat match type of H with
         | Forall2 _ [] _ => apply Forall2_nil_inv_l in H; subst
         | Forall2 _ (_ :: _) _ =>
             let e := fresh "e" in
             let k := fresh "k" in
             let Hk := fresh "Hk" in
             apply Forall2_cons_inv_l in H as (e & ? & (k & -> & Hk) & H & ->);
             simpl in Hk;
             try (specialize (Hk eq_refl); subst k)
         end.

(** Keep the dimensions, attributes and variables as explicit lists. *)
Ltac nc_norm :=
  cbn [grow assoc assoc_set String.eqb Ascii.eqb Bool.eqb andb
       dim_size dim_unlimited upper].

(** One step where every check is shown to pass. *)
Ltac nc_step :=
  cbv beta iota zeta;
  lazymatch goal with
  | |- wpx _ (_ ≫= _) _ _ => apply wpx_bind
  | |- wpx _ (setitem _ _ _) _ _ =>
      eapply wpx_setitem; [reflexivity | reflexivity | reflexivity | nc_side | ]
  | |- wpx _ (lift _) _ _ => eapply wpx_lift; [nc_side|]
  | |- _ => nc_op
  end;
  nc_norm.

(** One step where a check that cannot be decided is assumed to pass. *)
Ltac nc_partial_step :=
  cbv beta iota zeta;
  lazymatch goal with
  | |- wpx _ (_ ≫= _) _ _ => apply wpx_bind
  | |- wpx _ (setitem _ _ _) _ _ =>
      first
        [ eapply wpx_setitem; [reflexivity | reflexivity | reflexivity | nc_side | ]
        | let es := fresh "es" in
          let He := fresh "He" in
          let Hc := fresh "Hc" in
          eapply wlp_setitem; [reflexivity | reflexivity | intros es He Hc];
          first [ apply var_extents_All in He; inv_extents He
                | simpl in He; injection He as <- ] ]
  | |- wpx _ (lift _) _ _ =>
      first [ eapply wpx_lift; [nc_side|]
            | apply wlp_lift; intros ? ? ]
  | |- _ => nc_op
  end;
  nc_norm.

End nc_logic.

(** ** The standard record *)

Module standard_record.
Import np netCDF4 locations scc_netcdf nc_logic.

Definition output_filename (pf : PollyXTFile_t) (output_path : string)
    (location : Location) : string :=
  path_join output_path (measurement_id_of pf location +:+ ".nc").

(** What holds of a record that [create_scc_netcdf] has written. *)
Definition standard_post (pf : PollyXTFile_t) (output_path : string)
    (location : Location) (r : string * string) (ds : Dataset) : Prop :=
  r = (measurement_id_of pf location, output_filename pf output_path location)
  /\ dimension_size ds "points" = shape (raw_signal pf) !! 1%nat
  /\ dimension_size ds "channels" = shape (raw_signal pf) !! 2%nat
  /\ assoc "Measurement_ID" (ncattrs ds)
     = Some (AttrStr (measurement_id_of pf location))
  /\ assoc "NOAReACT_Configuration_ID" (ncattrs ds)
     = Some (AttrInt (if is_daytime (start_date pf)
                      then system_id_day location
                      else system_id_night location))
  /\ read ds "channel_ID" = Some (Some <$> CHANNEL_IDS)
  /\ isopen ds = false.

(** A view that [create_scc_netcdf] can convert: at least one profile, a
    raw signal of shape [[profiles; bins; 12]], times and shot counts for
    the same profiles, and a zenith angle. *)
Definition view_ok (pf : PollyXTFile_t) : Prop :=
  exists p bins,
    shape (raw_signal pf) = [S p; bins; 12%nat]
    /\ shape (measurement_time pf) = [S p; 2%nat]
    /\ shape (measurement_shots pf) = [S p; 12%nat]
    /\ shape (zenith_angle pf) = [].

(** The dimensions as the specification puts them: [points] along axis 2,
    [channels] along axis 1. *)
Definition dimensions_claim (pf : PollyXTFile_t) (output_path : string)
    (location : Location) (fs : filesystem) : Prop :=
  forall id path fs',
    create_scc_netcdf pf output_path location fs = (Ok (id, path), fs') ->
    file_dimension fs' path "points" = shape (raw_signal pf) !! 2%nat
    /\ file_dimension fs' path "channels" = shape (raw_signal pf) !! 1%nat.

Lemma size_Ok {A} (a : ndarray A) (axis n : nat) :
  np.size a axis = Ok n -> shape a !! axis = Some n.
Proof. unfold np.size. destruct (shape a !! axis); [|done]. by intros [= ->]. Qed.

Lemma create_scc_netcdf_partial pf output_path location (fs : filesystem) :
  match create_scc_netcdf pf output_path location fs with
  | (Ok r, fs') =>
      exists nc, fs' = <[output_filename pf output_path location := nc]> fs
                 /\ standard_post pf output_path location r nc
  | (Raise e, fs') =>
      exists nc, fs' = <[output_filename pf output_path location := nc]> fs
                 /\ whatever e nc
  end.
Proof.
  unfold create_scc_netcdf. apply (wpx_with_dataset whatever).
  unfold netCDF4.empty.
  repeat nc_partial_step.
  all: repeat match goal with
              | H : np.size _ _ = Ok _ |- _ => apply size_Ok in H
              end.
  all: assert (a0 = 12%nat) as ->
         by (destruct Hc2 as [Hc2|Hc2]; [done|]; unfold nelem in Hc2;
             simpl in Hc2; lia).
  all: unfold standard_post, dimension_size; rewrite Hif; simpl; repeat split; try done.
Qed.

Lemma create_scc_netcdf_total pf output_path location (fs : filesystem) :
  view_ok pf ->
  exists fs',
    create_scc_netcdf pf output_path location fs
    = (Ok (measurement_id_of pf location, output_filename pf output_path location), fs').
Proof.
  intros (p & bins & Hraw & Hmt & Hshots & Hz).
  pose proof (create_scc_netcdf_partial pf output_path location fs) as Hpartial.
  assert (match create_scc_netcdf pf output_path location fs with
          | (Ok r, fs') => True
          | (Raise e, fs') => False
          end) as Htotal.
  { unfold create_scc_netcdf.
    match goal with
    | |- match with_dataset ?f ?body ?fs with _ => _ end =>
        pose proof (wpx_with_dataset never body (fun _ _ => True) f fs) as Hw
    end.
    match type of Hw with
    | ?P -> _ => assert P as Hbody; [|specialize (Hw Hbody);
        destruct (with_dataset _ _ _) as [[r|e] fs']; [done|by destruct Hw as (? & _ & ?)]]
    end.
    assert (np.size (raw_signal pf) 0 = Ok (S p)) by (unfold np.size; by rewrite Hraw).
    assert (np.size (raw_signal pf) 1 = Ok bins) by (unfold np.size; by rewrite Hraw).
    assert (np.size (raw_signal pf) 2 = Ok 12%nat) by (unfold np.size; by rewrite Hraw).
    assert (getitem (measurement_time pf) [All; Idx 1] = Ok _)
      by (apply getitem_Ok; rewrite Hmt; reflexivity).
    assert (getitem (measurement_time pf) [Idx 0; Idx 1] = Ok _)
      by (apply getitem_Ok; rewrite Hmt; reflexivity).
    assert (getitem (measurement_shots pf) [All] = Ok _)
      by (apply getitem_Ok; rewrite Hshots; reflexivity).
    assert (swapaxes (raw_signal pf) 1 2 = Ok _)
      by (unfold swapaxes; rewrite Hraw; reflexivity).
    assert (item0 (zenith_angle pf) = Ok _)
      by (unfold item0, nelem; rewrite Hz; reflexivity).
    unfold netCDF4.empty.
    repeat nc_step. all: done. }
  destruct (create_scc_netcdf pf output_path location fs) as [[r|e] fs'];
    [|done].
  destruct Hpartial as (nc & _ & -> & _). eauto.
Qed.

Lemma create_scc_netcdf_spec pf output_path location (fs fs' : filesystem) id path :
  create_scc_netcdf pf output_path location fs = (Ok (id, path), fs') ->
  exists nc, fs' !! path = Some nc
             /\ standard_post pf output_path location (id, path) nc.
Proof.
  intros Hrun.
  pose proof (create_scc_netcdf_partial pf output_path location fs) as Hp.
  rewrite Hrun in Hp. destruct Hp as (nc & -> & Hpost).
  exists nc. split; [|done].
  destruct Hpost as ([= _ ->] & _). apply lookup_insert_eq.
Qed.

Lemma view_ok_example (start_date end_date : datetime.t) (p bins : nat) :
  view_ok (examples.view start_date end_date (S p) bins 12).
Proof. by exists p, bins. Qed.

(** C2 (as amended).  A view that [view_ok] describes is converted, and in
    every record that [create_scc_netcdf] writes the [points] dimension is
    the raw signal's size along axis 1 and the [channels] dimension its
    size along axis 2: the raw signal is read as
    [[profiles; range bins; channels]]. *)
Theorem dimensions_follow_axes pf output_path location (fs : filesystem) :
  (view_ok pf ->
   exists r fs', create_scc_netcdf pf output_path location fs = (Ok r, fs'))
  /\ forall id path fs',
       create_scc_netcdf pf output_path location fs = (Ok (id, path), fs') ->
       file_dimension fs' path "points" = shape (raw_signal pf) !! 1%nat
       /\ file_dimension fs' path "channels" = shape (raw_signal pf) !! 2%nat.
Proof.
  split.
  - intros Hok.
    destruct (create_scc_netcdf_total pf output_path location fs Hok) as [fs' Hrun].
    eauto.
  - intros id path fs' Hrun.
    destruct (create_scc_netcdf_spec _ _ _ _ _ _ _ Hrun)
      as (nc & Hnc & _ & Hpoints & Hchannels & _).
    unfold file_dimension. rewrite Hnc. done.
Qed.

Lemma dimensions_follow_axes_witness :
  let pf := examples.view (datetime.mk_datetime 2021 1 1 4 0 30 0)
              (datetime.mk_datetime 2021 1 1 5 0 30 0) 3 5 12 in
  view_ok pf
  /\ exists fs',
       create_scc_netcdf pf "out" examples.site ∅
       = (Ok ("20210101aky0405", "out/20210101aky0405.nc"), fs')
       /\ file_dimension fs' "out/20210101aky0405.nc" "points" = Some 5%nat
       /\ file_dimension fs' "out/20210101aky0405.nc" "channels" = Some 12%nat.
Proof.
  intros pf. split; [apply view_ok_example|].
  destruct (create_scc_netcdf pf "out" examples.site ∅) as [r fs'] eqn:Hrun.
  assert (r = Ok ("20210101aky0405", "out/20210101aky0405.nc")) as ->
    by (apply (f_equal fst) in Hrun; vm_compute in Hrun; congruence).
  exists fs'. split; [done|].
  exact (proj2 (dimensions_follow_axes pf "out" examples.site ∅) _ _ _ Hrun).
Defined.

(** C2 as stated fails: for a raw signal of shape [[3; 5; 12]] the record
    has 5 points and 12 channels, not 12 points and 5 channels. *)
Lemma dimensions_claim_fails :
  let pf := examples.view (datetime.mk_datetime 2021 1 1 4 0 30 0)
              (datetime.mk_datetime 2021 1 1 5 0 30 0) 3 5 12 in
  shape (raw_signal pf) = [3; 5; 12]%nat
  /\ ~ dimensions_claim pf "out" examples.site ∅.
Proof.
  intros pf. split; [done|]. intros Hclaim.
  destruct (create_scc_netcdf_total pf "out" examples.site ∅) as [fs' Hrun];
    [apply view_ok_example|].
  destruct (Hclaim _ _ _ Hrun) as [Hpoints _].
  destruct (create_scc_netcdf_spec _ _ _ _ _ _ _ Hrun)
    as (nc & Hnc & _ & Hpoints' & _).
  unfold file_dimension in Hpoints. rewrite Hnc in Hpoints. simpl in Hpoints.
  rewrite Hpoints' in Hpoints. discriminate.
Qed.

(** C9.  Whatever the signal values, the [channel_ID] variable read back
    from a record that [create_scc_netcdf] has written is the table of
    twelve channel identifiers; a view that [view_ok] describes is
    converted. *)
Theorem channel_id_table pf output_path location (fs : filesystem) :
  (view_ok pf ->
   exists r fs', create_scc_netcdf pf output_path location fs = (Ok r, fs'))
  /\ forall id path fs',
       create_scc_netcdf pf output_path location fs = (Ok (id, path), fs') ->
       file_read fs' path "channel_ID"
       = Some [Some 493; Some 500; Some 497; Some 499; Some 494; Some 496;
               Some 498; Some 495; Some 501; Some 941; Some 940; Some 502]%Z.
Proof.
  split.
  - intros Hok.
    destruct (create_scc_netcdf_total pf output_path location fs Hok) as [fs' Hrun].
    eauto.
  - intros id path fs' Hrun.
    destruct (create_scc_netcdf_spec _ _ _ _ _ _ _ Hrun)
      as (nc & Hnc & _ & _ & _ & _ & _ & Hread & _).
    unfold file_read. rewrite Hnc. done.
Qed.

Lemma channel_id_table_witness :
  let pf := examples.view (datetime.mk_datetime 2021 1 1 4 0 30 0)
              (datetime.mk_datetime 2021 1 1 5 0 30 0) 3 5 12 in
  view_ok pf
  /\ exists fs',
       create_scc_netcdf pf "out" examples.site ∅
       = (Ok ("20210101aky0405", "out/20210101aky0405.nc"), fs')
       /\ file_read fs' "out/20210101aky0405.nc" "channel_ID"
          = Some [Some 493; Some 500; Some 497; Some 499; Some 494; Some 496;
                  Some 498; Some 495; Some 501; Some 941; Some 940; Some 502]%Z.
Proof.
  intros pf. split; [apply view_ok_example|].
  destruct (create_scc_netcdf pf "out" examples.site ∅) as [r fs'] eqn:Hrun.
  assert (r = Ok ("20210101aky0405", "out/20210101aky0405.nc")) as ->
    by (apply (f_equal fst) in Hrun; vm_compute in Hrun; congruence).
  exists fs'. split; [done|].
  exact (proj2 (channel_id_table pf "out" examples.site ∅) _ _ _ Hrun).
Defined.

End standard_record.

(** ** The calibration record *)

Module calibration_record.
Import np netCDF4 locations scc_netcdf nc_logic.

Definition output_filename (pf : PollyXTFile_t) (output_path : string)
    (location : Location) : string :=
  path_join output_path ("calibration_" +:+ calibration_id_of pf location +:+ ".nc").

Definition suffix (w : Wavelength) : string :=
  match w with NM_355 => "35" | NM_532 => "53" end.

Definition calibration_channel_ids (w : Wavelength) : list Z :=
  match w with
  | NM_355 => [1236; 1266; 1267; 1268]%Z
  | NM_532 => [1269; 1270; 1271; 1272]%Z
  end.

(** What holds of a record that [create_scc_calibration_netcdf] has
    written for a wavelength of the enumeration. *)
Definition calibration_post (pf : PollyXTFile_t) (output_path : string)
    (location : Location) (w : Wavelength) (r : string * string) (ds : Dataset) : Prop :=
  r = (calibration_id_of pf location, output_filename pf output_path location)
  /\ assoc "Measurement_ID" (ncattrs ds)
     = Some (AttrStr (calibration_id_of pf location +:+ suffix w))
  /\ read ds "channel_ID" = Some (Some <$> calibration_channel_ids w)
  /\ dimension_size ds "channels" = Some 4%nat
  /\ dimension_size ds "time" = Some 3%nat
  /\ dimension_size ds "points" = shape (raw_signal pf) !! 1%nat
  /\ isopen ds = false.

(** What is left when the wavelength is not of the enumeration: the file
    has been created and partly filled, it has no [Measurement_ID] and no
    channel identifiers, and it has not been closed. *)
Definition abandoned (pf : PollyXTFile_t) (repr : string) (e : exn) (ds : Dataset) : Prop :=
  e = ValueError ("Unknown wavelength " +:+ repr)
  /\ isopen ds = true
  /\ assoc "Measurement_ID" (ncattrs ds) = None
  /\ read ds "channel_ID" = Some [None; None; None; None]
  /\ read ds "id_timescale" = Some [Some 0; Some 0; Some 0; Some 0]%Z
  /\ dimension_size ds "points" = shape (raw_signal pf) !! 1%nat.

(** A view that the calibration builder can convert: fifteen profiles and
    six channels at least, with as many range bins in the swapped signal
    as in the raw one. *)
Definition calibration_view_ok (pf : PollyXTFile_t) : Prop :=
  exists profiles bins channels p c,
    shape (raw_signal pf) = [profiles; bins; channels]
    /\ shape (raw_signal_swap pf) = [15 + p; 6 + c; bins]%nat.

Lemma create_scc_calibration_netcdf_partial pf output_path location w lo hi
    (fs : filesystem) :
  match create_scc_calibration_netcdf pf output_path location (Member w) lo hi fs with
  | (Ok r, fs') =>
      exists nc, fs' = <[output_filename pf output_path location := nc]> fs
                 /\ calibration_post pf output_path location w r nc
  | (Raise e, fs') =>
      exists nc, fs' = <[output_filename pf output_path location := nc]> fs
                 /\ whatever e nc
  end.
Proof.
  unfold create_scc_calibration_netcdf. apply (wpx_with_dataset whatever).
  unfold netCDF4.empty.
  destruct w.
  all: repeat nc_partial_step.
  all: repeat match goal with
              | H : np.size _ _ = Ok _ |- _ => apply standard_record.size_Ok in H
              end.
  all: unfold calibration_post, dimension_size; simpl; repeat split; try done.
Qed.

Lemma create_scc_calibration_netcdf_total pf output_path location w lo hi
    (fs : filesystem) :
  calibration_view_ok pf ->
  exists fs',
    create_scc_calibration_netcdf pf output_path location (Member w) lo hi fs
    = (Ok (calibration_id_of pf location, output_filename pf output_path location), fs').
Proof.
  intros (profiles & bins & channels & p & c & Hraw & Hswap).
  pose proof (create_scc_calibration_netcdf_partial pf output_path location w lo hi fs)
    as Hpartial.
  assert (match create_scc_calibration_netcdf pf output_path location (Member w) lo hi fs with
          | (Ok r, fs') => True
          | (Raise e, fs') => False
          end) as Htotal.
  { unfold create_scc_calibration_netcdf.
    match goal with
    | |- match with_dataset ?f ?body ?fs with _ => _ end =>
        pose proof (wpx_with_dataset never body (fun _ _ => True) f fs) as Hw
    end.
    match type of Hw with
    | ?P -> _ => assert P as Hbody; [|specialize (Hw Hbody);
        destruct (with_dataset _ _ _) as [[r|e] fs']; [done|by destruct Hw as (? & _ & ?)]]
    end.
    assert (np.size (raw_signal pf) 1 = Ok bins) by (unfold np.size; by rewrite Hraw).
    destruct (raw_signal_swap pf) as [ssh sitem]; simpl in Hswap; subst ssh.
    unfold netCDF4.empty.
    destruct w.
    all: repeat nc_step. all: done. }
  destruct (create_scc_calibration_netcdf _ _ _ _ _ _ fs) as [[r|e] fs']; [|done].
  destruct Hpartial as (nc & _ & -> & _). eauto.
Qed.

Lemma create_scc_calibration_netcdf_other pf output_path location repr lo hi
    (fs : filesystem) (n : nat) :
  shape (raw_signal pf) !! 1%nat = Some n ->
  exists e nc,
    create_scc_calibration_netcdf pf output_path location (Other repr) lo hi fs
    = (Raise e, <[output_filename pf output_path location := nc]> fs)
    /\ abandoned pf repr e nc.
Proof.
  intros Hn.
  assert (match create_scc_calibration_netcdf pf output_path location (Other repr) lo hi fs with
          | (Ok r, fs') => False
          | (Raise e, fs') =>
              exists nc, fs' = <[output_filename pf output_path location := nc]> fs
                         /\ abandoned pf repr e nc
          end) as Hrun.
  { unfold create_scc_calibration_netcdf.
    match goal with
    | |- match with_dataset ?f ?body ?fs with _ => _ end =>
        pose proof (wpx_with_dataset (abandoned pf repr) body (fun _ _ => False) f fs) as Hw
    end.
    match type of Hw with
    | ?P -> _ => assert P as Hbody; [|specialize (Hw Hbody);
        destruct (with_dataset _ _ _) as [[r|e] fs']; [by destruct Hw as (? & _ & ?)|done]]
    end.
    assert (np.size (raw_signal pf) 1 = Ok n) by (unfold np.size; by rewrite Hn).
    unfold netCDF4.empty.
    repeat nc_step.
    unfold abandoned, dimension_size; simpl. repeat split; done. }
  destruct (create_scc_calibration_netcdf _ _ _ _ _ _ fs) as [[r|e] fs']; [done|].
  destruct Hrun as (nc & -> & Hab). eauto.
Qed.

Lemma create_scc_calibration_netcdf_spec pf output_path location w lo hi
    (fs fs' : filesystem) id path :
  create_scc_calibration_netcdf pf output_path location (Member w) lo hi fs
  = (Ok (id, path), fs') ->
  exists nc, fs' !! path = Some nc
             /\ calibration_post pf output_path location w (id, path) nc.
Proof.
  intros Hrun.
  pose proof (create_scc_calibration_netcdf_partial pf output_path location w lo hi fs)
    as Hp.
  rewrite Hrun in Hp. destruct Hp as (nc & -> & Hpost).
  exists nc. split; [|done].
  destruct Hpost as ([= _ ->] & _). apply lookup_insert_eq.
Qed.

Lemma calibration_view_ok_example (start_date end_date : datetime.t) (p bins c : nat) :
  calibration_view_ok (examples.view start_date end_date (15 + p) bins (6 + c)).
Proof. by exists (15 + p)%nat, bins, (6 + c)%nat, p, c. Qed.

Lemma other_leaves_file pf output_path location repr lo hi (fs : filesystem) (n : nat) :
  shape (raw_signal pf) !! 1%nat = Some n ->
  exists e nc fs',
    create_scc_calibration_netcdf pf output_path location (Other repr) lo hi fs
    = (Raise e, fs')
    /\ fs' !! output_filename pf output_path location = Some nc.
Proof.
  intros Hn.
  destruct (create_scc_calibration_netcdf_other pf output_path location repr lo hi fs n Hn)
    as (e & nc & Hrun & _).
  exists e, nc. eexists. split; [exact Hrun|]. apply lookup_insert_eq.
Qed.

(** The error path as the specification wants it: an error, and no file
    left where there was none. *)
Definition cleanup_claim (pf : PollyXTFile_t) (output_path : string)
    (location : Location) (repr : string) (lo hi : Z) (fs : filesystem) : Prop :=
  fs !! output_filename pf output_path location = None ->
  exists e fs',
    create_scc_calibration_netcdf pf output_path location (Other repr) lo hi fs
    = (Raise e, fs')
    /\ fs' !! output_filename pf output_path location = None.

(** C7 (as amended).  For a wavelength that is not a member of the
    enumeration, and a raw signal with at least two axes, the calibration
    builder raises [ValueError]; by then the output file has been created
    and partly filled (dimensions, dates and constant tables, but no
    [Measurement_ID] and no channel identifiers), and it is left in place,
    not closed. *)
Theorem unknown_wavelength_leaves_file pf output_path location repr lo hi
    (fs : filesystem) (n : nat) :
  shape (raw_signal pf) !! 1%nat = Some n ->
  exists fs',
    create_scc_calibration_netcdf pf output_path location (Other repr) lo hi fs
    = (Raise (ValueError ("Unknown wavelength " +:+ repr)), fs')
    /\ file_isopen fs' (output_filename pf output_path location) = Some true
    /\ file_dimension fs' (output_filename pf output_path location) "points" = Some n
    /\ file_attr fs' (output_filename pf output_path location) "Measurement_ID" = None
    /\ file_read fs' (output_filename pf output_path location) "channel_ID"
       = Some [None; None; None; None]
    /\ file_read fs' (output_filename pf output_path location) "id_timescale"
       = Some [Some 0; Some 0; Some 0; Some 0]%Z.
Proof.
  intros Hn.
  destruct (create_scc_calibration_netcdf_other pf output_path location repr lo hi fs n Hn)
    as (e & nc & Hrun & -> & Hopen & Hid & Hch & Hts & Hpoints).
  eexists. split; [exact Hrun|].
  unfold file_isopen, file_dimension, file_attr, file_read.
  rewrite lookup_insert_eq. simpl. rewrite Hopen, Hpoints, Hn. done.
Qed.

Lemma unknown_wavelength_leaves_file_witness :
  let pf := examples.view (datetime.mk_datetime 2021 1 1 2 31 0 0)
              (datetime.mk_datetime 2021 1 1 2 41 0 0) 20 5 12 in
  shape (raw_signal pf) !! 1%nat = Some 5%nat
  /\ exists fs',
       create_scc_calibration_netcdf pf "out" examples.site (Other "1064") 1200 2500 ∅
       = (Raise (ValueError "Unknown wavelength 1064"), fs')
       /\ file_isopen fs' (output_filename pf "out" examples.site) = Some true.
Proof.
  intros pf. split; [reflexivity|].
  destruct (unknown_wavelength_leaves_file pf "out" examples.site "1064" 1200 2500 ∅ 5
              eq_refl) as (fs' & Hrun & Hopen & _).
  exists fs'. split; [exact Hrun|exact Hopen].
Defined.

(** C7 as stated fails: after the error the file is on disk, and open. *)
Lemma cleanup_claim_fails :
  let pf := examples.view (datetime.mk_datetime 2021 1 1 2 31 0 0)
              (datetime.mk_datetime 2021 1 1 2 41 0 0) 20 5 12 in
  output_filename pf "out" examples.site = "out/calibration_20210101aky02.nc"
  /\ ~ cleanup_claim pf "out" examples.site "1064" 1200 2500 ∅.
Proof.
  intros pf. split; [vm_compute; reflexivity|].
  intros Hclaim. destruct (Hclaim (lookup_empty _)) as (e & fs' & Hrun & Hnone).
  destruct (other_leaves_file pf "out" examples.site "1064" 1200 2500 ∅ 5 eq_refl)
    as (e' & nc & fs'' & Hrun' & Hsome).
  rewrite Hrun in Hrun'. apply (f_equal snd) in Hrun'. cbn [snd] in Hrun'.
  rewrite <- Hrun', Hnone in Hsome. discriminate.
Qed.

End calibration_record.

(** ** Identifiers *)

Module identifiers.
Import datetime datetime_facts np netCDF4 locations scc_netcdf.
Local Open Scope Z_scope.

Fixpoint percent_free (s : string) : bool :=
  match s with
  | EmptyString => true
  | String c s' => negb (Ascii.eqb c "%") && percent_free s'
  end.

(** What the identifier of a standard record is made from. *)
Definition id_key (pf : PollyXTFile_t) (location : Location)
  : Z * Z * Z * Z * Z * string :=
  (year (start_date pf), month (start_date pf), day (start_date pf),
   hour (start_date pf), hour (end_date pf), scc_code location).

(** The identifiers as the specification puts it: distinct triples of
    start, end and site give distinct identifiers. *)
Definition identifier_claim : Prop :=
  forall pf pf' output_path location location' (fs : filesystem) id id' path path' fs1 fs1',
    create_scc_netcdf pf output_path location fs = (Ok (id, path), fs1) ->
    create_scc_netcdf pf' output_path location' fs = (Ok (id', path'), fs1') ->
    (start_date pf, end_date pf, scc_code location)
    <> (start_date pf', end_date pf', scc_code location') ->
    id <> id'.

(** The identifier that the calibration builder returns, as the
    specification puts it: with the suffix of the wavelength. *)
Definition calibration_identifier_claim (pf : PollyXTFile_t) (output_path : string)
    (location : Location) (w : Wavelength) (lo hi : Z) (fs : filesystem) : Prop :=
  forall id path fs',
    create_scc_calibration_netcdf pf output_path location (Member w) lo hi fs
    = (Ok (id, path), fs') ->
    id = calibration_id_of pf location +:+ calibration_record.suffix w
    /\ path = path_join output_path
                ("calibration_" +:+ calibration_id_of pf location +:+ ".nc").

(** *** The calendar *)

Lemma ord2ymd_bounds (n : Z) :
  1 <= n <= MAXORDINAL ->
  let '(y, m, d) := ord2ymd n in
  1 <= y <= 9999 /\ 1 <= m <= 12 /\ 1 <= d <= 31.
Proof.
  intros Hn. unfold ord2ymd, MAXORDINAL, DI400Y, DI100Y, DI4Y in *.
  set (n400 := (n - 1) / 146097).
  set (r1 := (n - 1) mod 146097).
  set (n100 := r1 / 36524).
  set (r2 := r1 mod 36524).
  set (n4 := r2 / 1461).
  set (r3 := r2 mod 1461).
  set (n1 := r3 / 365).
  set (r4 := r3 mod 365).
  assert (0 <= n400 <= 24 /\ 0 <= r1 < 146097 /\ n - 1 = 146097 * n400 + r1)
    as (H400 & Hr1 & E1) by (unfold n400, r1; Z.div_mod_to_equations; lia).
  assert (0 <= n100 <= 4 /\ 0 <= r2 < 36524 /\ r1 = 36524 * n100 + r2)
    as (H100 & Hr2 & E2) by (unfold n100, r2; Z.div_mod_to_equations; lia).
  assert (0 <= n4 <= 24 /\ 0 <= r3 < 1461 /\ r2 = 1461 * n4 + r3)
    as (H4 & Hr3 & E3) by (unfold n4, r3; Z.div_mod_to_equations; lia).
  assert (0 <= n1 <= 4 /\ 0 <= r4 < 365 /\ r3 = 365 * n1 + r4)
    as (H1 & Hr4 & E4) by (unfold n1, r4; Z.div_mod_to_equations; lia).
  clearbody n400 r1 n100 r2 n4 r3 n1 r4.
  destruct ((n1 =? 4) || (n100 =? 4)) eqn:Hlast.
  - apply orb_true_iff in Hlast. rewrite !Z.eqb_eq in Hlast. lia.
  - apply orb_false_iff in Hlast. rewrite !Z.eqb_neq in Hlast.
    rewrite Z.shiftr_div_pow2 by lia. change (2 ^ 5) with 32.
    set (month := (r4 + 50) / 32).
    assert (1 <= month <= 12 /\ 32 * month <= r4 + 50 < 32 * month + 32)
      as (Hm & Hmr) by (unfold month; Z.div_mod_to_equations; lia).
    clearbody month.
    generalize ((n1 =? 3) && (negb (n4 =? 24) || (n100 =? 3))). intros leap.
    assert (month = 1 \/ month = 2 \/ month = 3 \/ month = 4 \/ month = 5
            \/ month = 6 \/ month = 7 \/ month = 8 \/ month = 9 \/ month = 10
            \/ month = 11 \/ month = 12) as Hcases by lia.
    repeat (destruct Hcases as [->|Hcases]); try subst month;
      destruct leap; simpl;
      repeat match goal with
             | |- context [if ?c then _ else _] => destruct c eqn:?
             end;
      rewrite ?Z.ltb_lt, ?Z.ltb_ge in *; lia.
Qed.

Lemma date_bounds (d : t) :
  valid d ->
  1 <= year d <= 9999 /\ 1 <= month d <= 12 /\ 1 <= day d <= 31.
Proof.
  intros (Ho & _). pose proof (ord2ymd_bounds (ordinal d) Ho) as H.
  unfold year, month, day. by destruct (ord2ymd (ordinal d)) as [[y m] dd].
Qed.

(** *** Digits and padding *)

Lemma digit_cases (n : Z) :
  exists k, (k < 10)%nat /\ n mod 10 = Z.of_nat k /\ digit n = ascii_of_nat (48 + k).
Proof.
  exists (Z.to_nat (n mod 10)). unfold digit.
  pose proof (Z.mod_pos_bound n 10 eq_refl) as Hb.
  repeat split; [lia|lia].
Qed.

Lemma digit_inj (a b : Z) : digit a = digit b -> a mod 10 = b mod 10.
Proof.
  destruct (digit_cases a) as (k & Hk & -> & ->).
  destruct (digit_cases b) as (k' & Hk' & -> & ->).
  intros H. apply (f_equal nat_of_ascii) in H.
  rewrite !nat_ascii_embedding in H by lia. lia.
Qed.

Lemma digit_not_percent (n : Z) : Ascii.eqb (digit n) "%" = false.
Proof.
  destruct (digit_cases n) as (k & Hk & _ & ->).
  do 10 (destruct k as [|k]; [reflexivity|]). lia.
Qed.

Lemma pad2_inj (a b : Z) : 0 <= a < 100 -> 0 <= b < 100 -> pad2 a = pad2 b -> a = b.
Proof.
  intros Ha Hb [= H1%digit_inj H0%digit_inj]. Z.div_mod_to_equations. lia.
Qed.

Lemma pad4_inj (a b : Z) :
  0 <= a < 10000 -> 0 <= b < 10000 -> pad4 a = pad4 b -> a = b.
Proof.
  intros Ha Hb [= H3%digit_inj H2%digit_inj H1%digit_inj H0%digit_inj].
  Z.div_mod_to_equations. lia.
Qed.

Lemma pad2_percent_free (n : Z) : percent_free (pad2 n) = true.
Proof. unfold pad2; cbn [percent_free]. by rewrite !digit_not_percent. Qed.

(** *** Strings *)

Lemma append_nil (u : string) : EmptyString +:+ u = u.
Proof. reflexivity. Qed.

Lemma append_cons (c : ascii) (s u : string) :
  String c s +:+ u = String c (s +:+ u).
Proof. reflexivity. Qed.

Lemma append_length (s u : string) :
  String.length (s +:+ u) = (String.length s + String.length u)%nat.
Proof.
  induction s as [|c s IH]; [done|].
  rewrite append_cons. simpl. by rewrite IH.
Qed.

Lemma append_inj_suffix (s s' u u' : string) :
  String.length u = String.length u' -> s +:+ u = s' +:+ u' -> s = s' /\ u = u'.
Proof.
  intros Hlen. revert s'. induction s as [|c s IH]; intros [|c' s'];
    rewrite ?append_nil, ?append_cons.
  - done.
  - intros ->. simpl in Hlen. rewrite append_length in Hlen. lia.
  - intros <-. simpl in Hlen. rewrite append_length in Hlen. lia.
  - intros [= -> H]. destruct (IH _ H) as [-> ->]. done.
Qed.

(** *** [strftime] on the formats of the builders *)

Lemma strftime_literal (d : t) (s rest : string) :
  percent_free s = true -> strftime d (s +:+ rest) = s +:+ strftime d rest.
Proof.
  induction s as [|c s IH]; [done|]. rewrite append_cons. simpl.
  intros [Hc Hs]%andb_true_iff. apply negb_true_iff in Hc. rewrite Hc.
  by rewrite IH.
Qed.

Lemma strftime_percent_free (d : t) (s : string) :
  percent_free s = true -> strftime d s = s.
Proof.
  induction s as [|c s IH]; simpl; [done|].
  intros [Hc Hs]%andb_true_iff. apply negb_true_iff in Hc. rewrite Hc.
  by rewrite IH.
Qed.

Lemma strftime_date (d : t) (rest : string) :
  strftime d ("%Y%m%d" +:+ rest)
  = pad4 (year d) +:+ pad2 (month d) +:+ pad2 (day d) +:+ strftime d rest.
Proof. reflexivity. Qed.

Lemma strftime_hour (d : t) (rest : string) :
  strftime d ("%H" +:+ rest) = pad2 (hour d) +:+ strftime d rest.
Proof. reflexivity. Qed.

Lemma measurement_id_format (pf : PollyXTFile_t) (location : Location) :
  percent_free (scc_code location) = true ->
  measurement_id_of pf location
  = pad4 (year (start_date pf)) +:+ pad2 (month (start_date pf))
    +:+ pad2 (day (start_date pf)) +:+ scc_code location
    +:+ pad2 (hour (start_date pf)) +:+ pad2 (hour (end_date pf)).
Proof.
  intros Hcode. unfold measurement_id_of.
  rewrite strftime_date, (strftime_literal _ _ _ Hcode), strftime_hour.
  change (strftime (end_date pf) "%H") with (pad2 (hour (end_date pf))).
  by rewrite (strftime_percent_free _ _ (pad2_percent_free _)).
Qed.

Lemma calibration_id_format (pf : PollyXTFile_t) (location : Location) :
  percent_free (scc_code location) = true ->
  calibration_id_of pf location
  = pad4 (year (start_date pf)) +:+ pad2 (month (start_date pf))
    +:+ pad2 (day (start_date pf)) +:+ scc_code location
    +:+ pad2 (hour (start_date pf)).
Proof.
  intros Hcode. unfold calibration_id_of.
  rewrite strftime_date, (strftime_literal _ _ _ Hcode).
  reflexivity.
Qed.

Lemma measurement_id_inj (pf pf' : PollyXTFile_t) (location location' : Location) :
  valid (start_date pf) -> valid (end_date pf) ->
  valid (start_date pf') -> valid (end_date pf') ->
  percent_free (scc_code location) = true ->
  percent_free (scc_code location') = true ->
  measurement_id_of pf location = measurement_id_of pf' location' <->
  id_key pf location = id_key pf' location'.
Proof.
  intros Hs He Hs' He' Hc Hc'.
  rewrite !measurement_id_format by done. unfold id_key. split.
  - intros H.
    destruct (date_bounds _ Hs) as (Hy & Hm & Hd).
    destruct (date_bounds _ Hs') as (Hy' & Hm' & Hd').
    destruct Hs as (_ & Hh & _), He as (_ & Hh1 & _).
    destruct Hs' as (_ & Hh' & _), He' as (_ & Hh1' & _).
    assert (pad4 (year (start_date pf)) = pad4 (year (start_date pf'))
            /\ pad2 (month (start_date pf)) = pad2 (month (start_date pf'))
            /\ pad2 (day (start_date pf)) = pad2 (day (start_date pf'))
            /\ scc_code location +:+ pad2 (hour (start_date pf))
               +:+ pad2 (hour (end_date pf))
               = scc_code location' +:+ pad2 (hour (start_date pf'))
                 +:+ pad2 (hour (end_date pf'))) as (Ey & Em & Ed & Erest).
    { unfold pad4, pad2 in *. rewrite !append_cons, !append_nil in H.
      rewrite !append_cons, !append_nil.
      injection H as ? ? ? ? ? ? ? ? ?. repeat split; congruence. }
    apply append_inj_suffix in Erest as [Ecode Ehours]; [|reflexivity].
    assert (pad2 (hour (start_date pf)) = pad2 (hour (start_date pf'))
            /\ pad2 (hour (end_date pf)) = pad2 (hour (end_date pf'))) as [Eh Eh1].
    { unfold pad2 in *. rewrite !append_cons, !append_nil in Ehours.
      injection Ehours as ? ? ? ?. split; congruence. }
    apply pad4_inj in Ey; [|lia..]. apply pad2_inj in Em, Ed, Eh, Eh1; [|lia..].
    congruence.
  - by intros [= -> -> -> -> -> ->].
Qed.







End identifiers.

(** ** The generator [convert_pollyxt_file] *)

Module driver.
Import datetime datetime_facts np netCDF4 locations scc_netcdf.
Local Open Scope Z_scope.

(** No element of the list is earlier than the one before it. *)
Fixpoint chronological (l : list t) : Prop :=
  match l with
  | a :: l' =>
      match l' with
      | b :: _ => ltb b a = false
      | [] => True
      end /\ chronological l'
  | [] => True
  end.

Section convert.

Variable get_measurement_period : string -> result (t * t).
Variable PollyXTFile : string -> t -> t -> result PollyXTFile_t.
Variables (input_path output_path : string) (location : Location).
Variables (interval : timedelta) (should_round calibration : bool).

(** An element that [create_scc_netcdf] built from the view of a window
    starting at [y_start]. *)
Definition built_standard (y : yielded) : Prop :=
  exists pf end_ (fs0 fs1 : filesystem),
    y_by y = StandardRecord pf
    /\ PollyXTFile input_path (y_start y) end_ = Ok pf
    /\ create_scc_netcdf pf output_path location fs0 = (Ok (y_id y, y_path y), fs1).

(** An element that [create_scc_calibration_netcdf] built for 532 nm. *)
Definition built_calibration (y : yielded) : Prop :=
  exists pf end_ (fs0 fs1 : filesystem),
    y_by y = CalibrationRecord pf (Member NM_532)
    /\ PollyXTFile input_path (y_start y) end_ = Ok pf
    /\ create_scc_calibration_netcdf pf output_path location (Member NM_532) 1200 2500 fs0
       = (Ok (y_id y, y_path y), fs1).

(** The element [y] is for the period [period] of the day of
    [measurement_start], and the period lies inside the measurement. *)
Definition for_period (measurement_start measurement_end : t)
    (y : yielded) (period : string) : Prop :=
  exists end_,
    calibration_to_datetime measurement_start period = Ok (y_start y, end_)
    /\ gtb (y_start y) measurement_start = true
    /\ ltb end_ measurement_end = true.

Abbreviation loop := (interval_loop interval should_round
                    (convert_interval PollyXTFile input_path output_path location)).
Abbreviation windows := (planner.windows_from interval should_round).
Abbreviation cal_loop := (calibration_loop PollyXTFile input_path output_path location).

Lemma loop_S (fuel : nat) (measurement_end cursor : t) (fs : filesystem) :
  loop (S fuel) measurement_end cursor fs =
  if ltb cursor measurement_end then
    let start := if should_round then round_down cursor else cursor in
    match add start interval with
    | Raise e => ([], Raised e, fs)
    | Ok end_ =>
        match convert_interval PollyXTFile input_path output_path location
                start end_ fs with
        | (Raise e, fs') => ([], Raised e, fs')
        | (Ok y, fs') =>
            let '(ys, st, fs'') := loop fuel measurement_end end_ fs' in
            (y :: ys, st, fs'')
        end
    end
  else ([], Exhausted, fs).
Proof. reflexivity. Qed.

Lemma convert_interval_Ok (start end_ : t) (fs fs' : filesystem) (y : yielded) :
  convert_interval PollyXTFile input_path output_path location start end_ fs
  = (Ok y, fs') ->
  y_start y = start /\ built_standard y.
Proof.
  unfold convert_interval.
  destruct (PollyXTFile input_path start end_) as [pf|e] eqn:Hpf; [|done].
  destruct (create_scc_netcdf pf output_path location fs) as [[[id path]|e] fs1] eqn:Hrun;
    [|done].
  intros [= <- <-]. split; [done|]. by exists pf, end_, fs, fs1.
Qed.

(** The loop of the generator visits the windows of the planner, each
    built by [create_scc_netcdf], until it stops. *)
Lemma loop_spec (fuel : nat) (measurement_end cursor : t) (fs : filesystem) :
  let '(ys, st, fs') := loop fuel measurement_end cursor fs in
  Forall built_standard ys
  /\ (y_start <$> ys) `prefix_of` ((windows measurement_end fuel cursor).1.*1).
Proof.
  revert cursor fs. induction fuel as [|fuel IH]; intros cursor fs.
  { simpl. split; [constructor|]. by exists []. }
  rewrite loop_S, planner.windows_from_S.
  destruct (ltb cursor measurement_end); [|split; [constructor|by exists []]].
  cbv zeta.
  destruct (add _ interval) as [end_|e]; [|split; [constructor|by exists []]].
  destruct (convert_interval _ _ _ _ _ end_ fs) as [[y|e] fs1] eqn:Hy.
  - apply convert_interval_Ok in Hy as [Hstart Hbuilt].
    specialize (IH end_ fs1).
    destruct (loop fuel measurement_end end_ fs1) as [[ys st] fs2].
    destruct IH as [Hall Hpre]. split; [by constructor|].
    simpl. rewrite Hstart. by apply prefix_cons.
  - split; [constructor|]. simpl. apply prefix_nil.
Qed.

(** With an interval that is not negative, the starts of the windows do
    not go back. *)
Lemma round_down_hours (d : t) :
  to_us (round_down d) = (ordinal d * 24 + hour d) * US_PER_HOUR.
Proof. unfold round_down, to_us, US_PER_HOUR, US_PER_SECOND; simpl. lia. Qed.

Lemma next_start_not_earlier (cursor end_ : t) :
  valid cursor -> 0 <= interval ->
  add (if should_round then round_down cursor else cursor) interval = Ok end_ ->
  valid end_
  /\ to_us (if should_round then round_down cursor else cursor)
     <= to_us (if should_round then round_down end_ else end_).
Proof.
  intros Hc Hpos [Hv Hus]%add_Ok. split; [done|].
  destruct should_round; [|lia].
  pose proof (round_down_to_us end_ Hv) as Hend.
  rewrite !round_down_hours in *. unfold US_PER_HOUR, US_PER_SECOND in *. lia.
Qed.

Lemma windows_chronological (fuel : nat) (measurement_end cursor : t) :
  valid cursor -> 0 <= interval ->
  chronological ((windows measurement_end fuel cursor).1.*1)
  /\ match (windows measurement_end fuel cursor).1 with
     | w :: _ => w.1 = (if should_round then round_down cursor else cursor)
     | [] => True
     end.
Proof.
  intros Hc Hpos. revert cursor Hc. induction fuel as [|fuel IH]; intros cursor Hc.
  { done. }
  rewrite planner.windows_from_S.
  destruct (ltb cursor measurement_end); [|done]. cbv zeta.
  destruct (add _ interval) as [end_|e] eqn:Hadd; [|done].
  destruct (next_start_not_earlier _ _ Hc Hpos Hadd) as [Hv Hle].
  destruct (IH end_ Hv) as [Hchron Hhead]. simpl. split; [|done].
  split; [|done].
  destruct (windows measurement_end fuel end_).1 as [|w ws]; [done|].
  simpl. rewrite Hhead.
  apply ltb_ge; [destruct should_round; auto using round_down_valid..|done].
Qed.

Lemma chronological_prefix (l k : list t) :
  l `prefix_of` k -> chronological k -> chronological l.
Proof.
  intros [m ->]. induction l as [|a l IH]; [done|].
  simpl. intros [Hab Hrest]. split; [|by apply IH].
  destruct l as [|b l]; [done|]. done.
Qed.

(** The calibration loop builds records for 532 nm, for periods taken in
    the order of [CALIBRATION_PERIODS] that lie inside the measurement;
    if it is not interrupted it builds one for each such period. *)
Lemma calibration_loop_spec (measurement_start measurement_end : t)
    (periods : list string) (fs : filesystem) :
  let '(ys, st, fs') := cal_loop measurement_start measurement_end periods fs in
  Forall built_calibration ys
  /\ exists ps,
       sublist ps periods
       /\ Forall2 (for_period measurement_start measurement_end) ys ps
       /\ (st = Exhausted ->
           forall p start end_,
             p ∈ periods ->
             calibration_to_datetime measurement_start p = Ok (start, end_) ->
             gtb start measurement_start = true ->
             ltb end_ measurement_end = true ->
             p ∈ ps).
Proof.
  revert fs. induction periods as [|period periods IH]; intros fs; simpl.
  { split; [constructor|]. exists []. repeat split; [constructor|constructor|].
    intros _ p ? ? Hp. by apply elem_of_nil in Hp. }
  destruct (calibration_to_datetime measurement_start period) as [[start end_]|e] eqn:Hp.
  2:{ split; [constructor|]. exists []. repeat split; [apply sublist_nil_l|constructor|done]. }
  destruct (gtb start measurement_start && ltb end_ measurement_end) eqn:Hin.
  - apply andb_true_iff in Hin as [Hgt Hlt].
    destruct (PollyXTFile input_path start end_) as [pf|e] eqn:Hpf.
    2:{ split; [constructor|]. exists [].
        repeat split; [apply sublist_nil_l|constructor|done]. }
    destruct (create_scc_calibration_netcdf pf output_path location (Member NM_532)
                1200 2500 fs) as [[[id path]|e] fs1] eqn:Hrun.
    2:{ split; [constructor|]. exists [].
        repeat split; [apply sublist_nil_l|constructor|done]. }
    specialize (IH fs1).
    destruct (cal_loop measurement_start measurement_end periods fs1) as [[ys st] fs2].
    destruct IH as (Hall & ps & Hsub & Hfor & Hall_in).
    split.
    + constructor; [|done]. by exists pf, end_, fs, fs1.
    + exists (period :: ps). split; [by apply sublist_skip|].
      split; [constructor; [by exists end_|done]|].
      intros Hst p s e [->|Hp']%elem_of_cons Hpd Hgt' Hlt'; [by left|].
      right. by eapply Hall_in.
  - specialize (IH fs).
    destruct (cal_loop measurement_start measurement_end periods fs) as [[ys st] fs2].
    destruct IH as (Hall & ps & Hsub & Hfor & Hall_in).
    split; [done|]. exists ps. split; [by apply sublist_cons|]. split; [done|].
    intros Hst p s e [->|Hp']%elem_of_cons Hpd Hgt' Hlt'.
    + rewrite Hp in Hpd. injection Hpd as <- <-. by rewrite Hgt', Hlt' in Hin.
    + by eapply Hall_in.
Qed.


End convert.


End driver.

(** ** Parsing a row of the measurement table *)

Module table_row.
Import locations scc_access.

(** The cells that [from_table_row] looks up, by tag name and class. *)
Definition consulted_cells : list (string * string) :=
  [ ("td", "field-id"); ("th", "field-station_id"); ("td", "field-start");
    ("td", "field-stop"); ("td", "field-creation_date"); ("td", "field-updated_date");
    ("td", "field-upload_ok"); ("td", "field-hirelpp_ok"); ("td", "field-cloudmask_ok");
    ("td", "field-elpp_ok"); ("td", "field-eldec_ok"); ("td", "field-elic_ok");
    ("td", "field-elquick_ok"); ("td", "field-is_being_processed") ].

Definition same_cells (tr tr' : node) : Prop :=
  Forall (fun c => find c.1 (Some c.2) tr = find c.1 (Some c.2) tr') consulted_cells.

Section parsing.

Variable strptime : string -> string -> result datetime.t.
Variable get_location_by_scc_code : string -> result Location.

Abbreviation parse := (from_table_row strptime get_location_by_scc_code).

Lemma from_table_row_flags (tr : node) (m : Measurement) :
  parse tr = Ok m ->
  scc_bool (find "td" (Some "field-eldec_ok") tr) = Ok (has_elda m)
  /\ scc_bool (find "td" (Some "field-eldec_ok") tr) = Ok (has_eldec m).
Proof.
  unfold from_table_row. intros H.
  repeat match type of H with
         | mbind _ ?x = _ =>
             let E := fresh "E" in
             destruct x eqn:E; cbn [mbind result_bind] in H; [|discriminate]
         end.
  injection H as <-. simpl. done.
Qed.

Lemma from_table_row_same_cells (tr tr' : node) :
  same_cells tr tr' -> parse tr = parse tr'.
Proof.
  unfold same_cells, consulted_cells. rewrite !Forall_cons. simpl.
  intros (H1 & H2 & H3 & H4 & H5 & H6 & H7 & H8 & H9 & H10 & H11 & H12 & H13 & H14 & _).
  unfold from_table_row.
  by rewrite H1, H2, H3, H4, H5, H6, H7, H8, H9, H10, H11, H12, H13, H14.
Qed.

(** C10.  In every [Measurement] that [from_table_row] returns, [has_elda]
    equals [has_eldec]: both are the flag of the row's [field-eldec_ok]
    cell.  The [field-elda_ok] cell is not among the cells looked up, and
    two rows that agree on the cells looked up are parsed alike. *)
Theorem has_elda_is_has_eldec (tr : node) (m : Measurement) :
  parse tr = Ok m ->
  has_elda m = has_eldec m
  /\ scc_bool (find "td" (Some "field-eldec_ok") tr) = Ok (has_elda m)
  /\ (("td", "field-elda_ok") ∉ consulted_cells)
  /\ forall tr', same_cells tr tr' -> parse tr' = Ok m.
Proof.
  intros Hparse. destruct (from_table_row_flags tr m Hparse) as [Helda Heldec].
  split; [congruence|]. split; [done|]. split.
  - unfold consulted_cells. rewrite !not_elem_of_cons.
    repeat split; try discriminate. apply not_elem_of_nil.
  - intros tr' Hsame. by rewrite <- (from_table_row_same_cells tr tr' Hsame).
Qed.

End parsing.

(** A row whose ELDA cell shows [True] and whose ELDEC cell shows [False]
    is parsed with both flags false, as is the row with both cells
    showing [False]. *)
Lemma has_elda_is_has_eldec_witness :
  exists m,
    from_table_row examples.strptime_fixed examples.location_of
      (examples.table_row "True" "False") = Ok m
    /\ has_elda m = false /\ has_eldec m = false
    /\ from_table_row examples.strptime_fixed examples.location_of
         (examples.table_row "False" "False") = Ok m.
Proof.
  destruct (from_table_row examples.strptime_fixed examples.location_of
              (examples.table_row "True" "False")) as [m|e] eqn:Hparse;
    [|vm_compute in Hparse; discriminate].
  exists m. split; [reflexivity|].
  destruct (has_elda_is_has_eldec examples.strptime_fixed examples.location_of
              _ m Hparse) as (Heq & Hflag & _ & Hsame).
  assert (scc_bool (find "td" (Some "field-eldec_ok") (examples.table_row "True" "False"))
          = Ok false) as Hcell by (vm_compute; reflexivity).
  assert (has_elda m = false) as Helda by congruence.
  split; [exact Helda|]. split; [congruence|].
  apply Hsame. unfold same_cells, consulted_cells.
  repeat (constructor; [vm_compute; reflexivity|]). constructor.
Defined.

End table_row.

(** ** More on the interval loop *)

Module windows_facts.
Import datetime datetime_facts scc_netcdf planner.
Local Open Scope Z_scope.

Lemma start_not_later (should_round : bool) (cursor : t) :
  valid cursor ->
  valid (if should_round then round_down cursor else cursor)
  /\ to_us (if should_round then round_down cursor else cursor) <= to_us cursor.
Proof.
  intros Hc. destruct should_round; [|split; [done|lia]].
  pose proof (round_down_to_us cursor Hc). split; [by apply round_down_valid|lia].
Qed.

Lemma windows_from_cover (interval : timedelta) (should_round : bool)
    (measurement_end : t) (fuel : nat) (cursor : t) (ws : list window) (d : t) :
  valid cursor -> valid measurement_end ->
  windows_from interval should_round measurement_end fuel cursor = (ws, Exhausted) ->
  to_us cursor <= to_us d < to_us measurement_end ->
  exists w, w ∈ ws /\ valid w.1 /\ valid w.2 /\ add w.1 interval = Ok w.2
            /\ to_us w.1 <= to_us d < to_us w.2.
Proof.
  intros Hc He. revert cursor ws Hc.
  induction fuel as [|fuel IH]; intros cursor ws Hc; [done|].
  rewrite windows_from_S. intros Hrun Hin.
  rewrite (proj2 (ltb_lt _ _ Hc He)) in Hrun by lia. cbv zeta in Hrun.
  destruct (add _ interval) as [end_|e] eqn:Hadd; [|done].
  pose proof (add_Ok _ _ _ Hadd) as [Hv Hus].
  destruct (windows_from interval should_round measurement_end fuel end_)
    as [rest st] eqn:Hrest.
  cbn [fst snd] in Hrun. injection Hrun as <- ->.
  destruct (start_not_later should_round cursor Hc) as [Hsv Hstart].
  destruct (Z.lt_ge_cases (to_us d) (to_us end_)) as [Hlt|Hge].
  - eexists. split; [by left|]. cbn [fst snd]. do 3 (split; [done|]). lia.
  - destruct (IH end_ rest Hv Hrest) as (w & Hw & Hcov); [lia|].
    exists w. split; [by right|done].
Qed.

(** X1.  When the interval loop runs to its end, its windows cover the
    measurement: every instant from [measurement_start] on and before
    [measurement_end] lies in a window [[start, end)] of the loop, whether
    hours are rounded down or not and whatever the interval. *)
Theorem windows_cover_measurement (interval : timedelta) (should_round : bool)
    (fuel : nat) (measurement_start measurement_end : t) (ws : list window) (d : t) :
  valid measurement_start -> valid measurement_end -> valid d ->
  interval_windows interval should_round fuel measurement_start measurement_end
  = (ws, Exhausted) ->
  ltb d measurement_start = false -> ltb d measurement_end = true ->
  exists w, w ∈ ws /\ add w.1 interval = Ok w.2
            /\ ltb d w.1 = false /\ ltb d w.2 = true.
Proof.
  intros Hs He Hd Hrun Hge Hlt.
  apply ltb_ge in Hge; [|done..]. apply ltb_lt in Hlt; [|done..].
  destruct (windows_from_cover interval should_round measurement_end fuel
              measurement_start ws d Hs He Hrun)
    as (w & Hw & Hv1 & Hv2 & Hadd & Hcov); [lia|].
  exists w. split; [done|]. split; [done|]. split.
  - apply ltb_ge; [done..|lia].
  - apply ltb_lt; [done..|lia].
Qed.

Lemma windows_cover_measurement_witness :
  let ms := mk_datetime 2021 1 1 0 30 0 0 in
  let me := mk_datetime 2021 1 1 3 0 0 0 in
  let d := mk_datetime 2021 1 1 2 59 59 999999 in
  let ws := [(mk_datetime 2021 1 1 0 0 0 0, mk_datetime 2021 1 1 1 30 0 0);
             (mk_datetime 2021 1 1 1 0 0 0, mk_datetime 2021 1 1 2 30 0 0);
             (mk_datetime 2021 1 1 2 0 0 0, mk_datetime 2021 1 1 3 30 0 0)] in
  valid ms /\ valid me /\ valid d
  /\ interval_windows (timedelta_hm 1 30) true 4 ms me = (ws, Exhausted)
  /\ ltb d ms = false /\ ltb d me = true
  /\ exists w, w ∈ ws /\ add w.1 (timedelta_hm 1 30) = Ok w.2
               /\ ltb d w.1 = false /\ ltb d w.2 = true.
Proof.
  intros ms me d ws.
  assert (valid ms) as Hs by (vm_compute; intuition discriminate).
  assert (valid me) as He by (vm_compute; intuition discriminate).
  assert (valid d) as Hd by (vm_compute; intuition discriminate).
  assert (interval_windows (timedelta_hm 1 30) true 4 ms me = (ws, Exhausted)) as Hrun
    by (vm_compute; reflexivity).
  assert (ltb d ms = false) as Hge by reflexivity.
  assert (ltb d me = true) as Hlt by reflexivity.
  repeat (split; [assumption|]).
  exact (windows_cover_measurement (timedelta_hm 1 30) true 4 ms me ws d
           Hs He Hd Hrun Hge Hlt).
Defined.

(** Rounded and unrounded loops side by side: the cursor of the rounded
    one is never ahead. *)
Lemma rounded_not_ahead (interval : timedelta) (measurement_end : t)
    (fuel fuel' : nat) (cursor cursor' : t) (i : nat) (w w' : window) :
  valid cursor -> valid cursor' -> to_us cursor <= to_us cursor' ->
  (windows_from interval true measurement_end fuel cursor).1 !! i = Some w ->
  (windows_from interval false measurement_end fuel' cursor').1 !! i = Some w' ->
  valid w.1 /\ valid w'.1 /\ valid w.2 /\ valid w'.2
  /\ to_us w.1 <= to_us w'.1 /\ to_us w.2 <= to_us w'.2.
Proof.
  revert fuel fuel' cursor cursor'.
  induction i as [|i IH]; intros fuel fuel' cursor cursor' Hc Hc' Hle;
    (destruct fuel as [|fuel]; [done|]); (destruct fuel' as [|fuel']; [done|]);
    rewrite !windows_from_S;
    (destruct (ltb cursor measurement_end); [|done]);
    (destruct (ltb cursor' measurement_end); [|done]); cbv zeta;
    (destruct (add (round_down cursor) interval) as [e|?] eqn:Hadd; [|done]);
    (destruct (add cursor' interval) as [e'|?] eqn:Hadd'; [|done]);
    apply add_Ok in Hadd as [Hv Hus]; apply add_Ok in Hadd' as [Hv' Hus'];
    pose proof (round_down_to_us cursor Hc) as Hr;
    pose proof (round_down_valid cursor Hc) as Hrv;
    cbn [fst snd].
  - intros [= <-] [= <-]. cbn [fst snd]. do 4 (split; [done|]). lia.
  - intros Hw Hw'. apply (IH fuel fuel' e e'); try done. lia.
Qed.

(** X2.  Rounding down never delays a window: the window of the loop with
    [should_round] at a given position starts no later, and ends no later,
    than the window at that position of the loop without it. *)
Theorem rounded_windows_not_later (interval : timedelta) (fuel fuel' : nat)
    (measurement_start measurement_end : t) (ws ws' : list window) (st st' : status)
    (i : nat) (w w' : window) :
  valid measurement_start ->
  interval_windows interval true fuel measurement_start measurement_end = (ws, st) ->
  interval_windows interval false fuel' measurement_start measurement_end = (ws', st') ->
  ws !! i = Some w -> ws' !! i = Some w' ->
  ltb w'.1 w.1 = false /\ ltb w'.2 w.2 = false.
Proof.
  intros Hs Hrun Hrun' Hw Hw'.
  destruct (rounded_not_ahead interval measurement_end fuel fuel'
              measurement_start measurement_start i w w' Hs Hs (Z.le_refl _))
    as (Hv1 & Hv1' & Hv2 & Hv2' & Hle1 & Hle2).
  - change ((interval_windows interval true fuel measurement_start measurement_end).1 !! i
            = Some w). by rewrite Hrun.
  - change ((interval_windows interval false fuel' measurement_start measurement_end).1 !! i
            = Some w'). by rewrite Hrun'.
  - split; apply ltb_ge; done.
Qed.

Lemma rounded_windows_not_later_witness :
  let ms := mk_datetime 2021 1 1 0 30 0 0 in
  let me := mk_datetime 2021 1 1 3 0 0 0 in
  let w := (mk_datetime 2021 1 1 1 0 0 0, mk_datetime 2021 1 1 2 30 0 0) in
  let w' := (mk_datetime 2021 1 1 2 0 0 0, mk_datetime 2021 1 1 3 30 0 0) in
  valid ms
  /\ exists ws ws',
       interval_windows (timedelta_hm 1 30) true 4 ms me = (ws, Exhausted)
       /\ interval_windows (timedelta_hm 1 30) false 4 ms me = (ws', Exhausted)
       /\ ws !! 1%nat = Some w /\ ws' !! 1%nat = Some w'
       /\ ltb w'.1 w.1 = false /\ ltb w'.2 w.2 = false.
Proof.
  intros ms me w w'.
  assert (valid ms) as Hs by (vm_compute; intuition discriminate).
  split; [assumption|].
  destruct (interval_windows (timedelta_hm 1 30) true 4 ms me) as [ws st] eqn:Hrun.
  destruct (interval_windows (timedelta_hm 1 30) false 4 ms me) as [ws' st'] eqn:Hrun'.
  assert (st = Exhausted) as -> by (apply (f_equal snd) in Hrun; vm_compute in Hrun; congruence).
  assert (st' = Exhausted) as -> by (apply (f_equal snd) in Hrun'; vm_compute in Hrun'; congruence).
  assert (ws !! 1%nat = Some w) as Hw
    by (apply (f_equal (fun r => r.1 !! 1%nat)) in Hrun; vm_compute in Hrun; vm_compute; congruence).
  assert (ws' !! 1%nat = Some w') as Hw'
    by (apply (f_equal (fun r => r.1 !! 1%nat)) in Hrun'; vm_compute in Hrun'; vm_compute; congruence).
  exists ws, ws'. do 4 (split; [done|]).
  exact (rounded_windows_not_later (timedelta_hm 1 30) 4 4 ms me ws ws' _ _ 1 w w'
           Hs Hrun Hrun' Hw Hw').
Defined.

(** Without rounding the number of windows is the length of the
    measurement divided by the interval, rounded up. *)
Lemma windows_from_count (interval : timedelta) (measurement_end : t)
    (fuel : nat) (cursor : t) (ws : list window) :
  0 < interval -> valid cursor -> valid measurement_end ->
  windows_from interval false measurement_end fuel cursor = (ws, Exhausted) ->
  Z.of_nat (length ws)
  = Z.max 0 ((to_us measurement_end - to_us cursor + interval - 1) / interval).
Proof.
  intros Hpos Hc He. revert cursor ws Hc.
  induction fuel as [|fuel IH]; intros cursor ws Hc; [done|].
  rewrite windows_from_S.
  destruct (ltb cursor measurement_end) eqn:Hlt.
  - apply ltb_lt in Hlt; [|done..]. cbv zeta.
    destruct (add cursor interval) as [end_|e] eqn:Hadd; [|done].
    apply add_Ok in Hadd as [Hv Hus].
    destruct (windows_from interval false measurement_end fuel end_)
      as [rest st] eqn:Hrest.
    cbn [fst snd]. intros [= <- ->].
    rewrite length_cons, Nat2Z.inj_succ, (IH end_ rest Hv Hrest), Hus.
    replace (to_us measurement_end - to_us cursor + interval - 1)
      with ((to_us measurement_end - (to_us cursor + interval) + interval - 1)
            + 1 * interval) by lia.
    rewrite Z.div_add by lia.
    set (q := (to_us measurement_end - (to_us cursor + interval) + interval - 1)
              / interval).
    assert (0 <= q) by (unfold q; apply Z.div_le_lower_bound; lia).
    lia.
  - apply ltb_ge in Hlt; [|done..]. intros [= <-]. simpl.
    assert ((to_us measurement_end - to_us cursor + interval - 1) / interval <= 0).
    { apply Z.lt_succ_r. apply Z.div_lt_upper_bound; lia. }
    lia.
Qed.

(** X3.  Without rounding and with a positive interval, a loop that runs
    to its end visits as many windows as the interval goes into the length
    of the measurement, rounded up (none when the start is not before the
    end). *)
Theorem window_count (interval : timedelta) (fuel : nat)
    (measurement_start measurement_end : t) (ws : list window) :
  0 < interval -> valid measurement_start -> valid measurement_end ->
  interval_windows interval false fuel measurement_start measurement_end
  = (ws, Exhausted) ->
  Z.of_nat (length ws)
  = Z.max 0 ((to_us measurement_end - to_us measurement_start + interval - 1)
             / interval).
Proof. intros Hpos Hs He Hrun. by apply (windows_from_count _ _ fuel). Qed.

Lemma window_count_witness :
  let ms := mk_datetime 2021 1 1 0 0 0 0 in
  let me := mk_datetime 2021 1 2 0 0 0 0 in
  0 < timedelta_hm 1 0 /\ valid ms /\ valid me
  /\ exists ws,
       interval_windows (timedelta_hm 1 0) false 30 ms me = (ws, Exhausted)
       /\ Z.of_nat (length ws) = 24.
Proof.
  intros ms me.
  assert (valid ms) as Hs by (vm_compute; intuition discriminate).
  assert (valid me) as He by (vm_compute; intuition discriminate).
  assert (0 < timedelta_hm 1 0) as Hpos by reflexivity.
  repeat (split; [assumption|]).
  destruct (interval_windows (timedelta_hm 1 0) false 30 ms me) as [ws st] eqn:Hrun.
  assert (st = Exhausted) as ->
    by (apply (f_equal snd) in Hrun; vm_compute in Hrun; congruence).
  exists ws. split; [reflexivity|].
  etrans; [exact (window_count (timedelta_hm 1 0) 30 ms me ws Hpos Hs He Hrun)|].
  vm_compute. reflexivity.
Defined.

End windows_facts.

(** ** Period strings *)

Module period_strings.
Import datetime datetime_facts scc_netcdf identifiers.
Local Open Scope Z_scope.

(** How often a character occurs in a string. *)
Fixpoint occurrences (c : ascii) (s : string) : nat :=
  match s with
  | EmptyString => 0
  | String c' s' => (if Ascii.eqb c' c then 1 else 0) + occurrences c s'
  end.

Lemma split_length (sep : ascii) (s : string) :
  length (split sep s) = S (occurrences sep s).
Proof.
  induction s as [|c s IH]; [done|]. simpl.
  destruct (Ascii.eqb c sep); simpl; [by rewrite IH|].
  destruct (split sep s) as [|h t]; [done|]. simpl in *. done.
Qed.

Lemma split_sep (sep : ascii) (s : string) :
  split sep (String sep s) = EmptyString :: split sep s.
Proof. simpl. by rewrite Ascii.eqb_refl. Qed.

Lemma split_skip (sep c : ascii) (s : string) :
  Ascii.eqb c sep = false ->
  split sep (String c s)
  = String c (hd EmptyString (split sep s)) :: tail (split sep s).
Proof.
  intros Hc. simpl. rewrite Hc.
  pose proof (split_length sep s) as Hlen.
  by destruct (split sep s) as [|h t].
Qed.

Lemma digit_not (c : ascii) (n : Z) :
  digit_value c = None -> Ascii.eqb (digit n) c = false.
Proof.
  destruct (digit_cases n) as (k & Hk & _ & ->). intros Hc.
  apply Ascii.eqb_neq. intros <-.
  do 10 (destruct k as [|k]; [discriminate|]). lia.
Qed.

Lemma digit_value_digit (n : Z) : digit_value (digit n) = Some (n mod 10).
Proof.
  destruct (digit_cases n) as (k & Hk & -> & ->).
  do 10 (destruct k as [|k]; [reflexivity|]). lia.
Qed.

(** [int] reads back what [pad2] writes. *)
Lemma int_pad2 (n : Z) : 0 <= n < 100 -> int (pad2 n) = Ok n.
Proof.
  intros Hn. unfold int, pad2. cbn [int_digits].
  rewrite !digit_value_digit. cbn [mbind option_bind].
  f_equal. Z.div_mod_to_equations. lia.
Qed.

(** A period as [CALIBRATION_PERIODS] writes it: [HH:MM-HH:MM] *)
Definition period_string (h m h' m' : Z) : string :=
  pad2 h +:+ ":" +:+ pad2 m +:+ "-" +:+ pad2 h' +:+ ":" +:+ pad2 m'.

Lemma split_period (h m h' m' : Z) :
  split "-" (period_string h m h' m')
  = [pad2 h +:+ ":" +:+ pad2 m; pad2 h' +:+ ":" +:+ pad2 m'].
Proof.
  unfold period_string, pad2. rewrite !append_cons, !append_nil.
  rewrite !(split_skip "-" (digit _)) by (by apply digit_not).
  rewrite (split_skip "-" ":") by done.
  rewrite !(split_skip "-" (digit _)) by (by apply digit_not).
  rewrite split_sep.
  rewrite !(split_skip "-" (digit _)) by (by apply digit_not).
  rewrite (split_skip "-" ":") by done.
  rewrite !(split_skip "-" (digit _)) by (by apply digit_not).
  reflexivity.
Qed.

Lemma split_clock (h m : Z) :
  split ":" (pad2 h +:+ ":" +:+ pad2 m) = [pad2 h; pad2 m].
Proof.
  unfold pad2. rewrite !append_cons, !append_nil.
  rewrite !(split_skip ":" (digit _)) by (by apply digit_not).
  rewrite split_sep.
  rewrite !(split_skip ":" (digit _)) by (by apply digit_not).
  reflexivity.
Qed.

(** X4.  A period written [HH:MM-HH:MM] with clock values is read as those
    two times of the day of [base], with second 0 and the microsecond of
    [base]; the hour, minute and second of [base] play no part, and the
    addition does not overflow. *)
Theorem calibration_to_datetime_clock (base : t) (h m h' m' : Z) :
  valid base ->
  0 <= h < 24 -> 0 <= m < 60 -> 0 <= h' < 24 -> 0 <= m' < 60 ->
  calibration_to_datetime base (period_string h m h' m')
  = Ok (mk (ordinal base) h m 0 (microsecond base),
        mk (ordinal base) h' m' 0 (microsecond base)).
Proof.
  intros Hb Hh Hm Hh' Hm'. unfold calibration_to_datetime.
  rewrite split_period. cbn [unpack2 mbind result_bind].
  rewrite !split_clock. cbn [mapM].
  rewrite !int_pad2 by lia.
  cbn [mbind result_bind index lookup list_lookup].
  rewrite !calibration.add_clock by (done || lia). done.
Qed.

Lemma calibration_to_datetime_clock_witness :
  let base := mk_datetime 2021 3 4 13 14 15 16 in
  valid base /\ 0 <= 5 < 24 /\ 0 <= 7 < 60 /\ 0 <= 23 < 24 /\ 0 <= 59 < 60
  /\ period_string 5 7 23 59 = "05:07-23:59"
  /\ calibration_to_datetime base "05:07-23:59"
     = Ok (mk_datetime 2021 3 4 5 7 0 16, mk_datetime 2021 3 4 23 59 0 16).
Proof.
  intros base.
  assert (valid base) as Hb by (vm_compute; intuition discriminate).
  split; [assumption|]. do 4 (split; [lia|]). split; [reflexivity|].
  exact (calibration_to_datetime_clock base 5 7 23 59 Hb
           ltac:(lia) ltac:(lia) ltac:(lia) ltac:(lia)).
Defined.

(** X5.  A period that does not hold exactly one [-] is rejected with
    [ValueError] when its two halves are unpacked: nothing of [base] is
    looked at. *)
Theorem calibration_to_datetime_dashes (base : t) (period : string) :
  occurrences "-" period <> 1%nat ->
  exists msg, calibration_to_datetime base period = Raise (ValueError msg).
Proof.
  intros Hn. unfold calibration_to_datetime.
  pose proof (split_length "-" period) as Hlen.
  destruct (split "-" period) as [|a [|b [|c l]]]; simpl in Hlen;
    try (eexists; reflexivity).
  lia.
Qed.

Lemma calibration_to_datetime_dashes_witness :
  occurrences "-" "02:31" <> 1%nat
  /\ occurrences "-" "02:31-02:41-02:51" <> 1%nat
  /\ (exists msg, calibration_to_datetime (mk_datetime 2021 1 1 0 0 0 0) "02:31"
                  = Raise (ValueError msg))
  /\ (exists msg, calibration_to_datetime (mk_datetime 2021 1 1 0 0 0 0)
                    "02:31-02:41-02:51" = Raise (ValueError msg)).
Proof.
  assert (occurrences "-" "02:31" <> 1%nat) as H1 by (vm_compute; lia).
  assert (occurrences "-" "02:31-02:41-02:51" <> 1%nat) as H2 by (vm_compute; lia).
  do 2 (split; [assumption|]). split.
  - exact (calibration_to_datetime_dashes (mk_datetime 2021 1 1 0 0 0 0) "02:31" H1).
  - exact (calibration_to_datetime_dashes (mk_datetime 2021 1 1 0 0 0 0)
             "02:31-02:41-02:51" H2).
Defined.

End period_strings.

(** ** Runs of the generator and the files they leave *)

Module runs.
Import datetime datetime_facts np netCDF4 locations scc_netcdf.
Local Open Scope Z_scope.

(** No file of [fs] is missing from [fs']. *)
Definition keeps (fs fs' : filesystem) : Prop :=
  forall p, is_Some (fs !! p) -> is_Some (fs' !! p).

(** The files of [fs] that are closed are closed in [fs']. *)
Definition keeps_closed (fs fs' : filesystem) : Prop :=
  forall p, file_isopen fs p = Some false -> file_isopen fs' p = Some false.

Lemma keeps_refl (fs : filesystem) : keeps fs fs.
Proof. by intros p. Qed.

Lemma keeps_trans (fs1 fs2 fs3 : filesystem) :
  keeps fs1 fs2 -> keeps fs2 fs3 -> keeps fs1 fs3.
Proof. intros H1 H2 p Hp. auto. Qed.

Lemma keeps_insert (fs : filesystem) (path : string) (nc : Dataset) :
  keeps fs (<[path := nc]> fs).
Proof.
  intros p Hp. destruct (decide (p = path)) as [->|Hne].
  - rewrite lookup_insert_eq. eauto.
  - by rewrite lookup_insert_ne.
Qed.

Lemma keeps_closed_insert (fs : filesystem) (path : string) (nc : Dataset) :
  isopen nc = false -> keeps_closed fs (<[path := nc]> fs).
Proof.
  intros Hnc p Hp. unfold file_isopen in *. destruct (decide (p = path)) as [->|Hne].
  - rewrite lookup_insert_eq. simpl. by rewrite Hnc.
  - by rewrite lookup_insert_ne.
Qed.

(** Both builders write one file and touch no other. *)
Lemma create_scc_netcdf_files pf output_path location (fs fs' : filesystem) r :
  create_scc_netcdf pf output_path location fs = (r, fs') ->
  keeps fs fs'
  /\ forall id path, r = Ok (id, path) ->
       file_isopen fs' path = Some false /\ keeps_closed fs fs'.
Proof.
  intros Hrun.
  pose proof (standard_record.create_scc_netcdf_partial pf output_path location fs) as Hp.
  rewrite Hrun in Hp. destruct r as [[id path]|e].
  - destruct Hp as (nc & -> & [= _ ->] & Hpost). split; [apply keeps_insert|].
    assert (isopen nc = false) as Hclosed by apply Hpost.
    intros ? ? [= _ <-]. split; [|by apply keeps_closed_insert].
    unfold file_isopen. rewrite lookup_insert_eq. simpl. by rewrite Hclosed.
  - destruct Hp as (nc & -> & _). split; [apply keeps_insert|done].
Qed.

Lemma create_scc_calibration_netcdf_files pf output_path location w lo hi
    (fs fs' : filesystem) r :
  create_scc_calibration_netcdf pf output_path location (Member w) lo hi fs = (r, fs') ->
  keeps fs fs'
  /\ forall id path, r = Ok (id, path) ->
       file_isopen fs' path = Some false /\ keeps_closed fs fs'.
Proof.
  intros Hrun.
  pose proof (calibration_record.create_scc_calibration_netcdf_partial
                pf output_path location w lo hi fs) as Hp.
  rewrite Hrun in Hp. destruct r as [[id path]|e].
  - destruct Hp as (nc & -> & [= _ ->] & Hpost). split; [apply keeps_insert|].
    assert (isopen nc = false) as Hclosed by apply Hpost.
    intros ? ? [= _ <-]. split; [|by apply keeps_closed_insert].
    unfold file_isopen. rewrite lookup_insert_eq. simpl. by rewrite Hclosed.
  - destruct Hp as (nc & -> & _). split; [apply keeps_insert|done].
Qed.

Section convert.

Variable get_measurement_period : string -> result (t * t).
Variable PollyXTFile : string -> t -> t -> result PollyXTFile_t.
Variables (input_path output_path : string) (location : Location).
Variables (interval : timedelta) (should_round calibration : bool).

Abbreviation loop := (interval_loop interval should_round
                    (convert_interval PollyXTFile input_path output_path location)).
Abbreviation cal_loop := (calibration_loop PollyXTFile input_path output_path location).
Abbreviation run := (convert_pollyxt_file get_measurement_period PollyXTFile input_path
                       output_path location interval should_round calibration).

(** What a run is made of. *)
Lemma run_cases (fuel : nat) (fs fs' : filesystem) (ys : list yielded) (st : status)
    (measurement_start measurement_end : t) :
  get_measurement_period input_path = Ok (measurement_start, measurement_end) ->
  run fuel fs = (ys, st, fs') ->
  exists standard st1 fs1,
    loop fuel measurement_end measurement_start fs = (standard, st1, fs1)
    /\ ((st1 = Exhausted /\ calibration = true
         /\ exists cs,
              cal_loop measurement_start measurement_end CALIBRATION_PERIODS fs1
              = (cs, st, fs')
              /\ ys = standard ++ cs)
        \/ ((st1 <> Exhausted \/ calibration = false)
            /\ ys = standard /\ st = st1 /\ fs' = fs1)).
Proof.
  intros Hperiod. unfold convert_pollyxt_file. rewrite Hperiod.
  destruct (loop fuel measurement_end measurement_start fs) as [[std st1] fs1].
  intros Hrun. exists std, st1, fs1. split; [done|].
  destruct st1; [|right; injection Hrun as <- <- <-; split; [by left|done]..].
  destruct calibration; [|right; injection Hrun as <- <- <-; split; [by right|done]].
  left. do 2 (split; [done|]).
  destruct (cal_loop measurement_start measurement_end CALIBRATION_PERIODS fs1)
    as [[cs st2] fs2].
  injection Hrun as <- <- <-. by exists cs.
Qed.

Lemma convert_interval_files (start end_ : t) (fs fs' : filesystem) r :
  convert_interval PollyXTFile input_path output_path location start end_ fs = (r, fs') ->
  keeps fs fs'
  /\ forall y, r = Ok y ->
       file_isopen fs' (y_path y) = Some false /\ keeps_closed fs fs'.
Proof.
  unfold convert_interval.
  destruct (PollyXTFile input_path start end_) as [pf|e].
  2:{ intros [= <- <-]. split; [apply keeps_refl|done]. }
  destruct (create_scc_netcdf pf output_path location fs) as [r1 fs1] eqn:Hrun.
  apply create_scc_netcdf_files in Hrun as [Hkeep Hok].
  destruct r1 as [[id path]|e]; intros [= <- <-]; (split; [done|]); [|done].
  intros y [= <-]. simpl. by apply (Hok id path).
Qed.

Lemma closed_is_Some (fs : filesystem) (p : string) :
  file_isopen fs p = Some false -> is_Some (fs !! p).
Proof. unfold file_isopen. destruct (fs !! p); [eauto|done]. Qed.

Lemma loop_files (fuel : nat) (measurement_end cursor : t) (fs fs' : filesystem)
    (ys : list yielded) (st : status) :
  loop fuel measurement_end cursor fs = (ys, st, fs') ->
  keeps fs fs'
  /\ (forall y, y ∈ ys -> is_Some (fs' !! y_path y))
  /\ (st = Exhausted ->
      keeps_closed fs fs'
      /\ forall y, y ∈ ys -> file_isopen fs' (y_path y) = Some false).
Proof.
  revert cursor fs fs' ys st.
  induction fuel as [|fuel IH]; intros cursor fs fs' ys st.
  { intros [= <- <- <-]. split; [apply keeps_refl|]. split; [|done].
    intros y Hy. by apply elem_of_nil in Hy. }
  rewrite driver.loop_S.
  destruct (ltb cursor measurement_end).
  2:{ intros [= <- <- <-]. split; [apply keeps_refl|].
      split; [intros y Hy; by apply elem_of_nil in Hy|].
      intros _. split; [by intros p|]. intros y Hy. by apply elem_of_nil in Hy. }
  cbv zeta.
  destruct (add _ interval) as [end_|e].
  2:{ intros [= <- <- <-]. split; [apply keeps_refl|].
      split; [intros y Hy; by apply elem_of_nil in Hy|done]. }
  destruct (convert_interval _ _ _ _ _ end_ fs) as [[y|e] fs1] eqn:Hy;
    apply convert_interval_files in Hy as [Hkeep Hok].
  2:{ intros [= <- <- <-]. split; [done|].
      split; [intros y Hy; by apply elem_of_nil in Hy|done]. }
  destruct (Hok y eq_refl) as [Hclosed Hkc].
  destruct (loop fuel measurement_end end_ fs1) as [[ys1 st1] fs2] eqn:Hrest.
  destruct (IH _ _ _ _ _ Hrest) as (Hkeep2 & Hex & Hex2).
  intros [= <- <- <-]. split; [by eapply keeps_trans|]. split.
  - intros y' [->|Hin]%elem_of_cons; [|by apply Hex].
    apply Hkeep2. by apply closed_is_Some.
  - intros Hst. destruct (Hex2 Hst) as [Hkc2 Hall]. split.
    + intros p Hp. auto.
    + intros y' [->|Hin]%elem_of_cons; [|by apply Hall]. by apply Hkc2.
Qed.

Lemma calibration_loop_files (measurement_start measurement_end : t)
    (periods : list string) (fs fs' : filesystem) (ys : list yielded) (st : status) :
  cal_loop measurement_start measurement_end periods fs = (ys, st, fs') ->
  keeps fs fs'
  /\ (forall y, y ∈ ys -> is_Some (fs' !! y_path y))
  /\ (st = Exhausted ->
      keeps_closed fs fs'
      /\ forall y, y ∈ ys -> file_isopen fs' (y_path y) = Some false).
Proof.
  revert fs fs' ys st.
  induction periods as [|period periods IH]; intros fs fs' ys st; simpl.
  { intros [= <- <- <-]. split; [apply keeps_refl|].
    split; [intros y Hy; by apply elem_of_nil in Hy|].
    intros _. split; [by intros p|]. intros y Hy. by apply elem_of_nil in Hy. }
  destruct (calibration_to_datetime measurement_start period) as [[start end_]|e].
  2:{ intros [= <- <- <-]. split; [apply keeps_refl|].
      split; [intros y Hy; by apply elem_of_nil in Hy|done]. }
  destruct (gtb start measurement_start && ltb end_ measurement_end); [|by apply IH].
  destruct (PollyXTFile input_path start end_) as [pf|e].
  2:{ intros [= <- <- <-]. split; [apply keeps_refl|].
      split; [intros y Hy; by apply elem_of_nil in Hy|done]. }
  destruct (create_scc_calibration_netcdf pf output_path location (Member NM_532)
              1200 2500 fs) as [r fs1] eqn:Hrun.
  apply create_scc_calibration_netcdf_files in Hrun as [Hkeep Hok].
  destruct r as [[id path]|e].
  2:{ intros [= <- <- <-]. split; [done|].
      split; [intros y Hy; by apply elem_of_nil in Hy|done]. }
  destruct (Hok id path eq_refl) as [Hclosed Hkc].
  destruct (cal_loop measurement_start measurement_end periods fs1)
    as [[ys1 st1] fs2] eqn:Hrest.
  destruct (IH _ _ _ _ Hrest) as (Hkeep2 & Hex & Hex2).
  intros [= <- <- <-]. split; [by eapply keeps_trans|]. split.
  - intros y' [->|Hin]%elem_of_cons; [|by apply Hex].
    apply Hkeep2. by apply closed_is_Some.
  - intros Hst. destruct (Hex2 Hst) as [Hkc2 Hall]. split.
    + intros p Hp. auto.
    + intros y' [->|Hin]%elem_of_cons; [|by apply Hall]. by apply Hkc2.
Qed.

(** X6.  A run never removes a file, and the path of every element it
    yields names a file that is there when the run stops, however the run
    stops.  If the run ends normally, every such file has been closed. *)
Theorem yielded_files_exist (fuel : nat) (fs fs' : filesystem)
    (ys : list yielded) (st : status) :
  run fuel fs = (ys, st, fs') ->
  (forall p, is_Some (fs !! p) -> is_Some (fs' !! p))
  /\ (forall y, y ∈ ys -> is_Some (fs' !! y_path y))
  /\ (st = Exhausted ->
      forall y, y ∈ ys -> file_isopen fs' (y_path y) = Some false).
Proof.
  intros Hrun.
  destruct (get_measurement_period input_path) as [[ms me]|e] eqn:Hperiod.
  2:{ unfold convert_pollyxt_file in Hrun. rewrite Hperiod in Hrun.
      injection Hrun as <- <- <-. split; [done|].
      split; [|intros _]; intros y Hy; by apply elem_of_nil in Hy. }
  destruct (run_cases _ _ _ _ _ _ _ Hperiod Hrun)
    as (std & st1 & fs1 & Hloop & Hcases).
  apply loop_files in Hloop as (Hkeep & Hex & Hclosed).
  destruct Hcases as [(-> & _ & cs & Hcal & ->)|(_ & -> & -> & ->)].
  - apply calibration_loop_files in Hcal as (Hkeep2 & Hex2 & Hclosed2).
    destruct (Hclosed eq_refl) as [Hkc Hall].
    split; [intros p Hp; auto|]. split.
    + intros y [Hy|Hy]%elem_of_app; [apply Hkeep2|]; auto.
    + intros Hst y. destruct (Hclosed2 Hst) as [Hkc2 Hall2].
      intros [Hy|Hy]%elem_of_app; auto.
  - split; [done|]. split; [done|]. intros Hst. by apply Hclosed.
Qed.

(** The calibration elements of a run, each with its period. *)
Lemma calibration_elements (measurement_start measurement_end : t)
    (fs fs' : filesystem) (cs : list yielded) (st : status) (y : yielded) :
  cal_loop measurement_start measurement_end CALIBRATION_PERIODS fs = (cs, st, fs') ->
  y ∈ cs ->
  (exists pf, y_by y = CalibrationRecord pf (Member NM_532))
  /\ exists p, p ∈ CALIBRATION_PERIODS
               /\ driver.for_period measurement_start measurement_end y p.
Proof.
  intros Hcal Hy.
  pose proof (driver.calibration_loop_spec PollyXTFile input_path output_path location
                measurement_start measurement_end CALIBRATION_PERIODS fs) as Hspec.
  rewrite Hcal in Hspec. destruct Hspec as (Hbuilt & ps & Hsub & Hfor & _).
  split.
  - rewrite Forall_forall in Hbuilt.
    destruct (Hbuilt y Hy) as (pf & _ & _ & _ & Hby & _). eauto.
  - apply list_elem_of_lookup in Hy as [i Hi].
    destruct (Forall2_lookup_l _ _ _ _ _ Hfor Hi) as (p & Hp & Hyp).
    exists p. split; [|done].
    eapply elem_of_sublist; [|exact Hsub]. by eapply list_elem_of_lookup_2.
Qed.

Lemma standard_elements (fuel : nat) (measurement_end cursor : t)
    (fs fs' : filesystem) (ys : list yielded) (st : status) (y : yielded) :
  loop fuel measurement_end cursor fs = (ys, st, fs') ->
  y ∈ ys -> exists pf, y_by y = StandardRecord pf.
Proof.
  intros Hloop Hy.
  pose proof (driver.loop_spec PollyXTFile input_path output_path location
                interval should_round fuel measurement_end cursor fs) as Hspec.
  rewrite Hloop in Hspec. destruct Hspec as [Hbuilt _].
  rewrite Forall_forall in Hbuilt.
  destruct (Hbuilt y Hy) as (pf & _ & _ & _ & Hby & _). eauto.
Qed.

Lemma period_of_day (measurement_start measurement_end : t) (y : yielded) (p : string) :
  valid measurement_start ->
  p ∈ CALIBRATION_PERIODS ->
  driver.for_period measurement_start measurement_end y p ->
  exists h,
    (h = 2 \/ h = 17 \/ h = 21)
    /\ y_start y = datetime.mk (ordinal measurement_start) h 31 0 (microsecond measurement_start)
    /\ ltb measurement_start (y_start y) = true
    /\ ltb (datetime.mk (ordinal measurement_start) h 41 0 (microsecond measurement_start))
         measurement_end = true.
Proof.
  intros Hs Hp (end_ & Hperiod & Hgt & Hlt).
  destruct (calibration.calibration_to_datetime_periods measurement_start Hs)
    as (H1 & H2 & H3).
  unfold CALIBRATION_PERIODS in Hp.
  apply elem_of_cons in Hp as [->|Hp]; [|apply elem_of_cons in Hp as [->|Hp];
    [|apply elem_of_cons in Hp as [->|Hp]; [|by apply elem_of_nil in Hp]]].
  - rewrite H1 in Hperiod. injection Hperiod as Hstart <-.
    exists 2. split; [by left|]. by rewrite <- Hstart in *.
  - rewrite H2 in Hperiod. injection Hperiod as Hstart <-.
    exists 17. split; [by right; left|]. by rewrite <- Hstart in *.
  - rewrite H3 in Hperiod. injection Hperiod as Hstart <-.
    exists 21. split; [by right; right|]. by rewrite <- Hstart in *.
Qed.

(** X7.  Every calibration element of a run is for 532 nm and starts on the
    calendar day of [measurement_start], at 02:31, 17:31 or 21:31 with
    second 0 and the microsecond of [measurement_start]; that start is
    after [measurement_start], and ten minutes later is before
    [measurement_end].  The periods of later days of a longer measurement
    are never visited. *)
Theorem calibration_on_first_day (fuel : nat) (fs fs' : filesystem)
    (ys : list yielded) (st : status) (measurement_start measurement_end : t)
    (y : yielded) (pf : PollyXTFile_t) (w : wavelength_arg) :
  valid measurement_start ->
  get_measurement_period input_path = Ok (measurement_start, measurement_end) ->
  run fuel fs = (ys, st, fs') ->
  y ∈ ys -> y_by y = CalibrationRecord pf w ->
  w = Member NM_532
  /\ exists h,
       (h = 2 \/ h = 17 \/ h = 21)
       /\ y_start y = datetime.mk (ordinal measurement_start) h 31 0 (microsecond measurement_start)
       /\ ltb measurement_start (y_start y) = true
       /\ ltb (datetime.mk (ordinal measurement_start) h 41 0 (microsecond measurement_start))
            measurement_end = true.
Proof.
  intros Hs Hperiod Hrun Hy Hby.
  destruct (run_cases _ _ _ _ _ _ _ Hperiod Hrun)
    as (std & st1 & fs1 & Hloop & Hcases).
  assert (y ∈ std -> False) as Hnot.
  { intros Hin. destruct (standard_elements _ _ _ _ _ _ _ _ Hloop Hin) as [pf' Hby'].
    congruence. }
  destruct Hcases as [(-> & _ & cs & Hcal & ->)|(_ & -> & _)]; [|done].
  apply elem_of_app in Hy as [Hy|Hy]; [done|].
  destruct (calibration_elements _ _ _ _ _ _ _ Hcal Hy) as ([pf' Hby'] & p & Hp & Hfor).
  split; [congruence|]. by eapply period_of_day.
Qed.

Lemma period_outside_short (measurement_start measurement_end : t) (h : Z) :
  valid measurement_start -> valid measurement_end -> 0 <= h < 24 ->
  to_us measurement_end - to_us measurement_start <= timedelta_hm 0 10 ->
  gtb (datetime.mk (ordinal measurement_start) h 31 0 (microsecond measurement_start))
      measurement_start
  && ltb (datetime.mk (ordinal measurement_start) h 41 0 (microsecond measurement_start))
       measurement_end = false.
Proof.
  intros Hs He Hh Hshort. unfold gtb.
  assert (valid (datetime.mk (ordinal measurement_start) h 31 0
                   (microsecond measurement_start))) as Hv1
    by (unfold valid in *; cbn [ordinal hour minute second microsecond]; lia).
  assert (valid (datetime.mk (ordinal measurement_start) h 41 0
                   (microsecond measurement_start))) as Hv2
    by (unfold valid in *; cbn [ordinal hour minute second microsecond]; lia).
  rewrite !ltb_to_us by done. apply andb_false_iff.
  rewrite !Z.ltb_ge.
  unfold to_us, timedelta_hm, US_PER_SECOND in *.
  cbn [ordinal hour minute second microsecond]. lia.
Qed.

Lemma calibration_loop_short (measurement_start measurement_end : t) (fs : filesystem) :
  valid measurement_start -> valid measurement_end ->
  to_us measurement_end - to_us measurement_start <= timedelta_hm 0 10 ->
  cal_loop measurement_start measurement_end CALIBRATION_PERIODS fs
  = ([], Exhausted, fs).
Proof.
  intros Hs He Hshort.
  destruct (calibration.calibration_to_datetime_periods measurement_start Hs)
    as (H1 & H2 & H3).
  unfold CALIBRATION_PERIODS. cbn [calibration_loop].
  rewrite H1, H2, H3.
  by rewrite !period_outside_short by (done || lia).
Qed.

(** X8.  A measurement of ten minutes or less has no calibration element:
    each period lasts ten minutes and has to lie strictly inside the
    measurement.  The run is then the interval loop alone, whether
    calibration is asked for or not; the reader is not called for a
    period. *)
Theorem short_measurement_no_calibration (fuel : nat) (fs : filesystem)
    (measurement_start measurement_end : t) :
  valid measurement_start -> valid measurement_end ->
  to_us measurement_end - to_us measurement_start <= timedelta_hm 0 10 ->
  get_measurement_period input_path = Ok (measurement_start, measurement_end) ->
  run fuel fs = loop fuel measurement_end measurement_start fs.
Proof.
  intros Hs He Hshort Hperiod. unfold convert_pollyxt_file. rewrite Hperiod.
  destruct (loop fuel measurement_end measurement_start fs) as [[std st1] fs1].
  destruct st1; [|done..]. destruct calibration; [|done].
  rewrite calibration_loop_short by done. by rewrite app_nil_r.
Qed.

(** X9.  A measurement whose end is not after its start yields nothing and
    writes nothing. *)
Theorem empty_measurement_yields_nothing (fuel : nat) (fs : filesystem)
    (measurement_start measurement_end : t) :
  valid measurement_start -> valid measurement_end ->
  ltb measurement_start measurement_end = false ->
  get_measurement_period input_path = Ok (measurement_start, measurement_end) ->
  run (S fuel) fs = ([], Exhausted, fs).
Proof.
  intros Hs He Hge Hperiod. unfold convert_pollyxt_file. rewrite Hperiod.
  rewrite driver.loop_S, Hge.
  destruct calibration; [|done].
  rewrite calibration_loop_short; [done..|].
  apply ltb_ge in Hge; [|done..]. unfold timedelta_hm. lia.
Qed.

End convert.

(** A day from 00:00 to 23:59 in intervals of six hours, with calibration *)
Lemma yielded_files_exist_witness :
  let period := fun _ : string =>
    Ok (mk_datetime 2021 1 1 0 0 0 0, mk_datetime 2021 1 1 23 59 0 0) in
  exists ys st fs',
    convert_pollyxt_file period (examples.reader 20 5 12) "in" "out"
      examples.site (timedelta_hm 6 0) false true 30 ∅ = (ys, st, fs')
    /\ (y_path <$> ys)
       = ["out/20210101aky0006.nc"; "out/20210101aky0612.nc"; "out/20210101aky1218.nc";
          "out/20210101aky1800.nc"; "out/calibration_20210101aky02.nc";
          "out/calibration_20210101aky17.nc"; "out/calibration_20210101aky21.nc"]
    /\ st = Exhausted
    /\ forall y, y ∈ ys -> file_isopen fs' (y_path y) = Some false.
Proof.
  intros period.
  destruct (convert_pollyxt_file period (examples.reader 20 5 12) "in" "out"
              examples.site (timedelta_hm 6 0) false true 30 ∅)
    as [[ys st] fs'] eqn:Hrun.
  exists ys, st, fs'. split; [reflexivity|].
  assert (st = Exhausted) as Hst.
  { pose proof (f_equal (fun r => r.1.2) Hrun) as H. cbv beta in H.
    change ((ys, st, fs').1.2) with st in H. rewrite <- H. vm_compute. reflexivity. }
  split; [|split; [exact Hst|]].
  - pose proof (f_equal (fun r => y_path <$> r.1.1) Hrun) as H. cbv beta in H.
    change (y_path <$> (ys, st, fs').1.1) with (y_path <$> ys) in H.
    rewrite <- H. vm_compute. reflexivity.
  - destruct (yielded_files_exist period (examples.reader 20 5 12) "in" "out"
                examples.site (timedelta_hm 6 0) false true 30 ∅ fs' ys st Hrun)
      as (_ & _ & Hclosed).
    exact (Hclosed Hst).
Defined.

(** A measurement from 02:00 to 03:00: one standard record, and the
    calibration record of 02:31 *)
Lemma calibration_on_first_day_witness :
  let ms := mk_datetime 2021 1 1 2 0 0 0 in
  let me := mk_datetime 2021 1 1 3 0 0 0 in
  let period := fun _ : string => Ok (ms, me) in
  valid ms
  /\ exists ys st fs' y pf w,
       convert_pollyxt_file period (examples.reader 20 5 12) "in" "out"
         examples.site (timedelta_hm 1 0) false true 5 ∅ = (ys, st, fs')
       /\ ys !! 1%nat = Some y
       /\ y_by y = CalibrationRecord pf w
       /\ w = Member NM_532
       /\ exists h,
            (h = 2 \/ h = 17 \/ h = 21)
            /\ y_start y = datetime.mk (ordinal ms) h 31 0 (microsecond ms)
            /\ ltb ms (y_start y) = true
            /\ ltb (datetime.mk (ordinal ms) h 41 0 (microsecond ms)) me = true.
Proof.
  intros ms me period.
  assert (valid ms) as Hs by (vm_compute; intuition discriminate).
  split; [assumption|].
  destruct (convert_pollyxt_file period (examples.reader 20 5 12) "in" "out"
              examples.site (timedelta_hm 1 0) false true 5 ∅)
    as [[ys st] fs'] eqn:Hrun.
  pose (is_calibration := fun l : list yielded =>
          match l !! 1%nat with
          | Some y => match y_by y with
                      | CalibrationRecord _ _ => True
                      | StandardRecord _ => False
                      end
          | None => False
          end).
  assert (is_calibration ys) as Hcal.
  { change (is_calibration (ys, st, fs').1.1). rewrite <- Hrun. vm_compute. exact I. }
  unfold is_calibration in Hcal.
  destruct (ys !! 1%nat) as [y|] eqn:Hy; [|contradiction].
  destruct (y_by y) as [|pf w] eqn:Hby; [contradiction|].
  exists ys, st, fs', y, pf, w.
  split; [reflexivity|]. split; [exact Hy|]. split; [exact Hby|].
  exact (calibration_on_first_day period (examples.reader 20 5 12) "in" "out"
           examples.site (timedelta_hm 1 0) false true 5 ∅ fs' ys st ms me y pf w
           Hs eq_refl Hrun (list_elem_of_lookup_2 _ _ _ Hy) Hby).
Defined.

(** A measurement from 02:31 to 02:41, the very span of the first period *)
Lemma short_measurement_no_calibration_witness :
  let ms := mk_datetime 2021 1 1 2 31 0 0 in
  let me := mk_datetime 2021 1 1 2 41 0 0 in
  let period := fun _ : string => Ok (ms, me) in
  valid ms /\ valid me /\ to_us me - to_us ms <= timedelta_hm 0 10
  /\ convert_pollyxt_file period (examples.reader 20 5 12) "in" "out"
       examples.site (timedelta_hm 1 0) false true 5 ∅
     = interval_loop (timedelta_hm 1 0) false
         (convert_interval (examples.reader 20 5 12) "in" "out" examples.site)
         5 me ms ∅.
Proof.
  intros ms me period.
  assert (valid ms) as Hs by (vm_compute; intuition discriminate).
  assert (valid me) as He by (vm_compute; intuition discriminate).
  assert (to_us me - to_us ms <= timedelta_hm 0 10) as Hshort
    by (vm_compute; discriminate).
  do 3 (split; [assumption|]).
  exact (short_measurement_no_calibration period (examples.reader 20 5 12) "in" "out"
           examples.site (timedelta_hm 1 0) false true 5 ∅ ms me Hs He Hshort eq_refl).
Defined.

Lemma empty_measurement_yields_nothing_witness :
  let ms := mk_datetime 2021 1 1 2 31 0 0 in
  let period := fun _ : string => Ok (ms, ms) in
  valid ms /\ ltb ms ms = false
  /\ convert_pollyxt_file period (examples.reader 20 5 12) "in" "out"
       examples.site (timedelta_hm 1 0) true true 5 ∅
     = ([], Exhausted, ∅).
Proof.
  intros ms period.
  assert (valid ms) as Hs by (vm_compute; intuition discriminate).
  split; [assumption|]. split; [reflexivity|].
  exact (empty_measurement_yields_nothing period (examples.reader 20 5 12) "in" "out"
           examples.site (timedelta_hm 1 0) true true 4 ∅ ms ms Hs Hs eq_refl eq_refl).
Defined.

(** *** With and without calibration *)

Section flag.

Variable get_measurement_period : string -> result (t * t).
Variable PollyXTFile : string -> t -> t -> result PollyXTFile_t.
Variables (input_path output_path : string) (location : Location).
Variables (interval : timedelta) (should_round : bool).

Abbreviation run := (convert_pollyxt_file get_measurement_period PollyXTFile input_path
                       output_path location interval should_round).

(** X26.  Calibration only adds to a run: the elements of the run without
    calibration come first, unchanged, in the run with it; and if the run
    without calibration does not end normally, the run with calibration is
    the same run. *)
Theorem calibration_only_appends (fuel : nat) (fs fs1 fs2 : filesystem)
    (ys ys' : list yielded) (st st' : status) :
  run false fuel fs = (ys, st, fs1) ->
  run true fuel fs = (ys', st', fs2) ->
  ys `prefix_of` ys'
  /\ (st <> Exhausted -> (ys', st', fs2) = (ys, st, fs1)).
Proof.
  unfold convert_pollyxt_file.
  destruct (get_measurement_period input_path) as [[ms me]|e].
  2:{ intros [= <- <- <-] [= <- <- <-]. split; [done|]. done. }
  destruct (interval_loop interval should_round
              (convert_interval PollyXTFile input_path output_path location)
              fuel me ms fs) as [[std st1] fs0].
  destruct st1.
  - destruct (calibration_loop PollyXTFile input_path output_path location ms me
                CALIBRATION_PERIODS fs0) as [[cs st2] fs3].
    intros [= <- <- <-] [= <- <- <-]. split; [by apply prefix_app_r|done].
  - intros [= <- <- <-] [= <- <- <-]. done.
  - intros [= <- <- <-] [= <- <- <-]. done.
Qed.

End flag.

Lemma calibration_only_appends_witness :
  let ms := mk_datetime 2021 1 1 2 0 0 0 in
  let me := mk_datetime 2021 1 1 3 0 0 0 in
  let period := fun _ : string => Ok (ms, me) in
  exists ys ys' st st' fs1 fs2,
    convert_pollyxt_file period (examples.reader 20 5 12) "in" "out"
      examples.site (timedelta_hm 1 0) false false 5 ∅ = (ys, st, fs1)
    /\ convert_pollyxt_file period (examples.reader 20 5 12) "in" "out"
         examples.site (timedelta_hm 1 0) false true 5 ∅ = (ys', st', fs2)
    /\ (y_id <$> ys) = ["20210101aky0203"]
    /\ (y_id <$> ys') = ["20210101aky0203"; "20210101aky02"]
    /\ ys `prefix_of` ys'.
Proof.
  intros ms me period.
  destruct (convert_pollyxt_file period (examples.reader 20 5 12) "in" "out"
              examples.site (timedelta_hm 1 0) false false 5 ∅)
    as [[ys st] fs1] eqn:Hrun.
  destruct (convert_pollyxt_file period (examples.reader 20 5 12) "in" "out"
              examples.site (timedelta_hm 1 0) false true 5 ∅)
    as [[ys' st'] fs2] eqn:Hrun'.
  exists ys, ys', st, st', fs1, fs2. do 2 (split; [reflexivity|]).
  split; [|split].
  - pose proof (f_equal (fun r => y_id <$> r.1.1) Hrun) as H. cbv beta in H.
    change (y_id <$> (ys, st, fs1).1.1) with (y_id <$> ys) in H.
    rewrite <- H. vm_compute. reflexivity.
  - pose proof (f_equal (fun r => y_id <$> r.1.1) Hrun') as H. cbv beta in H.
    change (y_id <$> (ys', st', fs2).1.1) with (y_id <$> ys') in H.
    rewrite <- H. vm_compute. reflexivity.
  - exact (proj1 (calibration_only_appends period (examples.reader 20 5 12) "in" "out"
                    examples.site (timedelta_hm 1 0) false 5 ∅ fs1 fs2 ys ys' st st'
                    Hrun Hrun')).
Defined.
End runs.

(** ** What a standard record holds *)

Module standard_data.
Import np netCDF4 locations scc_netcdf nc_logic.

Lemma ravel_lt (sh idx : list nat) :
  Forall2 lt idx sh -> (ravel sh idx < prod sh)%nat.
Proof.
  intros H. induction H as [|i n idx sh Hi _ IH]; simpl; [lia|].
  fold (prod sh). nia.
Qed.

Lemma unravel_ravel (sh idx : list nat) :
  Forall2 lt idx sh -> unravel sh (ravel sh idx) = idx.
Proof.
  intros H. induction H as [|i n idx sh Hi Hrest IH]; simpl; [done|].
  fold (prod sh). pose proof (ravel_lt sh idx Hrest) as Hlt.
  f_equal.
  - symmetry. apply (Nat.div_unique _ _ _ (ravel sh idx)); lia.
  - rewrite <- IH at 2. f_equal.
    symmetry. apply (Nat.mod_unique _ _ i); lia.
Qed.


Lemma written_at (es : list extent) (data : ndarray Z) (old : list nat -> option Z)
    (idx : list nat) :
  in_extent es idx = true -> shape data <> [] ->
  written es data old idx
  = Some (item data (unravel (shape data) (ravel (free_shape es) (free_index es idx)))).
Proof.
  intros Hin Hsh. unfold written. rewrite Hin. by rewrite bool_decide_eq_false_2.
Qed.

Lemma written_outside (es : list extent) (data : ndarray Z) (old : list nat -> option Z)
    (idx : list nat) :
  in_extent es idx = false -> written es data old idx = old idx.
Proof. intros Hin. unfold written. by rewrite Hin. Qed.

Lemma column_index (n t : nat) :
  unravel [n] (ravel [n; 1%nat] [t; 0%nat]) = [t].
Proof. cbn [unravel ravel prod foldr]. rewrite Nat.div_1_r. f_equal. lia. Qed.

Lemma ltb_true (a b : nat) : (a < b)%nat -> (a <? b)%nat = true.
Proof. apply Nat.ltb_lt. Qed.

(** What [create_scc_netcdf] has written for a view of [profiles]
    profiles and [bins] range bins. *)
Definition standard_contents (pf : PollyXTFile_t) (location_ : Location) (profiles bins : nat)
    (ds : Dataset) : Prop :=
  dimension_size ds "time" = Some profiles
  /\ (forall t c k, (t < profiles)%nat -> (c < 12)%nat -> (k < bins)%nat ->
        read_at ds "Raw_Lidar_Data" [t; c; k] = Some (item (raw_signal pf) [t; k; c]))
  /\ (forall t, (t < profiles)%nat ->
        read_at ds "Raw_Data_Start_Time" [t; 0%nat]
        = Some (item (measurement_time pf) [t; 1%nat]
                - item (measurement_time pf) [0%nat; 1%nat])%Z
        /\ read_at ds "Raw_Data_Stop_Time" [t; 0%nat]
           = Some (item (measurement_time pf) [t; 1%nat]
                   - item (measurement_time pf) [0%nat; 1%nat] + 30)%Z
        /\ read_at ds "Laser_Pointing_Angle_of_Profiles" [t; 0%nat] = Some 0%Z)
  /\ (forall t c, (t < profiles)%nat -> (c < 12)%nat ->
        read_at ds "Laser_Shots" [t; c] = Some (item (measurement_shots pf) [t; c]))
  /\ read ds "Laser_Pointing_Angle"
     = Some [Some (int_of_float (item (zenith_angle pf) []))]
  /\ read ds "id_timescale" = Some (replicate 12 (Some 0%Z))
  /\ read ds "Background_Low" = Some (replicate 12 (Some 0%Z))
  /\ read ds "Background_High" = Some (replicate 12 (Some 249%Z))
  /\ read ds "LR_Input" = Some (replicate 12 (Some 1%Z))
  /\ read ds "Molecular_Calc" = Some [Some 1%Z]
  /\ read ds "Pressure_at_Lidar_Station" = Some [Some 1008%Z]
  /\ read ds "Temperature_at_Lidar_Station" = Some [Some 20%Z]
  /\ read ds "Pol_Calib_Range_Min" = Some (replicate 12 None)
  /\ read ds "Pol_Calib_Range_Max" = Some (replicate 12 None)
  /\ assoc "RawData_Start_Date" (ncattrs ds)
     = Some (AttrStr (datetime.strftime (start_date pf) "%Y%m%d"))
  /\ assoc "RawData_Start_Time_UT" (ncattrs ds)
     = Some (AttrStr (datetime.strftime (start_date pf) "%H%M%S"))
  /\ assoc "RawData_Stop_Time_UT" (ncattrs ds)
     = Some (AttrStr (datetime.strftime (end_date pf) "%H%M%S"))
  /\ assoc "RawBck_Start_Date" (ncattrs ds) = assoc "RawData_Start_Date" (ncattrs ds)
  /\ assoc "RawBck_Start_Time_UT" (ncattrs ds) = assoc "RawData_Start_Time_UT" (ncattrs ds)
  /\ assoc "RawBck_Stop_Time_UT" (ncattrs ds) = assoc "RawData_Stop_Time_UT" (ncattrs ds)
  /\ assoc "Sounding_File_Name" (ncattrs ds)
     = Some (AttrStr ("rs_" +:+ drop_last2 (measurement_id_of pf location_) +:+ ".nc")).

Lemma create_scc_netcdf_contents pf output_path location (fs : filesystem) (p bins : nat) :
  shape (raw_signal pf) = [S p; bins; 12%nat] ->
  shape (measurement_time pf) = [S p; 2%nat] ->
  shape (measurement_shots pf) = [S p; 12%nat] ->
  shape (zenith_angle pf) = [] ->
  exists nc,
    create_scc_netcdf pf output_path location fs
    = (Ok (measurement_id_of pf location,
           standard_record.output_filename pf output_path location),
       <[standard_record.output_filename pf output_path location := nc]> fs)
    /\ standard_contents pf location (S p) bins nc.
Proof.
  intros Hraw Hmt Hshots Hz.
  assert (match create_scc_netcdf pf output_path location fs with
          | (Ok r, fs') =>
              exists nc,
                fs' = <[standard_record.output_filename pf output_path location := nc]> fs
                /\ r = (measurement_id_of pf location,
                        standard_record.output_filename pf output_path location)
                /\ standard_contents pf location (S p) bins nc
          | (Raise e, fs') =>
              exists nc,
                fs' = <[standard_record.output_filename pf output_path location := nc]> fs
                /\ never e nc
          end) as Hrun.
  { unfold create_scc_netcdf.
    apply (wpx_with_dataset never _
             (fun r nc => r = (measurement_id_of pf location,
                               standard_record.output_filename pf output_path location)
                          /\ standard_contents pf location (S p) bins nc)).
    assert (np.size (raw_signal pf) 0 = Ok (S p)) by (unfold np.size; by rewrite Hraw).
    assert (np.size (raw_signal pf) 1 = Ok bins) by (unfold np.size; by rewrite Hraw).
    assert (np.size (raw_signal pf) 2 = Ok 12%nat) by (unfold np.size; by rewrite Hraw).
    assert (getitem (measurement_time pf) [All; Idx 1] = Ok _)
      by (apply getitem_Ok; rewrite Hmt; reflexivity).
    assert (getitem (measurement_time pf) [Idx 0; Idx 1] = Ok _)
      by (apply getitem_Ok; rewrite Hmt; reflexivity).
    assert (getitem (measurement_shots pf) [All] = Ok _)
      by (apply getitem_Ok; rewrite Hshots; reflexivity).
    assert (swapaxes (raw_signal pf) 1 2 = Ok _)
      by (unfold swapaxes; rewrite Hraw; reflexivity).
    assert (item0 (zenith_angle pf) = Ok _)
      by (unfold item0, nelem; rewrite Hz; reflexivity).
    unfold netCDF4.empty.
    repeat nc_step.
    all: split; [reflexivity|].
    all: unfold standard_contents, dimension_size, read_at.
    all: cbn [dimensions variables ncattrs assoc String.eqb Ascii.eqb Bool.eqb andb
              mbind option_bind fmap option_fmap option_map dim_size var_data].
    all: split; [f_equal; lia|].
    all: split; [intros t c k Ht Hc Hk;
                 rewrite written_at by
                   (first [ cbn [in_extent]; rewrite !ltb_true by (assumption || lia); reflexivity
                          | cbn [shape sub_scalar add_const zeros insert list_insert];
                            discriminate ]);
                 cbn [shape free_shape free_index omap list_omap item insert list_insert];
                 rewrite unravel_ravel by
                   (repeat (constructor; [assumption|]); constructor);
                 reflexivity|].
    all: split; [intros t Ht;
                 rewrite !written_at by
                   (first [ cbn [in_extent]; rewrite !ltb_true by (assumption || lia); reflexivity
                          | cbn [shape sub_scalar add_const zeros insert list_insert];
                            discriminate ]);
                 cbn [shape free_shape free_index omap list_omap sub_scalar add_const zeros];
                 rewrite !column_index; done|].
    all: split; [intros t c Ht Hc;
                 rewrite written_at by
                   (first [ cbn [in_extent]; rewrite !ltb_true by (assumption || lia); reflexivity
                          | cbn [shape sub_scalar add_const zeros insert list_insert];
                            discriminate ]);
                 cbn [shape free_shape free_index omap list_omap item];
                 rewrite unravel_ravel by
                   (repeat (constructor; [assumption|]); constructor);
                 reflexivity|].
    all: repeat (split; [reflexivity|]).
    all: reflexivity. }
  destruct (create_scc_netcdf pf output_path location fs) as [[r|e] fs'].
  - destruct Hrun as (nc & -> & -> & Hc). by exists nc.
  - by destruct Hrun as (nc & _ & ?).
Qed.

(** A view of [profiles] profiles and [bins] range bins, as
    [create_scc_netcdf] reads it. *)
Definition view_shape (pf : PollyXTFile_t) (profiles bins : nat) : Prop :=
  shape (raw_signal pf) = [profiles; bins; 12%nat]
  /\ shape (measurement_time pf) = [profiles; 2%nat]
  /\ shape (measurement_shots pf) = [profiles; 12%nat]
  /\ shape (zenith_angle pf) = [].

Lemma view_shape_example (start_date end_date : datetime.t) (profiles bins : nat) :
  view_shape (examples.view start_date end_date profiles bins 12) profiles bins.
Proof. done. Qed.

Lemma create_scc_netcdf_file pf output_path location (fs : filesystem) (p bins : nat) :
  view_shape pf (S p) bins ->
  exists id path fs' nc,
    create_scc_netcdf pf output_path location fs = (Ok (id, path), fs')
    /\ fs' !! path = Some nc
    /\ standard_contents pf location (S p) bins nc.
Proof.
  intros (Hraw & Hmt & Hshots & Hz).
  destruct (create_scc_netcdf_contents pf output_path location fs p bins Hraw Hmt Hshots Hz)
    as (nc & Hrun & Hc).
  eexists _, _, _, nc. split; [exact Hrun|]. split; [apply lookup_insert_eq|done].
Qed.

(** X10.  The lidar data of a standard record is the raw signal with its
    range and channel axes exchanged: the value at profile [t], channel
    [c] and range bin [k] is the raw signal's at [[t; k; c]].  The
    unlimited [time] dimension has grown to the number of profiles. *)
Theorem lidar_data_transposed pf output_path location (fs : filesystem) (p bins : nat) :
  view_shape pf (S p) bins ->
  exists id path fs',
    create_scc_netcdf pf output_path location fs = (Ok (id, path), fs')
    /\ file_dimension fs' path "time" = Some (S p)
    /\ forall t c k, (t < S p)%nat -> (c < 12)%nat -> (k < bins)%nat ->
         file_read_at fs' path "Raw_Lidar_Data" [t; c; k]
         = Some (item (raw_signal pf) [t; k; c]).
Proof.
  intros Hv.
  destruct (create_scc_netcdf_file pf output_path location fs p bins Hv)
    as (id & path & fs' & nc & Hrun & Hnc & Htime & Hlidar & _).
  exists id, path, fs'. split; [done|].
  unfold file_dimension, file_read_at. rewrite Hnc. done.
Qed.

Lemma lidar_data_transposed_witness :
  let pf := examples.view (datetime.mk_datetime 2021 1 1 4 0 30 0)
              (datetime.mk_datetime 2021 1 1 5 0 30 0) 3 5 12 in
  view_shape pf 3 5
  /\ exists id path fs',
       create_scc_netcdf pf "out" examples.site ∅ = (Ok (id, path), fs')
       /\ file_dimension fs' path "time" = Some 3%nat
       /\ file_read_at fs' path "Raw_Lidar_Data" [2; 11; 4]%nat
          = Some (item (raw_signal pf) [2; 4; 11]%nat).
Proof.
  intros pf. split; [apply view_shape_example|].
  destruct (lidar_data_transposed pf "out" examples.site ∅ 2 5
              (view_shape_example _ _ 3 5))
    as (id & path & fs' & Hrun & Htime & Hlidar).
  exists id, path, fs'. split; [exact Hrun|]. split; [exact Htime|].
  apply Hlidar; lia.
Defined.





(** X13.  The tables of a standard record that do not depend on the view:
    twelve entries each for [id_timescale] (0), [Background_Low] (0),
    [Background_High] (249) and [LR_Input] (1); [Molecular_Calc] is 1, the
    pressure 1008 and the temperature 20.  [Pol_Calib_Range_Min] and
    [Pol_Calib_Range_Max] are created but nothing is written to them. *)
Theorem standard_tables pf output_path location (fs : filesystem) (p bins : nat) :
  view_shape pf (S p) bins ->
  exists id path fs',
    create_scc_netcdf pf output_path location fs = (Ok (id, path), fs')
    /\ file_read fs' path "id_timescale" = Some (replicate 12 (Some 0%Z))
    /\ file_read fs' path "Background_Low" = Some (replicate 12 (Some 0%Z))
    /\ file_read fs' path "Background_High" = Some (replicate 12 (Some 249%Z))
    /\ file_read fs' path "LR_Input" = Some (replicate 12 (Some 1%Z))
    /\ file_read fs' path "Molecular_Calc" = Some [Some 1%Z]
    /\ file_read fs' path "Pressure_at_Lidar_Station" = Some [Some 1008%Z]
    /\ file_read fs' path "Temperature_at_Lidar_Station" = Some [Some 20%Z]
    /\ file_read fs' path "Pol_Calib_Range_Min" = Some (replicate 12 None)
    /\ file_read fs' path "Pol_Calib_Range_Max" = Some (replicate 12 None).
Proof.
  intros Hv.
  destruct (create_scc_netcdf_file pf output_path location fs p bins Hv)
    as (id & path & fs' & nc & Hrun & Hnc & _ & _ & _ & _ & _ & H1 & H2 & H3 & H4
        & H5 & H6 & H7 & H8 & H9 & _).
  exists id, path, fs'. split; [done|].
  unfold file_read. rewrite Hnc. simpl. done.
Qed.

Lemma standard_tables_witness :
  let pf := examples.view (datetime.mk_datetime 2021 1 1 4 0 30 0)
              (datetime.mk_datetime 2021 1 1 5 0 30 0) 3 5 12 in
  view_shape pf 3 5
  /\ exists id path fs',
       create_scc_netcdf pf "out" examples.site ∅ = (Ok (id, path), fs')
       /\ file_read fs' path "Background_High" = Some (replicate 12 (Some 249%Z))
       /\ file_read fs' path "Pol_Calib_Range_Min" = Some (replicate 12 None).
Proof.
  intros pf. split; [apply view_shape_example|].
  destruct (standard_tables pf "out" examples.site ∅ 2 5 (view_shape_example _ _ 3 5))
    as (id & path & fs' & Hrun & _ & _ & Hhigh & _ & _ & _ & _ & Hmin & _).
  exists id, path, fs'. split; [exact Hrun|]. split; [exact Hhigh|exact Hmin].
Defined.


(** *** Attributes *)

Lemma append_assoc (a b c : string) : (a +:+ b) +:+ c = a +:+ (b +:+ c).
Proof.
  induction a as [|x a IH]; [done|].
  rewrite !identifiers.append_cons. by rewrite IH.
Qed.

Lemma substring_prefix (s u : string) :
  String.substring 0 (String.length s) (s +:+ u) = s.
Proof.
  induction s as [|c s IH]; [by destruct u|].
  rewrite identifiers.append_cons. simpl. by rewrite IH.
Qed.

Lemma drop_last2_pad2 (s : string) (n : Z) : drop_last2 (s +:+ datetime.pad2 n) = s.
Proof.
  unfold drop_last2. rewrite identifiers.append_length.
  replace (String.length s + String.length (datetime.pad2 n) - 2)%nat
    with (String.length s) by (simpl; lia).
  apply substring_prefix.
Qed.

(** Without its last two characters the identifier of a standard record
    is the identifier of a calibration record for the same start. *)
Lemma drop_last2_measurement_id (pf : PollyXTFile_t) (location : Location) :
  identifiers.percent_free (scc_code location) = true ->
  drop_last2 (measurement_id_of pf location) = calibration_id_of pf location.
Proof.
  intros Hcode.
  rewrite identifiers.measurement_id_format, identifiers.calibration_id_format by done.
  rewrite <- !append_assoc. apply drop_last2_pad2.
Qed.



(** *** Day and night *)

(** The test of [create_scc_netcdf] on the clock of the start. *)
Definition daytime_clock (hour minute : Z) : bool :=
  ((4 <? hour)%Z || ((hour =? 4)%Z && (0 <? minute)%Z)) && (hour <? 16)%Z.

Lemma is_daytime_clock (d : datetime.t) :
  datetime.valid d ->
  is_daytime d = daytime_clock (datetime.hour d) (datetime.minute d).
Proof.
  intros Hd. pose proof (config_id.is_daytime_iff d Hd) as Hiff.
  unfold daytime_clock.
  destruct (is_daytime d).
  - destruct Hiff as [Hiff _]. specialize (Hiff eq_refl). symmetry.
    apply andb_true_iff. rewrite orb_true_iff, andb_true_iff, !Z.ltb_lt, Z.eqb_eq. lia.
  - destruct Hiff as [_ Hiff]. symmetry. apply not_true_is_false. intros Hday.
    apply andb_true_iff in Hday.
    rewrite orb_true_iff, andb_true_iff, !Z.ltb_lt, Z.eqb_eq in Hday.
    by discriminate Hiff; lia.
Qed.

(** X15.  Which configuration a standard record gets depends on the hour
    and the minute of its start alone: the day configuration from 04:01
    to 15:59, the night configuration otherwise, whatever the seconds. *)
Theorem configuration_by_clock pf output_path location (fs fs' : filesystem) id path :
  datetime.valid (start_date pf) ->
  create_scc_netcdf pf output_path location fs = (Ok (id, path), fs') ->
  file_attr fs' path "NOAReACT_Configuration_ID"
  = Some (AttrInt (if daytime_clock (datetime.hour (start_date pf))
                         (datetime.minute (start_date pf))
                   then system_id_day location
                   else system_id_night location)).
Proof.
  intros Hs Hrun.
  destruct (standard_record.create_scc_netcdf_spec _ _ _ _ _ _ _ Hrun)
    as (nc & Hnc & _ & _ & _ & _ & Hconfig & _).
  unfold file_attr. rewrite Hnc. simpl. by rewrite <- is_daytime_clock.
Qed.

Lemma configuration_by_clock_witness :
  let pf := examples.view (datetime.mk_datetime 2021 1 1 15 59 59 0)
              (datetime.mk_datetime 2021 1 1 17 0 0 0) 3 5 12 in
  datetime.valid (start_date pf)
  /\ exists id path fs',
       create_scc_netcdf pf "out" examples.site ∅ = (Ok (id, path), fs')
       /\ file_attr fs' path "NOAReACT_Configuration_ID" = Some (AttrInt 437).
Proof.
  intros pf.
  assert (datetime.valid (start_date pf)) as Hs by (vm_compute; intuition discriminate).
  split; [assumption|].
  destruct (create_scc_netcdf pf "out" examples.site ∅) as [[[id path]|e] fs'] eqn:Hrun;
    [|apply (f_equal fst) in Hrun; vm_compute in Hrun; discriminate].
  exists id, path, fs'. split; [reflexivity|].
  exact (configuration_by_clock pf "out" examples.site ∅ fs' id path Hs Hrun).
Defined.


(** *** Identifier, file name and attribute *)



End standard_data.

(** ** How the builders leave the output file *)

Module builder_failures.
Import np netCDF4 locations scc_netcdf nc_logic.

(** An exception finds the dataset open. *)
Definition left_open : exn -> Dataset -> Prop := fun _ ds => isopen ds = true.

Lemma wpx_lift_open {A} (r : result A) (Q : A -> Dataset -> Prop) D At V :
  (forall a, r = Ok a -> Q a (mkDataset D At V true)) ->
  wpx left_open (lift r) Q (mkDataset D At V true).
Proof. unfold wpx, lift. destruct r; [auto|done]. Qed.

Lemma wpx_setitem_open var sel data dt dims data0 dl
    (Q : unit -> Dataset -> Prop) D At V :
  assoc var V = Some (mkVar dt dims data0) ->
  resolve D dims = Some dl ->
  (forall es, var_extents dl sel (shape data) = Ok es ->
     shape data = [] \/ nelem data = prod (free_shape es) ->
     Q tt (mkDataset (grow D dims es) At
             (assoc_set var (mkVar dt dims (written es data data0)) V) true)) ->
  wpx left_open (setitem var sel data) Q (mkDataset D At V true).
Proof.
  intros Hv Hd HQ. unfold wpx, setitem; simpl.
  rewrite Hv; simpl. rewrite Hd. destruct (var_extents _ _ _) as [es|]; [|done].
  case_bool_decide; [|done]. by apply HQ.
Qed.

(** One step; a check that cannot be decided may fail, and then the
    dataset is still open. *)
Ltac nc_open_step :=
  cbv beta iota zeta;
  lazymatch goal with
  | |- wpx _ (_ ≫= _) _ _ => apply wpx_bind
  | |- wpx _ (setitem _ _ _) _ _ =>
      first
        [ eapply wpx_setitem; [reflexivity | reflexivity | reflexivity | nc_side | ]
        | let es := fresh "es" in
          let He := fresh "He" in
          let Hc := fresh "Hc" in
          eapply wpx_setitem_open; [reflexivity | reflexivity | intros es He Hc];
          first [ apply var_extents_All in He; inv_extents He
                | simpl in He; injection He as <- ] ]
  | |- wpx _ (lift _) _ _ =>
      first [ eapply wpx_lift; [nc_side|]
            | apply wpx_lift_open; intros ? ? ]
  | |- _ => nc_op
  end;
  nc_norm.

Lemma create_scc_netcdf_open pf output_path location (fs : filesystem) :
  match create_scc_netcdf pf output_path location fs with
  | (Ok r, fs') =>
      exists nc, fs' = <[standard_record.output_filename pf output_path location := nc]> fs
                 /\ isopen nc = false
  | (Raise e, fs') =>
      exists nc, fs' = <[standard_record.output_filename pf output_path location := nc]> fs
                 /\ left_open e nc
  end.
Proof.
  unfold create_scc_netcdf.
  apply (wpx_with_dataset left_open _ (fun _ nc => isopen nc = false)).
  unfold netCDF4.empty.
  repeat nc_open_step.
  all: reflexivity.
Qed.

Lemma create_scc_calibration_netcdf_open pf output_path location wavelength lo hi
    (fs : filesystem) :
  match create_scc_calibration_netcdf pf output_path location wavelength lo hi fs with
  | (Ok r, fs') =>
      exists nc, fs' = <[calibration_record.output_filename pf output_path location := nc]> fs
                 /\ isopen nc = false
  | (Raise e, fs') =>
      exists nc, fs' = <[calibration_record.output_filename pf output_path location := nc]> fs
                 /\ left_open e nc
  end.
Proof.
  unfold create_scc_calibration_netcdf.
  apply (wpx_with_dataset left_open _ (fun _ nc => isopen nc = false)).
  unfold netCDF4.empty.
  destruct wavelength as [[|]|repr].
  all: repeat nc_open_step.
  all: reflexivity.
Qed.






(** *** Views that are too short *)

Lemma wpx_lift_raise {A} E (r : result A) (e : exn) (Q : A -> Dataset -> Prop) ds :
  r = Raise e -> E e ds -> wpx E (lift r) Q ds.
Proof. by intros ->. Qed.

(** What is left of a standard record when the view has no profile: the
    dimensions and attributes, and variables without values. *)
Definition no_profile (pf : PollyXTFile_t) (location : Location)
    (e : exn) (ds : Dataset) : Prop :=
  e = IndexError
  /\ isopen ds = true
  /\ dimension_size ds "time" = Some 0%nat
  /\ dimension_size ds "points" = shape (raw_signal pf) !! 1%nat
  /\ assoc "Measurement_ID" (ncattrs ds) = Some (AttrStr (measurement_id_of pf location))
  /\ forall var idx, read_at ds var idx = None.

Lemma create_scc_netcdf_no_profile pf output_path location (fs : filesystem)
    (bins channels : nat) :
  shape (raw_signal pf) = [0%nat; bins; channels] ->
  shape (measurement_time pf) = [0%nat; 2%nat] ->
  exists nc,
    create_scc_netcdf pf output_path location fs
    = (Raise IndexError,
       <[standard_record.output_filename pf output_path location := nc]> fs)
    /\ no_profile pf location IndexError nc.
Proof.
  intros Hraw Hmt.
  assert (match create_scc_netcdf pf output_path location fs with
          | (Ok r, fs') => False
          | (Raise e, fs') =>
              exists nc,
                fs' = <[standard_record.output_filename pf output_path location := nc]> fs
                /\ no_profile pf location e nc
          end) as Hrun.
  { unfold create_scc_netcdf.
    match goal with
    | |- match with_dataset ?f ?body ?fs with _ => _ end =>
        pose proof (wpx_with_dataset (no_profile pf location) body (fun _ _ => False) f fs)
          as Hw
    end.
    match type of Hw with
    | ?P -> _ => assert P as Hbody; [|specialize (Hw Hbody);
        destruct (with_dataset _ _ _) as [[r|e] fs']; [by destruct Hw as (? & _ & ?)|done]]
    end.
    assert (np.size (raw_signal pf) 1 = Ok bins) by (unfold np.size; by rewrite Hraw).
    assert (np.size (raw_signal pf) 2 = Ok channels) by (unfold np.size; by rewrite Hraw).
    assert (getitem (measurement_time pf) [All; Idx 1] = Ok _)
      by (apply getitem_Ok; rewrite Hmt; reflexivity).
    assert (getitem (measurement_time pf) [Idx 0; Idx 1] = Raise IndexError)
      by (unfold getitem; rewrite Hmt; reflexivity).
    unfold netCDF4.empty.
    repeat nc_step.
    all: eapply wpx_lift_raise; [eassumption|].
    all: unfold no_profile, dimension_size; rewrite Hraw; simpl.
    all: do 5 (split; [reflexivity|]).
    all: intros var idx; unfold read_at; cbn [variables assoc].
    all: repeat (destruct (String.eqb var _); [reflexivity|]); reflexivity. }
  destruct (create_scc_netcdf pf output_path location fs) as [[r|e] fs']; [done|].
  destruct Hrun as (nc & -> & Hno). pose proof Hno as (-> & _). eauto.
Qed.


(** X19.  For a view without profiles [create_scc_netcdf] fails: reading
    the time of the first profile raises [IndexError].  By then the file
    has its dimensions and attributes but no value in any variable, and it
    is left like that, open. *)
Theorem no_profile_raises pf output_path location (fs : filesystem)
    (bins channels : nat) :
  shape (raw_signal pf) = [0%nat; bins; channels] ->
  shape (measurement_time pf) = [0%nat; 2%nat] ->
  let file := standard_record.output_filename pf output_path location in
  exists fs',
    create_scc_netcdf pf output_path location fs = (Raise IndexError, fs')
    /\ file_isopen fs' file = Some true
    /\ file_dimension fs' file "time" = Some 0%nat
    /\ file_dimension fs' file "points" = Some bins
    /\ file_attr fs' file "Measurement_ID"
       = Some (AttrStr (measurement_id_of pf location))
    /\ forall var idx, file_read_at fs' file var idx = None.
Proof.
  intros Hraw Hmt file.
  destruct (create_scc_netcdf_no_profile pf output_path location fs bins channels
              Hraw Hmt) as (nc & Hrun & _ & Hopen & Htime & Hpoints & Hid & Hnone).
  eexists. split; [exact Hrun|].
  unfold file_isopen, file_dimension, file_attr, file_read_at, file.
  rewrite lookup_insert_eq. simpl. rewrite Hopen, Htime, Hpoints, Hraw. done.
Qed.

Lemma no_profile_raises_witness :
  let pf := examples.view (datetime.mk_datetime 2021 1 1 4 0 30 0)
              (datetime.mk_datetime 2021 1 1 5 0 30 0) 0 5 12 in
  shape (raw_signal pf) = [0; 5; 12]%nat
  /\ shape (measurement_time pf) = [0; 2]%nat
  /\ exists fs',
       create_scc_netcdf pf "out" examples.site ∅ = (Raise IndexError, fs')
       /\ file_isopen fs' (standard_record.output_filename pf "out" examples.site)
          = Some true.
Proof.
  intros pf. do 2 (split; [reflexivity|]).
  destruct (no_profile_raises pf "out" examples.site ∅ 5 12 eq_refl eq_refl)
    as (fs' & Hrun & Hopen & _).
  exists fs'. split; [exact Hrun|exact Hopen].
Defined.

(** A row of the swapped signal *)
Lemma getitem_row {A} (a : ndarray A) (n channels bins i j : nat) :
  shape a = [n; channels; bins] -> (j < channels)%nat ->
  getitem a [Idx i; Idx j; All]
  = if (i <? n)%nat
    then Ok (np.mk [bins] (fun idx => item a (sel_index [Idx i; Idx j; All] idx)))
    else Raise IndexError.
Proof.
  intros Hsh Hj. unfold getitem. rewrite Hsh. cbn [sel_shape].
  destruct (i <? n)%nat; [|done].
  by rewrite (proj2 (Nat.ltb_lt j channels) Hj).
Qed.

Ltac row_fact Hswap i j :=
  let H := fresh "Hrow" in
  pose proof (getitem_row _ _ _ _ i j Hswap ltac:(lia)) as H;
  first [ rewrite (proj2 (Nat.ltb_lt _ _)) in H by lia
        | rewrite (proj2 (Nat.ltb_ge _ _)) in H by lia
        | clear H ].

Ltac row_facts Hswap j :=
  row_fact Hswap 0%nat j; row_fact Hswap 1%nat j; row_fact Hswap 2%nat j;
  row_fact Hswap 12%nat j; row_fact Hswap 13%nat j; row_fact Hswap 14%nat j.

Definition too_short (e : exn) (ds : Dataset) : Prop :=
  e = IndexError /\ isopen ds = true.

Lemma create_scc_calibration_netcdf_short pf output_path location w lo hi
    (fs : filesystem) (profiles bins channels n c : nat) :
  shape (raw_signal pf) = [profiles; bins; channels] ->
  shape (raw_signal_swap pf) = [n; 6 + c; bins]%nat ->
  (n < 15)%nat ->
  exists nc,
    create_scc_calibration_netcdf pf output_path location (Member w) lo hi fs
    = (Raise IndexError,
       <[calibration_record.output_filename pf output_path location := nc]> fs)
    /\ isopen nc = true.
Proof.
  intros Hraw Hswap Hn.
  assert (match create_scc_calibration_netcdf pf output_path location (Member w) lo hi fs with
          | (Ok r, fs') => False
          | (Raise e, fs') =>
              exists nc,
                fs' = <[calibration_record.output_filename pf output_path location := nc]> fs
                /\ too_short e nc
          end) as Hrun.
  { unfold create_scc_calibration_netcdf.
    match goal with
    | |- match with_dataset ?f ?body ?fs with _ => _ end =>
        pose proof (wpx_with_dataset too_short body (fun _ _ => False) f fs) as Hw
    end.
    match type of Hw with
    | ?P -> _ => assert P as Hbody; [|specialize (Hw Hbody);
        destruct (with_dataset _ _ _) as [[r|e] fs']; [by destruct Hw as (? & _ & ?)|done]]
    end.
    assert (np.size (raw_signal pf) 1 = Ok bins) by (unfold np.size; by rewrite Hraw).
    assert (n = 0 \/ 1 <= n <= 12 \/ n = 13 \/ n = 14)%nat as Hcases by lia.
    unfold netCDF4.empty.
    destruct w; destruct Hcases as [Hc|[Hc|[Hc|Hc]]].
    all: row_facts Hswap 0%nat; row_facts Hswap 1%nat;
         row_facts Hswap 4%nat; row_facts Hswap 5%nat.
    all: repeat first [ nc_step | eapply wpx_lift_raise; [eassumption|] ].
    all: by split. }
  destruct (create_scc_calibration_netcdf _ _ _ _ _ _ fs) as [[r|e] fs']; [done|].
  destruct Hrun as (nc & -> & -> & Hopen). eauto.
Qed.


(** X20.  The calibration builder reads profiles 0, 1, 2 and 12, 13, 14 of
    the view.  For a view of fewer than fifteen profiles it fails with
    [IndexError] at the first profile that is missing, and leaves the file
    it has begun, open. *)
Theorem short_calibration_view_raises pf output_path location w lo hi
    (fs : filesystem) (profiles bins channels n c : nat) :
  shape (raw_signal pf) = [profiles; bins; channels] ->
  shape (raw_signal_swap pf) = [n; 6 + c; bins]%nat ->
  (n < 15)%nat ->
  exists fs',
    create_scc_calibration_netcdf pf output_path location (Member w) lo hi fs
    = (Raise IndexError, fs')
    /\ file_isopen fs' (calibration_record.output_filename pf output_path location)
       = Some true.
Proof.
  intros Hraw Hswap Hn.
  destruct (create_scc_calibration_netcdf_short pf output_path location w lo hi fs
              profiles bins channels n c Hraw Hswap Hn) as (nc & Hrun & Hopen).
  eexists. split; [exact Hrun|].
  unfold file_isopen. rewrite lookup_insert_eq. simpl. by rewrite Hopen.
Qed.

Lemma short_calibration_view_raises_witness :
  let pf := examples.view (datetime.mk_datetime 2021 1 1 2 31 0 0)
              (datetime.mk_datetime 2021 1 1 2 41 0 0) 14 5 12 in
  shape (raw_signal pf) = [14; 5; 12]%nat
  /\ shape (raw_signal_swap pf) = [14; 6 + 6; 5]%nat
  /\ (14 < 15)%nat
  /\ exists fs',
       create_scc_calibration_netcdf pf "out" examples.site (Member NM_532) 1200 2500 ∅
       = (Raise IndexError, fs')
       /\ file_isopen fs' (calibration_record.output_filename pf "out" examples.site)
          = Some true.
Proof.
  intros pf. do 2 (split; [reflexivity|]). split; [lia|].
  exact (short_calibration_view_raises pf "out" examples.site NM_532 1200 2500 ∅
           14 5 12 14 6 eq_refl eq_refl ltac:(lia)).
Defined.

End builder_failures.

(** ** What a calibration record holds *)

Module calibration_data.
Import np netCDF4 locations scc_netcdf nc_logic standard_data.

(** The channels of the view that hold the total and the cross signal *)
Definition total_channel (w : Wavelength) : nat :=
  match w with NM_355 => 0 | NM_532 => 4 end.
Definition cross_channel (w : Wavelength) : nat :=
  match w with NM_355 => 1 | NM_532 => 5 end.

Lemma written_row_miss (i j n i' j' k : nat) (data : ndarray Z)
    (old : list nat -> option Z) :
  (i =? i')%nat && (j =? j')%nat = false ->
  written [At i; At j; Span n] data old [i'; j'; k] = old [i'; j'; k].
Proof.
  intros Hne. apply written_outside. cbn [in_extent].
  destruct (i =? i')%nat, (j =? j')%nat; done.
Qed.

Lemma written_row_hit (i j n k : nat) (f : list nat -> Z) (old : list nat -> option Z) :
  (k < n)%nat ->
  written [At i; At j; Span n] (np.mk [n] f) old [i; j; k] = Some (f [k]).
Proof.
  intros Hk. rewrite written_at.
  - cbn [shape free_shape free_index omap list_omap item].
    rewrite unravel_ravel by (constructor; [done|constructor]). done.
  - cbn [in_extent]. by rewrite !Nat.eqb_refl, (ltb_true _ _ Hk).
  - done.
Qed.

Definition calibration_contents (pf : PollyXTFile_t) (w : Wavelength) (lo hi : Z)
    (bins : nat) (ds : Dataset) : Prop :=
  (forall cycle k, (cycle < 3)%nat -> (k < bins)%nat ->
     read_at ds "Raw_Lidar_Data" [cycle; 0%nat; k]
     = Some (item (raw_signal_swap pf) [cycle; cross_channel w; k])
     /\ read_at ds "Raw_Lidar_Data" [cycle; 1%nat; k]
        = Some (item (raw_signal_swap pf) [cycle; total_channel w; k])
     /\ read_at ds "Raw_Lidar_Data" [cycle; 2%nat; k]
        = Some (item (raw_signal_swap pf) [(12 + cycle)%nat; cross_channel w; k])
     /\ read_at ds "Raw_Lidar_Data" [cycle; 3%nat; k]
        = Some (item (raw_signal_swap pf) [(12 + cycle)%nat; total_channel w; k]))
  /\ read ds "Raw_Data_Start_Time" = Some [Some 0; Some 1; Some 2]%Z
  /\ read ds "Raw_Data_Stop_Time" = Some [Some 12; Some 13; Some 14]%Z
  /\ read ds "Laser_Shots" = Some (replicate 12 (Some 600%Z))
  /\ read ds "Pol_Calib_Range_Min" = Some (replicate 4 (Some lo))
  /\ read ds "Pol_Calib_Range_Max" = Some (replicate 4 (Some hi))
  /\ read ds "Molecular_Calc" = Some [Some 0%Z]
  /\ read ds "Laser_Pointing_Angle" = Some [Some 5%Z]
  /\ read ds "Laser_Pointing_Angle_of_Profiles" = Some (replicate 3 (Some 0%Z))
  /\ read ds "id_timescale" = Some (replicate 4 (Some 0%Z))
  /\ read ds "Background_Low" = Some (replicate 4 (Some 0%Z))
  /\ read ds "Background_High" = Some (replicate 4 (Some 249%Z))
  /\ read ds "Pressure_at_Lidar_Station" = Some [Some 1008%Z]
  /\ read ds "Temperature_at_Lidar_Station" = Some [Some 20%Z]
  /\ read ds "LR_Input" = None
  /\ assoc "Sounding_File_Name" (ncattrs ds) = None
  /\ assoc "NOAReACT_Configuration_ID" (ncattrs ds) = None.

Lemma create_scc_calibration_netcdf_contents pf output_path location w lo hi
    (fs : filesystem) (profiles bins channels p c : nat) :
  shape (raw_signal pf) = [profiles; bins; channels] ->
  shape (raw_signal_swap pf) = [15 + p; 6 + c; bins]%nat ->
  exists nc,
    create_scc_calibration_netcdf pf output_path location (Member w) lo hi fs
    = (Ok (calibration_id_of pf location,
           calibration_record.output_filename pf output_path location),
       <[calibration_record.output_filename pf output_path location := nc]> fs)
    /\ calibration_contents pf w lo hi bins nc.
Proof.
  intros Hraw Hswap.
  assert (match create_scc_calibration_netcdf pf output_path location (Member w) lo hi fs with
          | (Ok r, fs') =>
              exists nc,
                fs' = <[calibration_record.output_filename pf output_path location := nc]> fs
                /\ r = (calibration_id_of pf location,
                        calibration_record.output_filename pf output_path location)
                /\ calibration_contents pf w lo hi bins nc
          | (Raise e, fs') =>
              exists nc,
                fs' = <[calibration_record.output_filename pf output_path location := nc]> fs
                /\ never e nc
          end) as Hrun.
  { unfold create_scc_calibration_netcdf.
    apply (wpx_with_dataset never _
             (fun r nc => r = (calibration_id_of pf location,
                               calibration_record.output_filename pf output_path location)
                          /\ calibration_contents pf w lo hi bins nc)).
    assert (np.size (raw_signal pf) 1 = Ok bins) by (unfold np.size; by rewrite Hraw).
    destruct (raw_signal_swap pf) as [ssh sitem] eqn:Hs; simpl in Hswap; subst ssh.
    unfold netCDF4.empty.
    destruct w.
    all: repeat nc_step.
    all: split; [reflexivity|].
    all: unfold calibration_contents, read_at; rewrite Hs.
    all: cbn [variables ncattrs assoc String.eqb Ascii.eqb Bool.eqb andb
              mbind option_bind var_data item total_channel cross_channel].
    all: split;
      [intros cycle k Hcycle Hk;
       destruct cycle as [|[|[|cycle]]]; [| | |lia];
       cbn [Nat.add];
       (repeat split);
       rewrite ?written_row_miss by reflexivity;
       rewrite written_row_hit by done; reflexivity|].
    all: repeat (split; [reflexivity|]).
    all: reflexivity. }
  destruct (create_scc_calibration_netcdf _ _ _ _ _ _ fs) as [[r|e] fs'].
  - destruct Hrun as (nc & -> & -> & Hc). by exists nc.
  - by destruct Hrun as (nc & _ & ?).
Qed.


(** X21.  The lidar data of a calibration record: for each of the three
    cycles, channel 0 is the cross signal and channel 1 the total signal
    of profile [cycle], channels 2 and 3 the cross and total signal of
    profile [12 + cycle]; total and cross are channels 0 and 1 of the view
    for 355 nm, 4 and 5 for 532 nm. *)
Theorem calibration_cycles_copied pf output_path location w lo hi (fs : filesystem)
    (profiles bins channels p c : nat) :
  shape (raw_signal pf) = [profiles; bins; channels] ->
  shape (raw_signal_swap pf) = [15 + p; 6 + c; bins]%nat ->
  exists id path fs',
    create_scc_calibration_netcdf pf output_path location (Member w) lo hi fs
    = (Ok (id, path), fs')
    /\ forall cycle k, (cycle < 3)%nat -> (k < bins)%nat ->
         file_read_at fs' path "Raw_Lidar_Data" [cycle; 0%nat; k]
         = Some (item (raw_signal_swap pf) [cycle; cross_channel w; k])
         /\ file_read_at fs' path "Raw_Lidar_Data" [cycle; 1%nat; k]
            = Some (item (raw_signal_swap pf) [cycle; total_channel w; k])
         /\ file_read_at fs' path "Raw_Lidar_Data" [cycle; 2%nat; k]
            = Some (item (raw_signal_swap pf) [(12 + cycle)%nat; cross_channel w; k])
         /\ file_read_at fs' path "Raw_Lidar_Data" [cycle; 3%nat; k]
            = Some (item (raw_signal_swap pf) [(12 + cycle)%nat; total_channel w; k]).
Proof.
  intros Hraw Hswap.
  destruct (create_scc_calibration_netcdf_contents pf output_path location w lo hi fs
              profiles bins channels p c Hraw Hswap) as (nc & Hrun & Hrows & _).
  eexists _, _, _. split; [exact Hrun|].
  unfold file_read_at. rewrite lookup_insert_eq. exact Hrows.
Qed.

Lemma calibration_cycles_copied_witness :
  let pf := examples.view (datetime.mk_datetime 2021 1 1 2 31 0 0)
              (datetime.mk_datetime 2021 1 1 2 41 0 0) 20 5 12 in
  shape (raw_signal pf) = [20; 5; 12]%nat
  /\ shape (raw_signal_swap pf) = [15 + 5; 6 + 6; 5]%nat
  /\ exists id path fs',
       create_scc_calibration_netcdf pf "out" examples.site (Member NM_532) 1200 2500 ∅
       = (Ok (id, path), fs')
       /\ file_read_at fs' path "Raw_Lidar_Data" [1; 2; 3]%nat
          = Some (item (raw_signal_swap pf) [13; 5; 3]%nat).
Proof.
  intros pf. do 2 (split; [reflexivity|]).
  destruct (calibration_cycles_copied pf "out" examples.site NM_532 1200 2500 ∅
              20 5 12 5 6 eq_refl eq_refl) as (id & path & fs' & Hrun & Hrows).
  exists id, path, fs'. split; [exact Hrun|].
  destruct (Hrows 1%nat 3%nat ltac:(lia) ltac:(lia)) as (_ & _ & H2 & _). exact H2.
Defined.

(** X22.  The tables of a calibration record: start times 0, 1, 2 and stop
    times 12, 13, 14; 600 shots for each cycle and channel; the two range
    arguments repeated for the four channels; [Molecular_Calc] 0 and
    pointing angle 5.  There is no [LR_Input] variable and neither a
    sounding file name nor a configuration among the attributes. *)
Theorem calibration_tables pf output_path location w lo hi (fs : filesystem)
    (profiles bins channels p c : nat) :
  shape (raw_signal pf) = [profiles; bins; channels] ->
  shape (raw_signal_swap pf) = [15 + p; 6 + c; bins]%nat ->
  exists id path fs',
    create_scc_calibration_netcdf pf output_path location (Member w) lo hi fs
    = (Ok (id, path), fs')
    /\ file_read fs' path "Raw_Data_Start_Time" = Some [Some 0; Some 1; Some 2]%Z
    /\ file_read fs' path "Raw_Data_Stop_Time" = Some [Some 12; Some 13; Some 14]%Z
    /\ file_read fs' path "Laser_Shots" = Some (replicate 12 (Some 600%Z))
    /\ file_read fs' path "Pol_Calib_Range_Min" = Some (replicate 4 (Some lo))
    /\ file_read fs' path "Pol_Calib_Range_Max" = Some (replicate 4 (Some hi))
    /\ file_read fs' path "Molecular_Calc" = Some [Some 0%Z]
    /\ file_read fs' path "Laser_Pointing_Angle" = Some [Some 5%Z]
    /\ file_read fs' path "LR_Input" = None
    /\ file_attr fs' path "Sounding_File_Name" = None
    /\ file_attr fs' path "NOAReACT_Configuration_ID" = None.
Proof.
  intros Hraw Hswap.
  destruct (create_scc_calibration_netcdf_contents pf output_path location w lo hi fs
              profiles bins channels p c Hraw Hswap)
    as (nc & Hrun & _ & H1 & H2 & H3 & H4 & H5 & H6 & H7 & _ & _ & _ & _ & _ & _
        & H8 & H9 & H10).
  eexists _, _, _. split; [exact Hrun|].
  unfold file_read, file_attr. rewrite lookup_insert_eq. simpl. done.
Qed.

Lemma calibration_tables_witness :
  let pf := examples.view (datetime.mk_datetime 2021 1 1 2 31 0 0)
              (datetime.mk_datetime 2021 1 1 2 41 0 0) 20 5 12 in
  shape (raw_signal pf) = [20; 5; 12]%nat
  /\ shape (raw_signal_swap pf) = [15 + 5; 6 + 6; 5]%nat
  /\ exists id path fs',
       create_scc_calibration_netcdf pf "out" examples.site (Member NM_532) 1200 2500 ∅
       = (Ok (id, path), fs')
       /\ file_read fs' path "Raw_Data_Stop_Time" = Some [Some 12; Some 13; Some 14]%Z
       /\ file_read fs' path "Pol_Calib_Range_Max" = Some (replicate 4 (Some 2500%Z)).
Proof.
  intros pf. do 2 (split; [reflexivity|]).
  destruct (calibration_tables pf "out" examples.site NM_532 1200 2500 ∅
              20 5 12 5 6 eq_refl eq_refl)
    as (id & path & fs' & Hrun & _ & Hstop & _ & _ & Hmax & _).
  exists id, path, fs'. split; [exact Hrun|]. split; [exact Hstop|exact Hmax].
Defined.

(** X25.  In every calibration record that the builder writes there are
    four channels and three times, as many points as the raw signal has
    along axis 1, and [channel_ID] holds 1236, 1266, 1267, 1268 for
    355 nm and 1269, 1270, 1271, 1272 for 532 nm. *)
Theorem calibration_channels pf output_path location w lo hi (fs fs' : filesystem)
    id path :
  create_scc_calibration_netcdf pf output_path location (Member w) lo hi fs
  = (Ok (id, path), fs') ->
  file_dimension fs' path "channels" = Some 4%nat
  /\ file_dimension fs' path "time" = Some 3%nat
  /\ file_dimension fs' path "points" = shape (raw_signal pf) !! 1%nat
  /\ file_read fs' path "channel_ID"
     = Some (match w with
             | NM_355 => [Some 1236; Some 1266; Some 1267; Some 1268]
             | NM_532 => [Some 1269; Some 1270; Some 1271; Some 1272]
             end)%Z.
Proof.
  intros Hrun.
  destruct (calibration_record.create_scc_calibration_netcdf_spec
              _ _ _ _ _ _ _ _ _ _ Hrun)
    as (nc & Hnc & _ & _ & Hids & Hch & Htime & Hpoints & _).
  unfold file_dimension, file_read. rewrite Hnc. simpl.
  rewrite Hch, Htime, Hpoints, Hids. by destruct w.
Qed.

Lemma calibration_channels_witness :
  let pf := examples.view (datetime.mk_datetime 2021 1 1 2 31 0 0)
              (datetime.mk_datetime 2021 1 1 2 41 0 0) 20 5 12 in
  exists id path fs',
    create_scc_calibration_netcdf pf "out" examples.site (Member NM_355) 1200 2500 ∅
    = (Ok (id, path), fs')
    /\ file_dimension fs' path "points" = Some 5%nat
    /\ file_read fs' path "channel_ID"
       = Some [Some 1236; Some 1266; Some 1267; Some 1268]%Z.
Proof.
  intros pf.
  destruct (create_scc_calibration_netcdf pf "out" examples.site (Member NM_355)
              1200 2500 ∅) as [[[id path]|e] fs'] eqn:Hrun;
    [|apply (f_equal fst) in Hrun; vm_compute in Hrun; discriminate].
  exists id, path, fs'. split; [reflexivity|].
  destruct (calibration_channels pf "out" examples.site NM_355 1200 2500 ∅ fs' id path
              Hrun) as (_ & _ & Hpoints & Hids).
  split; [exact Hpoints|exact Hids].
Defined.
End calibration_data.

(** ** Measurements: table rows and CSV lines *)

Module measurement_rows.
Import locations scc_access table_row period_strings.

Section parsing.

Variable strptime : string -> string -> result datetime.t.
Variable get_location_by_scc_code : string -> result Location.

Abbreviation parse := (from_table_row strptime get_location_by_scc_code).

Lemma dot_text_Some (tag : option node) (s : string) :
  dot_text tag = Ok s -> is_Some tag.
Proof. destruct tag; [eauto|done]. Qed.

Lemma dot_child_Some (name : string) (tag r : option node) :
  dot_child name tag = Ok r -> is_Some tag.
Proof. destruct tag; [eauto|done]. Qed.

Lemma scc_date_Some (tag : option node) (d : datetime.t) :
  scc_date strptime tag = Ok d -> is_Some tag.
Proof. destruct tag; [eauto|done]. Qed.

Lemma scc_bool_Some (tag : option node) (b : bool) :
  scc_bool tag = Ok b -> is_Some tag.
Proof. destruct tag; [eauto|done]. Qed.

(** The flag of a cell: whether the [alt] of its first [img] is [True],
    letter for letter. *)
Lemma scc_bool_alt (tag : option node) (b : bool) :
  scc_bool tag = Ok b ->
  exists cell alt,
    tag = Some cell
    /\ subscript (find "img" None cell) "alt" = Ok alt
    /\ b = String.eqb alt "True".
Proof.
  destruct tag as [cell|]; [|done]. unfold scc_bool. simpl.
  destruct (subscript (find "img" None cell) "alt") as [alt|e] eqn:Halt; [|done].
  simpl. intros [= <-]. eauto.
Qed.

(** X23.  [from_table_row] returns a measurement only for a row that holds
    each of the fourteen cells it looks up; the measurement's location is
    the one that [get_location_by_scc_code] gives for its station code,
    its identifier is the text of the [field-id] cell, and each flag is
    that of its cell ([is_uploaded] of [field-upload_ok], [is_processing]
    of [field-is_being_processed]). *)
Theorem from_table_row_fields (tr : node) (m : Measurement) :
  parse tr = Ok m ->
  Forall (fun c => is_Some (find c.1 (Some c.2) tr)) consulted_cells
  /\ get_location_by_scc_code (station_code m) = Ok (location m)
  /\ dot_text (find "td" (Some "field-id") tr) = Ok (id m)
  /\ scc_date strptime (find "td" (Some "field-start") tr) = Ok (date_start m)
  /\ scc_date strptime (find "td" (Some "field-stop") tr) = Ok (date_end m)
  /\ scc_bool (find "td" (Some "field-upload_ok") tr) = Ok (is_uploaded m)
  /\ scc_bool (find "td" (Some "field-hirelpp_ok") tr) = Ok (has_hirelpp m)
  /\ scc_bool (find "td" (Some "field-cloudmask_ok") tr) = Ok (has_cloudmask m)
  /\ scc_bool (find "td" (Some "field-elpp_ok") tr) = Ok (has_elpp m)
  /\ scc_bool (find "td" (Some "field-elic_ok") tr) = Ok (has_elic m)
  /\ scc_bool (find "td" (Some "field-elquick_ok") tr) = Ok (has_elquick m)
  /\ scc_bool (find "td" (Some "field-is_being_processed") tr) = Ok (is_processing m).
Proof.
  unfold from_table_row. intros H.
  repeat match type of H with
         | mbind _ ?x = _ =>
             let E := fresh "E" in
             destruct x eqn:E; cbn [mbind result_bind] in H; [|discriminate]
         end.
  injection H as <-. cbn [station_code location id date_start date_end is_uploaded
    has_hirelpp has_cloudmask has_elpp has_elic has_elquick is_processing].
  split; [|done].
  unfold consulted_cells.
  repeat (apply Forall_cons; split;
          [cbn [fst snd];
           eauto using dot_text_Some, dot_child_Some, scc_date_Some, scc_bool_Some|]).
  apply Forall_nil. done.
Qed.

End parsing.

Lemma from_table_row_fields_witness :
  exists m,
    from_table_row examples.strptime_fixed examples.location_of
      (examples.table_row "True" "False") = Ok m
    /\ id m = "20210101aky0006"
    /\ location m = examples.site
    /\ is_uploaded m = true /\ has_elquick m = false.
Proof.
  destruct (from_table_row examples.strptime_fixed examples.location_of
              (examples.table_row "True" "False")) as [m|e] eqn:Hparse;
    [|vm_compute in Hparse; discriminate].
  exists m. split; [reflexivity|].
  destruct (from_table_row_fields examples.strptime_fixed examples.location_of _ m Hparse)
    as (_ & Hloc & Hid & _ & _ & Hup & _ & _ & _ & _ & Hquick & _).
  assert (dot_text (find "td" (Some "field-id") (examples.table_row "True" "False"))
          = Ok "20210101aky0006") as Hid' by (vm_compute; reflexivity).
  assert (scc_bool (find "td" (Some "field-upload_ok") (examples.table_row "True" "False"))
          = Ok true) as Hup' by (vm_compute; reflexivity).
  assert (scc_bool (find "td" (Some "field-elquick_ok") (examples.table_row "True" "False"))
          = Ok false) as Hquick' by (vm_compute; reflexivity).
  unfold examples.location_of in Hloc.
  split; [congruence|]. split; [congruence|]. split; congruence.
Defined.

(** *** [to_csv] *)

Definition comma_free (s : string) : Prop := occurrences "," s = 0%nat.

Lemma occurrences_app (c : ascii) (a b : string) :
  occurrences c (a +:+ b) = (occurrences c a + occurrences c b)%nat.
Proof.
  induction a as [|x a IH]; [done|].
  rewrite identifiers.append_cons. simpl. rewrite IH. lia.
Qed.

Lemma split_free (sep : ascii) (s : string) :
  occurrences sep s = 0%nat -> split sep s = [s].
Proof.
  induction s as [|c s IH]; [done|]. simpl.
  destruct (Ascii.eqb c sep); [done|]. simpl. intros H. by rewrite IH.
Qed.

Lemma split_field (sep : ascii) (s rest : string) :
  occurrences sep s = 0%nat ->
  split sep (s +:+ String sep rest) = s :: split sep rest.
Proof.
  induction s as [|c s IH].
  - intros _. rewrite identifiers.append_nil. apply split_sep.
  - rewrite identifiers.append_cons. simpl.
    destruct (Ascii.eqb c sep); [done|]. simpl. intros H. by rewrite IH.
Qed.

Lemma comma_append (s : string) : "," +:+ s = String "," s.
Proof. reflexivity. Qed.

Lemma pad2_comma_free (n : Z) : comma_free (datetime.pad2 n).
Proof.
  unfold comma_free, datetime.pad2. cbn [occurrences].
  by rewrite !(digit_not ",").
Qed.

Lemma pad4_comma_free (n : Z) : comma_free (datetime.pad4 n).
Proof.
  unfold comma_free, datetime.pad4, datetime.pad2. cbn [occurrences].
  by rewrite !(digit_not ",").
Qed.

Lemma pad6_comma_free (n : Z) : comma_free (datetime.pad6 n).
Proof.
  unfold comma_free, datetime.pad6, datetime.pad4, datetime.pad2. cbn [occurrences].
  by rewrite !(digit_not ",").
Qed.

Lemma isoformat_comma_free (d : datetime.t) : comma_free (datetime.isoformat d).
Proof.
  unfold comma_free, datetime.isoformat.
  rewrite !occurrences_app.
  rewrite !(pad2_comma_free _), (pad4_comma_free _).
  destruct (datetime.microsecond d =? 0)%Z; [done|].
  rewrite occurrences_app. by rewrite (pad6_comma_free _).
Qed.

Lemma str_bool_comma_free (b : bool) : comma_free (str_bool b).
Proof. by destruct b. Qed.

Section csv.

Variable name : Location -> string.

(** X24.  The line that [to_csv] gives splits at its commas into fifteen
    fields when the identifier, the name of the location and the station
    code hold no comma: these three, the four dates in ISO format, and
    eight flags written [True] or [False].  [is_processing] is not among
    them. *)
Theorem to_csv_fields (m : Measurement) :
  comma_free (id m) -> comma_free (name (location m)) -> comma_free (station_code m) ->
  split "," (to_csv name m)
  = [ id m; name (location m); station_code m;
      datetime.isoformat (date_start m); datetime.isoformat (date_end m);
      datetime.isoformat (date_creation m); datetime.isoformat (date_updated m);
      str_bool (is_uploaded m); str_bool (has_hirelpp m); str_bool (has_cloudmask m);
      str_bool (has_elpp m); str_bool (has_elda m); str_bool (has_eldec m);
      str_bool (has_elic m); str_bool (has_elquick m) ].
Proof.
  intros Hid Hname Hcode. unfold to_csv.
  rewrite !comma_append.
  rewrite (split_field "," (id m)) by done.
  rewrite (split_field "," (name _)) by done.
  rewrite (split_field "," (station_code m)) by done.
  rewrite !(split_field "," (datetime.isoformat _)) by apply isoformat_comma_free.
  rewrite !(split_field "," (str_bool _)) by apply str_bool_comma_free.
  rewrite split_free by apply str_bool_comma_free. done.
Qed.

End csv.

Lemma to_csv_fields_witness :
  let m := mkMeasurement "20210101aky0006" "aky" examples.site
             (datetime.mk_datetime 2021 1 1 0 0 0 0)
             (datetime.mk_datetime 2021 1 1 6 0 0 0)
             (datetime.mk_datetime 2021 1 2 10 0 0 0)
             (datetime.mk_datetime 2021 1 2 10 5 0 250000)
             true true false true false false true false true in
  let name := fun _ : Location => "Antikythera" in
  comma_free (id m) /\ comma_free (name (location m)) /\ comma_free (station_code m)
  /\ to_csv name m
     = "20210101aky0006,Antikythera,aky,2021-01-01T00:00:00,2021-01-01T06:00:00,2021-01-02T10:00:00,2021-01-02T10:05:00.250000,True,True,False,True,False,False,True,False"
  /\ split "," (to_csv name m)
     = ["20210101aky0006"; "Antikythera"; "aky"; "2021-01-01T00:00:00";
        "2021-01-01T06:00:00"; "2021-01-02T10:00:00"; "2021-01-02T10:05:00.250000";
        "True"; "True"; "False"; "True"; "False"; "False"; "True"; "False"].
Proof.
  intros m name. do 3 (split; [reflexivity|]). split; [vm_compute; reflexivity|].
  exact (to_csv_fields name m eq_refl eq_refl eq_refl).
Defined.

End measurement_rows.
